(** * RAG service: ingestion, query and retraining pipeline

    A shallow embedding of [rag_service/config.py], [rag_service/ingest.py],
    [rag_service/query.py], [rag_service/retrain.py], the components of
    [rag_service/app.py] with its routes that take no upload, and
    [scripts/retrain_flow.py], with the properties the specification
    states about them and further properties of the code.

    Conventions.
    - A Python [str] is a Rocq [string] holding the UTF-8 encoding of the
      text; [bytes] is [list byte]; a count ([len], [top_k], a vector
      size) is a [nat], any other [int] a [Z], a [float] a [float].
    - Every method runs in the monad [M]: it may raise an [Exception], it
      appends to the log, and it talks to the outside (the Qdrant server,
      the embedding and generation providers) through calls whose
      failures are driven by a schedule stored in the [World]. The module
      object [settings] is an argument of every method that reads it.
    - Third-party code (tiktoken, PyPDF2, the langchain splitter, the
      providers' models) is the fields of the class [Libraries]: the
      theorems hold for every implementation of them. The parts of
      langchain and of the Qdrant client the service calls are written
      out, over an in-memory Qdrant server; what that server reports
      as the approximate size of a collection is the field of the class
      [QdrantServer].
    - The file has the definitions first: Python helpers, the world and
      the monad, the service, the four modules of the repository, the
      vocabulary of the properties and a small implementation of the
      libraries for the examples. The lemmas and theorems follow, by
      component, and the examples close the file. *)

From Stdlib Require Import ZArith QArith Qcanon String Ascii List Lia PrimFloat.
From Stdlib.Strings Require Import Byte.
From stdpp Require Import base option gmap strings list sorting pretty.

Open Scope string_scope.
Open Scope list_scope.
Open Scope stdpp_scope.

(* ===================================================================== *)
(** ** Python strings and bytes *)
(* ===================================================================== *)

Module Py.

(** Code of a character (a byte of the UTF-8 encoding). *)
Definition code (c : ascii) : N := N_of_ascii c.

Definition between (lo hi : N) (c : ascii) : bool :=
  ((lo <=? code c) && (code c <=? hi))%N.

(** [str.lower]. The upper-case ASCII letters and the Kelvin sign
    (U+212A, bytes E2 84 AA) are the characters whose lower case is an
    ASCII letter; every other character is left as it is, which no
    comparison of this program with an ASCII literal can tell from its
    Unicode lower case. *)
Definition lower_ascii (c : ascii) : ascii :=
  if between 65 90 c then ascii_of_N (code c + 32) else c.

Fixpoint lower (s : string) : string :=
  match s with
  | EmptyString => EmptyString
  | String c1 t1 =>
      match t1 with
      | String c2 (String c3 t3) =>
          if ((code c1 =? 226) && (code c2 =? 132) && (code c3 =? 170))%N
          then String "k" (lower t3)
          else String (lower_ascii c1) (lower t1)
      | _ => String (lower_ascii c1) (lower t1)
      end
  end.

(** [s.endswith(suffix)]. *)
Definition endswith (s suffix : string) : bool :=
  (String.length suffix <=? String.length s)%nat
  && String.eqb (substring (String.length s - String.length suffix)
                           (String.length suffix) s) suffix.

(** [s.endswith((a, b, ...))]. *)
Definition endswith_any (s : string) (suffixes : list string) : bool :=
  existsb (endswith s) suffixes.

(** [sub in s]. *)
Fixpoint contains (sub s : string) : bool :=
  if String.prefix sub s then true
  else match s with
       | EmptyString => false
       | String _ t => contains sub t
       end.

(** The characters [str.strip] removes, in their UTF-8 encoding:
    U+0009..U+000D, U+001C..U+0020, U+0085, U+00A0, U+1680,
    U+2000..U+200A, U+2028, U+2029, U+202F, U+205F, U+3000. *)
Definition space1 (c : ascii) : bool :=
  between 9 13 c || between 28 32 c.

Definition space2 (c1 c2 : ascii) : bool :=
  ((code c1 =? 194) && ((code c2 =? 133) || (code c2 =? 160)))%N.

Definition space3 (c1 c2 c3 : ascii) : bool :=
  (((code c1 =? 225) && (code c2 =? 154) && (code c3 =? 128))
   || ((code c1 =? 226) && (code c2 =? 128)
       && (between 128 138 c3 || (code c3 =? 168) || (code c3 =? 169)
           || (code c3 =? 175)))
   || ((code c1 =? 226) && (code c2 =? 129) && (code c3 =? 159))
   || ((code c1 =? 227) && (code c2 =? 128) && (code c3 =? 128)))%N.

(** [s.lstrip()]. *)
Fixpoint lstrip (s : string) : string :=
  match s with
  | EmptyString => EmptyString
  | String c1 t1 =>
      if space1 c1 then lstrip t1
      else match t1 with
           | EmptyString => s
           | String c2 t2 =>
               if space2 c1 c2 then lstrip t2
               else match t2 with
                    | EmptyString => s
                    | String c3 t3 =>
                        if space3 c1 c2 c3 then lstrip t3 else s
                    end
           end
  end.

(** [s.rstrip()]: the longest suffix made of white space is dropped. *)
Fixpoint rstrip (s : string) : string :=
  match s with
  | EmptyString => EmptyString
  | String c t =>
      if String.eqb (lstrip s) EmptyString then EmptyString
      else String c (rstrip t)
  end.

(** [s.strip()]. *)
Definition strip (s : string) : string := rstrip (lstrip s).

(** [s.isspace()]: at least one character, and all of them white space. *)
Definition isspace (s : string) : bool :=
  negb (String.eqb s EmptyString) && String.eqb (lstrip s) EmptyString.

(** [sep.join(parts)]. *)
Fixpoint join (sep : string) (parts : list string) : string :=
  match parts with
  | [] => EmptyString
  | [p] => p
  | p :: rest => p +:+ sep +:+ join sep rest
  end.

(** Well-formed UTF-8 (the byte sequences [bytes.decode('utf-8')]
    accepts): no overlong form, no surrogate, nothing above U+10FFFF. *)
Definition cont (lo hi : N) (b : N) : bool := ((lo <=? b) && (b <=? hi))%N.

Fixpoint utf8_valid (bs : list N) : bool :=
  match bs with
  | [] => true
  | b1 :: t1 =>
      if (b1 <=? 127)%N then utf8_valid t1
      else match t1 with
           | [] => false
           | b2 :: t2 =>
               if cont 194 223 b1 then cont 128 191 b2 && utf8_valid t2
               else match t2 with
                    | [] => false
                    | b3 :: t3 =>
                        if (b1 =? 224)%N then
                          cont 160 191 b2 && cont 128 191 b3 && utf8_valid t3
                        else if cont 225 236 b1 || cont 238 239 b1 then
                          cont 128 191 b2 && cont 128 191 b3 && utf8_valid t3
                        else if (b1 =? 237)%N then
                          cont 128 159 b2 && cont 128 191 b3 && utf8_valid t3
                        else match t3 with
                             | [] => false
                             | b4 :: t4 =>
                                 let tail :=
                                   cont 128 191 b3 && cont 128 191 b4
                                   && utf8_valid t4 in
                                 if (b1 =? 240)%N then cont 144 191 b2 && tail
                                 else if cont 241 243 b1 then
                                   cont 128 191 b2 && tail
                                 else if (b1 =? 244)%N then
                                   cont 128 143 b2 && tail
                                 else false
                             end
                    end
           end
  end.

(** [s[:n]]: the first [n] characters. A character is a byte that is not
    a continuation byte (10xxxxxx) with the continuation bytes after it. *)
Definition continuation (c : ascii) : bool := between 128 191 c.

Fixpoint prefix_chars (n : nat) (s : string) : string :=
  match s with
  | EmptyString => EmptyString
  | String c t =>
      if continuation c then String c (prefix_chars n t)
      else match n with
           | O => EmptyString
           | S n' => String c (prefix_chars n' t)
           end
  end.

End Py.

(** A line feed. *)
Definition nl : string := String (ascii_of_nat 10) EmptyString.

(* ===================================================================== *)
(** ** Exceptions, log records, handles *)
(* ===================================================================== *)

(** The exceptions the service raises itself ([ValueError]), the one
    [bytes.decode] raises, the one a missing attribute raises, and
    whatever a library or a remote service raises. *)
Inductive Exception : Type :=
| ValueError (msg : string)
| UnicodeDecodeError
| AttributeError (msg : string)
| LibraryError (origin msg : string).

Inductive Result (A : Type) : Type :=
| Ok (a : A)
| Raise (e : Exception).

Arguments Ok {A} a.
Arguments Raise {A} e.

(** [str(e)]: the message an exception carries. [UnicodeDecodeError]
    carries none here: Python's message goes on to name the byte, its
    position and the reason, and [str] stands for it with its head. *)
Definition str (e : Exception) : string :=
  match e with
  | ValueError msg => msg
  | UnicodeDecodeError => "'utf-8' codec can't decode byte"
  | AttributeError msg => msg
  | LibraryError _ msg => msg
  end.

(** [file_content.decode('utf-8')]. *)
Definition decode_utf8 (bs : list byte) : Result string :=
  if Py.utf8_valid (map Byte.to_N bs) then Ok (string_of_list_byte bs)
  else Raise UnicodeDecodeError.

(** [not s] for a string. *)
Definition falsy (s : string) : bool := String.eqb s "".

(** A [logger] call: level, the literal text of the message and the
    values formatted into it, in order. *)
Inductive Level : Type := INFO | WARNING | ERROR.

Inductive LogArg : Type :=
| ArgStr (s : string)
| ArgInt (n : Z)
| ArgExc (e : Exception).

Record LogRecord : Type := mkLog {
  level : Level;
  message : string;
  args : list LogArg
}.

(** Qdrant's data model. *)
Inductive Distance : Type := COSINE | EUCLID | DOT | MANHATTAN.

Record VectorParams : Type := mkVectorParams {
  size : nat;
  distance : Distance
}.

(** The payload langchain stores with a vector: the chunk text and the
    metadata dictionary built by [ingest]. *)
Record Metadata : Type := mkMetadata {
  source : string;
  doc_id : string;
  chunk_index : nat;
  total_chunks : nat
}.

Record Document : Type := mkDocument {
  page_content : string;
  metadata : Metadata
}.

(** The embedding and chat objects of langchain record the arguments
    they were built with. *)
Inductive Embeddings : Type :=
| OpenAIEmbeddings (openai_api_key model : string)
| HuggingFaceEmbeddings (model_name : string).

Inductive LLM : Type :=
| ChatOpenAI (openai_api_key model : string) (temperature : float)
             (max_tokens : Z)
| ChatGroq (groq_api_key model_name : string) (temperature : float)
           (max_tokens : Z)
| Ollama (base_url model : string) (temperature : float).

(** The model a chat object sends its prompts to. *)
Definition llm_model (l : LLM) : string :=
  match l with
  | ChatOpenAI _ m _ _ => m
  | ChatGroq _ m _ _ => m
  | Ollama _ m _ => m
  end.

Record QdrantClient : Type := mkQdrantClient {
  url : string;
  api_key : option string
}.

(** [langchain_community.vectorstores.Qdrant]. *)
Record Qdrant : Type := mkQdrant {
  store_client : QdrantClient;
  store_collection_name : string;
  store_embeddings : Embeddings
}.

(** Third-party code. Tokenizer tables, the PDF parser, the text
    splitter, the embedding and generation models and the similarity
    measure of the index are not part of the repository: they are taken
    as they come. *)
Class Libraries : Type := {
  (* tiktoken *)
  Encoding : Type;
  encoding_for_model : string -> Result Encoding;
  encode : Encoding -> string -> Result (list nat);
  (* PyPDF2 *)
  Page : Type;
  PdfReader : list byte -> Result (list Page);
  extract_text : Page -> Result string;
  (* langchain.text_splitter *)
  TextSplitter : Type;
  RecursiveCharacterTextSplitter :
    forall (chunk_size chunk_overlap : Z), Result TextSplitter;
  split_text : TextSplitter -> string -> list string;
  (* embedding vectors, their similarity, and the providers' answers
     when they can be reached *)
  Vector : Type;
  dim : Vector -> nat;
  similarity : Distance -> Vector -> Vector -> Qc;
  embed : Embeddings -> string -> Vector;
  complete : LLM -> string -> string;
  (* optional imports of query.py *)
  GROQ_AVAILABLE : bool;
  OLLAMA_AVAILABLE : bool;
  (* uuid.uuid4, as a stream of identifiers *)
  uuid4_nth : nat -> string
}.

(* ===================================================================== *)
(** ** The world outside and the monad of methods *)
(* ===================================================================== *)

Section World.
Context `{Libraries}.

Record PointStruct : Type := mkPoint {
  id : string;
  vector : Vector;
  payload : Document
}.

Record Collection : Type := mkCollection {
  config : VectorParams;
  points : list PointStruct
}.

(** What a call that leaves the process will meet: [Some e] makes it
    raise [e], [None] lets it through. An exhausted schedule lets every
    call through. *)
Definition Schedule : Type := list (option Exception).

Record World : Type := mkWorld {
  qdrant : gmap string Collection;
  schedule : Schedule;
  log : list LogRecord;
  uuid_count : nat
}.

Definition set_qdrant (q : gmap string Collection) (w : World) : World :=
  mkWorld q (schedule w) (log w) (uuid_count w).

Definition set_schedule (s : Schedule) (w : World) : World :=
  mkWorld (qdrant w) s (log w) (uuid_count w).

Definition M (A : Type) : Type := World -> Result A * World.

Definition ret {A} (a : A) : M A := fun w => (Ok a, w).

Definition bind {A B} (m : M A) (k : A -> M B) : M B :=
  fun w =>
    match m w with
    | (Ok a, w1) => k a w1
    | (Raise e, w1) => (Raise e, w1)
    end.

Definition raise {A} (e : Exception) : M A := fun w => (Raise e, w).

(** [try: body except Exception as e: handler e]. *)
Definition try_except {A} (body : M A) (handler : Exception -> M A) : M A :=
  fun w =>
    match body w with
    | (Ok a, w1) => (Ok a, w1)
    | (Raise e, w1) => handler e w1
    end.

(** A value a library computed, or the exception it raised. *)
Definition lift {A} (r : Result A) : M A := fun w => (r, w).

Definition logger (lv : Level) (msg : string) (xs : list LogArg) : M unit :=
  fun w =>
    (Ok tt, mkWorld (qdrant w) (schedule w) (log w ++ [mkLog lv msg xs])
                    (uuid_count w)).

(** [str(uuid.uuid4())]. *)
Definition uuid4 : M string :=
  fun w =>
    (Ok (uuid4_nth (uuid_count w)),
     mkWorld (qdrant w) (schedule w) (log w) (S (uuid_count w))).

(** A call that leaves the process. *)
Definition external {A} (op : M A) : M A :=
  fun w =>
    match schedule w with
    | Some e :: rest => (Raise e, set_schedule rest w)
    | None :: rest => op (set_schedule rest w)
    | [] => op w
    end.

End World.

Notation "'do' x <- m ; k" := (bind m (fun x => k))
  (at level 10, x name, m at level 100, k at level 200,
   format "'[v' 'do'  x  <-  m ; '/' k ']'").

Section Services.
Context `{Libraries}.

(** [for x in l: f x], collecting the results. *)
Fixpoint for_each {A B} (f : A -> M B) (l : list A) : M (list B) :=
  match l with
  | [] => ret []
  | x :: rest =>
      do y <- f x;
      do ys <- for_each f rest;
      ret (y :: ys)
  end.

(** [embeddings.embed_documents(texts)], [embeddings.embed_query(text)]
    and [llm(prompt)]. *)
Definition embed_documents (e : Embeddings) (texts : list string)
  : M (list Vector) :=
  external (ret (map (embed e) texts)).

Definition embed_query (e : Embeddings) (text : string) : M Vector :=
  external (ret (embed e text)).

Definition invoke (l : LLM) (prompt : string) : M string :=
  external (ret (complete l prompt)).

(* ------------------------------------------------------------------- *)
(** *** The Qdrant service, as its client sees it

    The server is the map [qdrant] of the world, from the names of the
    collections to their parameters and points. Every operation of the
    client is one call that leaves the process. *)

Definition qdrant_error (msg : string) : Exception :=
  LibraryError "qdrant_client" msg.

(** [client.get_collections().collections], by name. *)
Definition get_collections (c : QdrantClient) : M (list string) :=
  external (fun w => (Ok (map fst (map_to_list (qdrant w))), w)).

(** [client.create_collection(collection_name, vectors_config)]. *)
Definition create_collection (c : QdrantClient) (name : string)
    (vectors_config : VectorParams) : M unit :=
  external (fun w =>
    match qdrant w !! name with
    | Some _ => (Raise (qdrant_error "Collection already exists"), w)
    | None =>
        (Ok tt,
         set_qdrant (<[name := mkCollection vectors_config []]> (qdrant w)) w)
    end).

(** [client.upsert(collection_name, points)]: the whole batch or
    nothing. *)
Definition upsert (c : QdrantClient) (name : string)
    (batch : list PointStruct) : M unit :=
  external (fun w =>
    match qdrant w !! name with
    | None => (Raise (qdrant_error "Collection not found"), w)
    | Some col =>
        if forallb (fun p => dim (vector p) =? size (config col))%nat batch
        then (Ok tt,
              set_qdrant
                (<[name := mkCollection (config col) (points col ++ batch)]>
                   (qdrant w)) w)
        else (Raise (qdrant_error "Vector dimension error"), w)
    end).

(** A stored point with its score against the query vector, and the
    order of a result list: best score first. *)
Definition scored (d : Distance) (query_vector : Vector) (p : PointStruct)
  : PointStruct * Qc :=
  (p, similarity d query_vector (vector p)).

Definition best_first : relation (PointStruct * Qc) :=
  fun a b => (snd b <= snd a)%Qc.

#[global] Instance best_first_dec : RelDecision best_first :=
  fun a b => decide (snd b <= snd a)%Qc.

(** Modelled from the spec: the ranking of the index, not in the
    repository. Section 4.4 orders the records by similarity score: all
    the points of a collection with their scores against a query vector,
    best first. *)
Definition ranking (col : Collection) (query_vector : Vector)
  : list (PointStruct * Qc) :=
  merge_sort best_first
    (map (scored (distance (config col)) query_vector) (points col)).

(** Modelled from the spec: the nearest-neighbour search itself runs in
    the Qdrant server and is not in the repository. Section 4.4:
    [search(queryVector, k)] returns the k nearest records by similarity
    score, k bounded by collection size (fewer than k if the collection
    holds fewer records; never padded with invalid entries). *)
Definition search (c : QdrantClient) (name : string) (query_vector : Vector)
    (limit : nat) : M (list (PointStruct * Qc)) :=
  external (fun w =>
    match qdrant w !! name with
    | None => (Raise (qdrant_error "Collection not found"), w)
    | Some col =>
        if (dim query_vector =? size (config col))%nat
        then (Ok (take limit (ranking col query_vector)), w)
        else (Raise (qdrant_error "Vector dimension error"), w)
    end).

(** [client.get_collection(collection_name)]: the description of one
    collection. Of its fields the service reads [vectors_count], which
    the client declares optional: an approximate number of vectors, or
    [None] when the server leaves the field out. It is not computed from
    the points here: [reported_vectors_count] is what the server reports
    for a collection, left open. *)
Record CollectionInfo : Type := mkCollectionInfo {
  vectors_count : option Z
}.

Class QdrantServer : Type := {
  reported_vectors_count : gmap string Collection -> string -> option Z
}.

Definition get_collection `{QdrantServer} (c : QdrantClient) (name : string)
  : M CollectionInfo :=
  external (fun w =>
    match qdrant w !! name with
    | None => (Raise (qdrant_error "Collection not found"), w)
    | Some col =>
        (Ok (mkCollectionInfo (reported_vectors_count (qdrant w) name)), w)
    end).

(* ------------------------------------------------------------------- *)
(** *** langchain: the vector store wrapper and the retrieval chain *)

Fixpoint batches_fuel {A} (fuel n : nat) (l : list A) : list (list A) :=
  match fuel, l with
  | _, [] => []
  | O, _ :: _ => []
  | S fuel', _ :: _ => take n l :: batches_fuel fuel' n (drop n l)
  end.

Definition batches {A} (n : nat) (l : list A) : list (list A) :=
  batches_fuel (length l) n l.

Definition make_point (x : string * Metadata * string) (v : Vector)
  : PointStruct :=
  mkPoint x.2 v (mkDocument x.1.1 x.1.2).

(** [Qdrant.add_texts(texts, metadatas)]: fresh identifiers, then the
    texts are embedded and upserted in batches of 64. *)
Definition add_texts (store : Qdrant) (texts : list string)
    (metadatas : list Metadata) : M (list string) :=
  do ids <- for_each (fun _ => uuid4) texts;
  do _ <- for_each
            (fun batch =>
               do vectors <- embed_documents (store_embeddings store)
                               (map (fun x => x.1.1) batch);
               upsert (store_client store) (store_collection_name store)
                      (zip_with make_point batch vectors))
            (batches 64 (zip (zip texts metadatas) ids));
  ret ids.

(** [Qdrant.similarity_search_with_score(query, k)] and
    [Qdrant.similarity_search(query, k)]. *)
Definition similarity_search_with_score (store : Qdrant) (query : string)
    (k : nat) : M (list (Document * Qc)) :=
  do v <- embed_query (store_embeddings store) query;
  do hits <- search (store_client store) (store_collection_name store) v k;
  ret (map (fun h => (payload h.1, h.2)) hits).

Definition similarity_search (store : Qdrant) (query : string) (k : nat)
  : M (list Document) :=
  do hits <- similarity_search_with_score store query k;
  ret (map fst hits).

(** [vector_store.as_retriever(search_kwargs={"k": k})]. *)
Record Retriever : Type := mkRetriever {
  retriever_store : Qdrant;
  search_k : nat
}.

Definition as_retriever (store : Qdrant) (k : nat) : Retriever :=
  mkRetriever store k.

Definition get_relevant_documents (r : Retriever) (query : string)
  : M (list Document) :=
  similarity_search (retriever_store r) query (search_k r).

(** [RetrievalQA.from_chain_type(llm, chain_type="stuff", retriever,
    chain_type_kwargs={"prompt": prompt}, return_source_documents=True)]
    and the dictionary a call of the chain returns. *)
Record RetrievalQA : Type := mkRetrievalQA {
  chain_llm : LLM;
  chain_retriever : Retriever;
  chain_prompt : string -> string -> string
}.

Record ChainOutput : Type := mkChainOutput {
  result : string;
  source_documents : list Document
}.

(** The "stuff" chain: the retrieved texts, in the order retrieved and
    separated by a blank line, fill the context of the prompt. *)
Definition call_chain (chain : RetrievalQA) (query : string) : M ChainOutput :=
  do docs <- get_relevant_documents (chain_retriever chain) query;
  let context := Py.join (nl +:+ nl) (map page_content docs) in
  do answer <- invoke (chain_llm chain) (chain_prompt chain context query);
  ret (mkChainOutput answer docs).

End Services.

(* ===================================================================== *)
(** ** config.py *)
(* ===================================================================== *)

Module Config.

Record Settings : Type := mkSettings {
  llm_provider : string;
  openai_api_key : string;
  openai_model : string;
  groq_api_key : string;
  groq_model : string;
  ollama_base_url : string;
  ollama_model : string;
  embedding_provider : string;
  embedding_model : string;
  hf_embedding_model : string;
  vector_db : string;
  qdrant_url : string;
  qdrant_api_key : string;
  qdrant_collection_name : string;
  pinecone_api_key : string;
  pinecone_environment : string;
  pinecone_index_name : string;
  chunk_size : Z;
  chunk_overlap : Z;
  top_k : Z;
  temperature : float;
  max_tokens : Z;
  rag_service_port : Z
}.

(** The values [Settings()] takes when the environment sets nothing. *)
Definition defaults : Settings := {|
  llm_provider := "openai";
  openai_api_key := "";
  openai_model := "gpt-4";
  groq_api_key := "";
  groq_model := "llama-3.1-70b-versatile";
  ollama_base_url := "http://host.docker.internal:11434";
  ollama_model := "llama3.1";
  embedding_provider := "openai";
  embedding_model := "text-embedding-3-small";
  hf_embedding_model := "all-MiniLM-L6-v2";
  vector_db := "qdrant";
  qdrant_url := "http://localhost:6333";
  qdrant_api_key := "";
  qdrant_collection_name := "customer_support_docs";
  pinecone_api_key := "";
  pinecone_environment := "";
  pinecone_index_name := "customer-support";
  chunk_size := 1000;
  chunk_overlap := 200;
  top_k := 5;
  temperature := 0x1.6666666666666p-1%float;
  max_tokens := 500;
  rag_service_port := 8000
|}.

End Config.

Import Config.

(** [QdrantClient(url=..., api_key=...)] when a key is configured,
    [QdrantClient(url=...)] otherwise: the same lines in [ingest.py] and
    [query.py]. *)
Definition connect (settings : Settings) : QdrantClient :=
  if negb (falsy (qdrant_api_key settings))
  then mkQdrantClient (qdrant_url settings) (Some (qdrant_api_key settings))
  else mkQdrantClient (qdrant_url settings) None.

(* ===================================================================== *)
(** ** ingest.py: class DocumentIngestor *)
(* ===================================================================== *)

Module Ingest.
Section Ingest.
Context `{Libraries} (settings : Settings).

Record DocumentIngestor : Type := mkDocumentIngestor {
  embeddings : Embeddings;
  text_splitter : TextSplitter;
  qdrant_client : option QdrantClient
}.

(** The dictionary [ingest] returns. *)
Record IngestResult : Type := mkIngestResult {
  chunk_count : nat;
  vector_store_id : string;
  filename : string
}.

Definition _initialize_embeddings : M Embeddings :=
  let provider := Py.lower (embedding_provider settings) in
  do _ <- logger INFO "Initializing embeddings with provider: {provider}"
            [ArgStr provider];
  if String.eqb provider "openai" then
    if falsy (openai_api_key settings) then
      raise (ValueError "OpenAI API key required for OpenAI embeddings")
    else
      ret (OpenAIEmbeddings (openai_api_key settings)
                            (embedding_model settings))
  else if String.eqb provider "huggingface" then
    do _ <- logger INFO
              "Using FREE HuggingFace embeddings: {settings.hf_embedding_model}"
              [ArgStr (hf_embedding_model settings)];
    (* the constructor loads the model *)
    external (ret (HuggingFaceEmbeddings (hf_embedding_model settings)))
  else
    raise (ValueError ("Unknown embedding provider: " +:+ provider)).

(** [self.qdrant_client] is the argument. *)
Definition _ensure_collection_exists (qdrant_client : QdrantClient) : M unit :=
  try_except
    (do collection_names <- get_collections qdrant_client;
     if negb (bool_decide (qdrant_collection_name settings ∈ collection_names))
     then
       let vector_size :=
         if String.eqb (embedding_provider settings) "openai" then 1536%nat
         else if String.eqb (embedding_provider settings) "huggingface"
              then 384%nat
              else 1536%nat in
       do _ <- logger INFO
                 "Creating collection: {settings.qdrant_collection_name} with vector size: {vector_size}"
                 [ArgStr (qdrant_collection_name settings);
                  ArgInt (Z.of_nat vector_size)];
       create_collection qdrant_client (qdrant_collection_name settings)
                         (mkVectorParams vector_size COSINE)
     else ret tt)
    (fun e =>
       logger ERROR "Failed to ensure collection exists: {e}" [ArgExc e]).

Definition __init__ : M DocumentIngestor :=
  do embeddings <- _initialize_embeddings;
  do text_splitter <-
    lift (RecursiveCharacterTextSplitter (chunk_size settings)
                                         (chunk_overlap settings));
  if String.eqb (vector_db settings) "qdrant" then
    let qdrant_client := connect settings in
    do _ <- _ensure_collection_exists qdrant_client;
    ret (mkDocumentIngestor embeddings text_splitter (Some qdrant_client))
  else
    (* "pinecone": pass *)
    ret (mkDocumentIngestor embeddings text_splitter None).

(** The loop of [_extract_from_pdf]:
    [for page in pdf_reader.pages: text += page.extract_text() + "\n"]. *)
Fixpoint concat_pages (pages : list Page) (text : string) : M string :=
  match pages with
  | [] => ret text
  | page :: rest =>
      do t <- lift (extract_text page);
      concat_pages rest (text +:+ t +:+ nl)
  end.

Definition _extract_from_pdf (file_content : list byte) : M string :=
  try_except
    (do pages <- lift (PdfReader file_content);
     concat_pages pages "")
    (fun e =>
       do _ <- logger ERROR "Error extracting from PDF: {e}" [ArgExc e];
       raise e).

Definition _extract_text (file_content : list byte)
    (filename file_type : string) : M string :=
  try_except
    (let filename_lower := Py.lower filename in
     if Py.endswith filename_lower ".pdf" || Py.contains "pdf" file_type then
       _extract_from_pdf file_content
     else if Py.endswith_any filename_lower
               [".txt"; ".md"; ".markdown"; ".csv"] then
       lift (decode_utf8 file_content)
     else
       try_except
         (lift (decode_utf8 file_content))
         (fun _ => raise (ValueError ("Unsupported file type: " +:+ file_type))))
    (fun e =>
       do _ <- logger ERROR "Error extracting text: {e}" [ArgExc e];
       raise e).

Definition ingest (self : DocumentIngestor) (file_content : list byte)
    (filename file_type : string) : M IngestResult :=
  try_except
    (do text <- _extract_text file_content filename file_type;
     if falsy text || (String.length (Py.strip text) =? 0)%nat then
       raise (ValueError "No text could be extracted from the document")
     else
       let chunks := split_text (text_splitter self) text in
       do _ <- logger INFO "Split document into {len(chunks)} chunks"
                 [ArgInt (Z.of_nat (length chunks))];
       do doc_id <- uuid4;
       let metadatas :=
         map (fun i => mkMetadata filename doc_id i (length chunks))
             (seq 0 (length chunks)) in
       do _ <-
         (if String.eqb (vector_db settings) "qdrant" then
            match qdrant_client self with
            | Some c =>
                let vector_store :=
                  mkQdrant c (qdrant_collection_name settings)
                           (embeddings self) in
                do _ <- add_texts vector_store chunks metadatas;
                ret tt
            | None =>
                raise (AttributeError
                         "'DocumentIngestor' object has no attribute 'qdrant_client'")
            end
          else ret tt);
       do _ <- logger INFO
                 "Successfully ingested {len(chunks)} chunks for {filename}"
                 [ArgInt (Z.of_nat (length chunks)); ArgStr filename];
       ret (mkIngestResult (length chunks) doc_id filename))
    (fun e =>
       do _ <- logger ERROR "Error ingesting document: {e}" [ArgExc e];
       raise e).

End Ingest.
End Ingest.

(* ===================================================================== *)
(** ** query.py: class RAGQueryEngine *)
(* ===================================================================== *)

Module Query.
Section Query.
Context `{Libraries} `{!QdrantServer} (settings : Settings).

Record RAGQueryEngine : Type := mkRAGQueryEngine {
  embeddings : Embeddings;
  llm : LLM;
  qdrant_client : option QdrantClient;
  vector_store : option Qdrant
}.

(** The dictionary [query] returns. *)
Record QueryResult : Type := mkQueryResult {
  response : string;
  context : list string;
  model : string;
  tokens_used : nat
}.

(** [self.PROMPT.format(context=..., question=...)] for the template of
    [__init__]. *)
Definition PROMPT (context question : string) : string :=
  "You are an AI customer support assistant. Use the following pieces of context to answer the question at the end. "
  +:+ nl +:+
  "If you don't know the answer based on the context, just say that you don't know, don't try to make up an answer."
  +:+ nl +:+ nl +:+ "Context:" +:+ nl +:+ context +:+ nl +:+ nl +:+
  "Question: " +:+ question +:+ nl +:+ nl +:+ "Helpful Answer:".

Definition _initialize_embeddings : M Embeddings :=
  let provider := Py.lower (embedding_provider settings) in
  do _ <- logger INFO "Initializing embeddings with provider: {provider}"
            [ArgStr provider];
  if String.eqb provider "openai" then
    if falsy (openai_api_key settings) then
      raise (ValueError "OpenAI API key required for OpenAI embeddings")
    else
      ret (OpenAIEmbeddings (openai_api_key settings)
                            (embedding_model settings))
  else if String.eqb provider "huggingface" then
    do _ <- logger INFO
              "Using HuggingFace embeddings: {settings.hf_embedding_model}"
              [ArgStr (hf_embedding_model settings)];
    external (ret (HuggingFaceEmbeddings (hf_embedding_model settings)))
  else
    raise (ValueError ("Unknown embedding provider: " +:+ provider)).

Definition _initialize_llm : M LLM :=
  let provider := Py.lower (llm_provider settings) in
  do _ <- logger INFO "Initializing LLM with provider: {provider}"
            [ArgStr provider];
  if String.eqb provider "openai" then
    if falsy (openai_api_key settings) then
      raise (ValueError
        "OpenAI API key required. Get one at https://platform.openai.com/api-keys")
    else
      ret (ChatOpenAI (openai_api_key settings) (openai_model settings)
                      (temperature settings) (max_tokens settings))
  else if String.eqb provider "groq" then
    if negb GROQ_AVAILABLE then
      raise (ValueError "Groq not installed. Run: pip install langchain-groq")
    else if falsy (groq_api_key settings) then
      raise (ValueError
        "Groq API key required. Get FREE key at https://console.groq.com")
    else
      do _ <- logger INFO "Using Groq with model: {settings.groq_model}"
                [ArgStr (groq_model settings)];
      ret (ChatGroq (groq_api_key settings) (groq_model settings)
                    (temperature settings) (max_tokens settings))
  else if String.eqb provider "ollama" then
    if negb OLLAMA_AVAILABLE then
      raise (ValueError "Ollama support not available")
    else
      do _ <- logger INFO
                "Using Ollama at {settings.ollama_base_url} with model: {settings.ollama_model}"
                [ArgStr (ollama_base_url settings);
                 ArgStr (ollama_model settings)];
      ret (Ollama (ollama_base_url settings) (ollama_model settings)
                  (temperature settings))
  else
    raise (ValueError ("Unknown LLM provider: " +:+ provider
                       +:+ ". Choose: openai, groq, or ollama")).

(** [_initialize_vector_store] sets [self.qdrant_client] and
    [self.vector_store], and only for Qdrant. *)
Definition _initialize_vector_store (embeddings : Embeddings)
  : option QdrantClient * option Qdrant :=
  if String.eqb (vector_db settings) "qdrant" then
    let qdrant_client := connect settings in
    (Some qdrant_client,
     Some (mkQdrant qdrant_client (qdrant_collection_name settings)
                    embeddings))
  else (None, None).

Definition __init__ : M RAGQueryEngine :=
  do embeddings <- _initialize_embeddings;
  do llm <- _initialize_llm;
  let store := _initialize_vector_store embeddings in
  ret (mkRAGQueryEngine embeddings llm store.1 store.2).

Definition _estimate_tokens (query response : string) (context : list string)
  : M nat :=
  try_except
    (do encoding <- lift (encoding_for_model (openai_model settings));
     do query_tokens <- lift (encode encoding query);
     do response_tokens <- lift (encode encoding response);
     do context_tokens <- for_each (fun c => lift (encode encoding c)) context;
     (* Add overhead for prompt template *)
     let total_tokens :=
       (length query_tokens + length response_tokens
        + list_sum (map length context_tokens) + 100)%nat in
     ret total_tokens)
    (fun e =>
       do _ <- logger WARNING "Could not estimate tokens: {e}" [ArgExc e];
       ret 0%nat).

Definition query (self : RAGQueryEngine) (query session_id : string)
    (top_k : nat) : M QueryResult :=
  try_except
    (do _ <- logger INFO "Processing query for session {session_id}"
               [ArgStr session_id];
     do store <-
       match vector_store self with
       | Some store => ret store
       | None =>
           raise (AttributeError
                    "'RAGQueryEngine' object has no attribute 'vector_store'")
       end;
     let retriever := as_retriever store top_k in
     let qa_chain := mkRetrievalQA (llm self) retriever PROMPT in
     do output <- call_chain qa_chain query;
     let context := map page_content (source_documents output) in
     do tokens_used <- _estimate_tokens query (result output) context;
     do _ <- logger INFO
               "Query processed successfully, {len(context)} context docs retrieved"
               [ArgInt (Z.of_nat (length context))];
     ret (mkQueryResult (result output) context (openai_model settings)
                        tokens_used))
    (fun e =>
       do _ <- logger ERROR "Error processing query: {e}" [ArgExc e];
       raise e).

(** [self.qdrant_client], an attribute [_initialize_vector_store] sets
    only for Qdrant. *)
Definition the_qdrant_client (self : RAGQueryEngine) : M QdrantClient :=
  match qdrant_client self with
  | Some c => ret c
  | None =>
      raise (AttributeError
               "'RAGQueryEngine' object has no attribute 'qdrant_client'")
  end.

Definition check_vector_db_health (self : RAGQueryEngine) : M bool :=
  try_except
    (if String.eqb (vector_db settings) "qdrant" then
       do c <- the_qdrant_client self;
       do collections <- get_collections c;
       ret true
     else ret true)
    (fun e =>
       do _ <- logger ERROR "Vector DB health check failed: {e}" [ArgExc e];
       ret false).

(** The values held by the dictionary [get_stats] returns. *)
Inductive StatsValue : Type :=
| SStr (s : string)
| SInt (n : Z)
| SNone.

(** An optional integer as a value of the dictionary. *)
Definition optional_int (n : option Z) : StatsValue :=
  match n with
  | Some n => SInt n
  | None => SNone
  end.

Definition get_stats (self : RAGQueryEngine) : M (gmap string StatsValue) :=
  try_except
    (if String.eqb (vector_db settings) "qdrant" then
       do c <- the_qdrant_client self;
       do collection_info <-
         get_collection c (qdrant_collection_name settings);
       ret (<["vector_db" := SStr (vector_db settings)]>
            (<["collection" := SStr (qdrant_collection_name settings)]>
             (<["vectors_count" :=
                  optional_int (vectors_count collection_info)]>
              (<["status" := SStr "healthy"]> ∅))))
     else ret (<["status" := SStr "unknown"]> ∅))
    (fun e =>
       do _ <- logger ERROR "Failed to get stats: {e}" [ArgExc e];
       ret (<["status" := SStr "error"]>
            (<["message" := SStr (str e)]> ∅))).

End Query.
End Query.

(* ===================================================================== *)
(** ** retrain.py: class RetrainManager *)
(* ===================================================================== *)

Module Retrain.
Section Retrain.
Context `{Libraries} (settings : Settings).

(** The values held by the dictionaries of this module. *)
Inductive Value : Type :=
| VStr (s : string)
| VInt (n : Z).

(** [OpenAI(api_key=...)]. *)
Record OpenAI : Type := mkOpenAI { openai_key : string }.

Record RetrainManager : Type := mkRetrainManager { client : OpenAI }.

Definition __init__ : M RetrainManager :=
  ret (mkRetrainManager (mkOpenAI (openai_api_key settings))).

(** The collection of positive feedback is a placeholder: the list it
    returns is the empty list it starts from. *)
Definition _collect_training_data (min_samples : Z)
  : M (list (gmap string Value)) :=
  try_except
    (do _ <- logger INFO "Collecting training data from feedback..." [];
     let training_samples := [] in
     ret training_samples)
    (fun e =>
       do _ <- logger ERROR "Failed to collect training data: {e}" [ArgExc e];
       ret []).

Record Message : Type := mkMessage { role : string; content : Value }.

Definition _format_for_finetuning (training_data : list (gmap string Value))
  : list (list Message) :=
  map (fun sample =>
         [ mkMessage "system"
             (VStr "You are a helpful AI customer support assistant.");
           mkMessage "user" (default (VStr "") (sample !! "query"));
           mkMessage "assistant" (default (VStr "") (sample !! "response")) ])
      training_data.

(** The statements of [retrain] that follow the collection of the
    training data. *)
Definition after_collection (training_data : list (gmap string Value))
    (feedback_threshold : Z) (model_name : option string)
  : M (gmap string Value) :=
  if (Z.of_nat (length training_data) <? feedback_threshold)%Z then
    do _ <- logger WARNING
              "Not enough training data: {len(training_data)} samples"
              [ArgInt (Z.of_nat (length training_data))];
    ret (<["status" := VStr "skipped"]>
         (<["reason" := VStr "insufficient_data"]>
          (<["samples_collected" := VInt (Z.of_nat (length training_data))]>
           (<["threshold" := VInt feedback_threshold]> ∅))))
  else
    let formatted_data := _format_for_finetuning training_data in
    do _ <- logger INFO "Retraining process initiated" [];
    ret (<["status" := VStr "initiated"]>
         (<["samples_used" := VInt (Z.of_nat (length training_data))]>
          (<["message" := VStr "Retraining job created successfully"]> ∅))).

(** [str(e)]: the message an exception carries, as [str] has it. *)
Definition str_of_exception (e : Exception) : string :=
  match e with
  | ValueError msg => msg
  | UnicodeDecodeError => "'utf-8' codec can't decode byte"
  | AttributeError msg => msg
  | LibraryError _ msg => msg
  end.

Definition retrain (self : RetrainManager) (feedback_threshold : Z)
    (model_name : option string) : M (gmap string Value) :=
  try_except
    (do _ <- logger INFO "Starting retraining process..." [];
     do training_data <- _collect_training_data feedback_threshold;
     after_collection training_data feedback_threshold model_name)
    (fun e =>
       do _ <- logger ERROR "Retraining failed: {e}" [ArgExc e];
       ret (<["status" := VStr "failed"]>
            (<["error" := VStr (str_of_exception e)]> ∅))).

End Retrain.
End Retrain.

(* ===================================================================== *)
(** ** app.py: the components built when the module is loaded *)
(* ===================================================================== *)

Module App.
Section App.
Context `{Libraries} (settings : Settings).

Record Components : Type := mkComponents {
  document_ingestor : Ingest.DocumentIngestor;
  query_engine : Query.RAGQueryEngine;
  retrain_manager : Retrain.RetrainManager
}.

(** [document_ingestor = DocumentIngestor()],
    [query_engine = RAGQueryEngine()],
    [retrain_manager = RetrainManager()], in this order, before any
    route can be served. *)
Definition startup : M Components :=
  do document_ingestor <- Ingest.__init__ settings;
  do query_engine <- Query.__init__ settings;
  do retrain_manager <- Retrain.__init__ settings;
  ret (mkComponents document_ingestor query_engine retrain_manager).

End App.

(** What a route sends back: the value it returns, or the
    [HTTPException] it raises, which FastAPI turns into a reply with that
    status code and detail. *)
Inductive Reply (A : Type) : Type :=
| Sent (body : A)
| HTTPException (status_code : Z) (detail : string).

Arguments Sent {A} body.
Arguments HTTPException {A} status_code detail.

(** The Pydantic models. [top_k] and [feedback_threshold] are the
    integers of the request, 5 and 10 when it gives none. *)
Module QueryRequest.
Record t : Type := mk {
  query : string;
  session_id : string;
  top_k : nat
}.
End QueryRequest.

Module QueryResponse.
Record t : Type := mk {
  response : string;
  context : list string;
  model : string;
  tokens_used : nat
}.
End QueryResponse.

Module RetrainRequest.
Record t : Type := mk {
  feedback_threshold : Z;
  model_name : option string
}.
End RetrainRequest.

Module HealthResponse.
Record t : Type := mk {
  status : string;
  timestamp : Z;
  version : string;
  vector_db : string
}.
End HealthResponse.

(** The dictionary [retrain_model] returns. *)
Module RetrainReply.
Record t : Type := mk {
  status : string;
  message : string;
  details : gmap string Retrain.Value
}.
End RetrainReply.

(** A dictionary of [retrain] as the arguments of a log record: its
    keys, in the order [retrain] inserts them, each with its value. *)
Definition dict_args (d : gmap string Retrain.Value) : list LogArg :=
  flat_map
    (fun k =>
       match d !! k with
       | Some (Retrain.VStr s) => [ArgStr k; ArgStr s]
       | Some (Retrain.VInt n) => [ArgStr k; ArgInt n]
       | None => []
       end)
    ["status"; "reason"; "samples_collected"; "threshold"; "samples_used";
     "message"; "error"].

Section Routes.
Context `{Libraries} `{!QdrantServer} (settings : Settings)
        (app : Components).

(** [GET /health]; [utcnow] is the reading of the clock. *)
Definition health_check (utcnow : Z) : M (Reply HealthResponse.t) :=
  try_except
    (do vector_db_status <-
       Query.check_vector_db_health settings (query_engine app);
     ret (Sent (HealthResponse.mk
                  (if vector_db_status : bool then "healthy" else "degraded")
                  utcnow "1.0.0" (vector_db settings))))
    (fun e =>
       do _ <- logger ERROR "Health check failed: {e}" [ArgExc e];
       ret (Sent (HealthResponse.mk "unhealthy" utcnow "1.0.0"
                    (vector_db settings)))).

(** [POST /rag/query]. *)
Definition query_rag (request : QueryRequest.t)
  : M (Reply QueryResponse.t) :=
  try_except
    (do _ <- logger INFO "Processing query: {request.query[:100]}..."
               [ArgStr (Py.prefix_chars 100 (QueryRequest.query request))];
     do result <-
       Query.query settings (query_engine app)
         (QueryRequest.query request) (QueryRequest.session_id request)
         (QueryRequest.top_k request);
     do _ <- logger INFO
               "Query processed successfully, tokens used: {result['tokens_used']}"
               [ArgInt (Z.of_nat (Query.tokens_used result))];
     ret (Sent (QueryResponse.mk (Query.response result)
                  (Query.context result) (Query.model result)
                  (Query.tokens_used result))))
    (fun e =>
       do _ <- logger ERROR "Failed to process query: {e}" [ArgExc e];
       ret (HTTPException 500 ("Failed to process query: " +:+ str e))).

(** [POST /rag/retrain]. *)
Definition retrain_model (request : RetrainRequest.t)
  : M (Reply RetrainReply.t) :=
  try_except
    (do _ <- logger INFO "Starting model retraining..." [];
     do result <-
       Retrain.retrain (retrain_manager app)
         (RetrainRequest.feedback_threshold request)
         (RetrainRequest.model_name request);
     do _ <- logger INFO "Retraining completed: {result}" (dict_args result);
     ret (Sent (RetrainReply.mk "success" "Model retraining initiated"
                  result)))
    (fun e =>
       do _ <- logger ERROR "Failed to retrain model: {e}" [ArgExc e];
       ret (HTTPException 500 ("Failed to retrain model: " +:+ str e))).

(** [GET /rag/stats]. *)
Definition get_stats : M (Reply (gmap string Query.StatsValue)) :=
  try_except
    (do stats <- Query.get_stats settings (query_engine app);
     ret (Sent stats))
    (fun e =>
       do _ <- logger ERROR "Failed to get stats: {e}" [ArgExc e];
       ret (HTTPException 500 ("Failed to get stats: " +:+ str e))).

End Routes.
End App.

(* ===================================================================== *)
(** ** scripts/retrain_flow.py *)
(* ===================================================================== *)

Module RetrainFlow.

(** [requests.Response]: the status code, the body as text, and the
    body parsed by [response.json()], which the flow only prints. *)
Record Response : Type := mkResponse {
  status_code : Z;
  text : string;
  json : Result string
}.

(** The answers of the service at the other end of [requests.get(url,
    timeout)] and [requests.post(url, json, timeout)], or the exception
    the call raises. *)
Record Requests : Type := mkRequests {
  get : string -> Z -> Result Response;
  post : string -> list (string * Z) -> Z -> Result Response
}.

Section RetrainFlow.
Context `{Libraries} (RAG_SERVICE_URL : string) (FEEDBACK_THRESHOLD : Z)
  (requests : Requests).

Definition check_rag_health : M bool :=
  try_except
    (do response <-
       external (lift (get requests (RAG_SERVICE_URL +:+ "/health") 5));
     ret (status_code response =? 200)%Z)
    (fun e =>
       do _ <- logger ERROR "RAG service health check failed: {e}" [ArgExc e];
       ret false).

Definition trigger_retraining : M bool :=
  try_except
    (do _ <- logger INFO "Triggering model retraining..." [];
     do response <-
       external (lift (post requests (RAG_SERVICE_URL +:+ "/rag/retrain")
                         [("feedback_threshold", FEEDBACK_THRESHOLD)] 300));
     if (status_code response =? 200)%Z then
       do result <- lift (json response);
       do _ <- logger INFO "Retraining response: {result}" [ArgStr result];
       ret true
     else
       do _ <- logger ERROR
                 "Retraining failed with status {response.status_code}: {response.text}"
                 [ArgInt (status_code response); ArgStr (text response)];
       ret false)
    (fun e =>
       do _ <- logger ERROR "Error triggering retraining: {e}" [ArgExc e];
       ret false).

(** ["=" * 60]. *)
Definition rule : string :=
  "============================================================".

(** [main]; the value is the status [sys.exit] ends the process with,
    [now] the reading of the clock. *)
Definition main (now : string) : M Z :=
  do _ <- logger INFO rule [];
  do _ <- logger INFO "Starting automated retraining flow" [];
  do _ <- logger INFO "Timestamp: {datetime.now()}" [ArgStr now];
  do _ <- logger INFO rule [];
  do healthy <- check_rag_health;
  if negb healthy then
    do _ <- logger ERROR "RAG service is not healthy. Aborting retraining." [];
    ret 1%Z
  else
    do _ <- logger INFO "✅ RAG service is healthy" [];
    do success <- trigger_retraining;
    if success : bool then
      do _ <- logger INFO rule [];
      do _ <- logger INFO "✅ Retraining flow completed successfully" [];
      do _ <- logger INFO rule [];
      ret 0%Z
    else
      do _ <- logger ERROR rule [];
      do _ <- logger ERROR "❌ Retraining flow failed" [];
      do _ <- logger ERROR rule [];
      ret 1%Z.

End RetrainFlow.
End RetrainFlow.

(* ===================================================================== *)
(** ** Vocabulary of the properties *)
(* ===================================================================== *)

(** None of the next [n] calls that leave the process fails. *)
Definition goes_through (n : nat) (sch : list (option Exception)) : bool :=
  forallb (fun o => match o with None => true | Some _ => false end)
          (take n sch).


(** The chunk texts a collection of the server holds, in the order they
    were written. *)
Definition texts_of `{Libraries} (ps : list PointStruct) : list string :=
  map (fun p => page_content (payload p)) ps.

Definition stored_texts `{Libraries} (w : World) (name : string)
  : list string :=
  match qdrant w !! name with
  | Some col => texts_of (points col)
  | None => []
  end.

(** The dictionary [retrain] returns when it skips. *)
Definition skipped (samples_collected threshold : Z)
  : gmap string Retrain.Value :=
  <["status" := Retrain.VStr "skipped"]>
    (<["reason" := Retrain.VStr "insufficient_data"]>
       (<["samples_collected" := Retrain.VInt samples_collected]>
          (<["threshold" := Retrain.VInt threshold]> ∅))).

(** The vector size [_ensure_collection_exists] asks for. *)
Definition vector_size_for (s : Settings) : nat :=
  if String.eqb (embedding_provider s) "openai" then 1536
  else if String.eqb (embedding_provider s) "huggingface" then 384
  else 1536.

(** The configured embedding provider is none of the two the service
    knows, or it is OpenAI and the key is missing. *)
Definition embedding_provider_unrecognized (s : Settings) : Prop :=
  Py.lower (embedding_provider s) <> "openai"
  /\ Py.lower (embedding_provider s) <> "huggingface".

Definition embedding_credential_absent (s : Settings) : Prop :=
  Py.lower (embedding_provider s) = "openai" /\ openai_api_key s = "".

(** The same for the generation provider: OpenAI and Groq need a key,
    Ollama needs none. *)
Definition llm_provider_unrecognized (s : Settings) : Prop :=
  Py.lower (llm_provider s) <> "openai"
  /\ Py.lower (llm_provider s) <> "groq"
  /\ Py.lower (llm_provider s) <> "ollama".

Definition llm_credential_absent (s : Settings) : Prop :=
  (Py.lower (llm_provider s) = "openai" /\ openai_api_key s = "")
  \/ (Py.lower (llm_provider s) = "groq" /\ groq_api_key s = "").

(** [w'] is [w] after calls that did not write to the server. *)
Definition quiet `{Libraries} (w w' : World) : Prop :=
  qdrant w' = qdrant w /\ schedule w' `suffix_of` schedule w.

(** [w'] is [w] with more log records and nothing else changed. *)
Definition logged `{Libraries} (w w' : World) : Prop :=
  qdrant w' = qdrant w /\ schedule w' = schedule w
  /\ uuid_count w' = uuid_count w.

(** The exception of [ingest] for a document without text, and the
    records the handlers of [ingest], [_ensure_collection_exists],
    [_estimate_tokens] and [query] write. *)
Definition no_text : Exception :=
  ValueError "No text could be extracted from the document".

Definition ingest_error_record (e : Exception) : LogRecord :=
  mkLog ERROR "Error ingesting document: {e}" [ArgExc e].

Definition ensure_error_record (e : Exception) : LogRecord :=
  mkLog ERROR "Failed to ensure collection exists: {e}" [ArgExc e].

Definition estimate_warning (e : Exception) : LogRecord :=
  mkLog WARNING "Could not estimate tokens: {e}" [ArgExc e].

(** The record [query] writes once the estimate is made. *)
Definition processed_record (n : nat) : LogRecord :=
  mkLog INFO
    "Query processed successfully, {len(context)} context docs retrieved"
    [ArgInt (Z.of_nat n)].

(** The fallback the specification describes for a model without a
    tokenizer: the number of characters divided by an average token
    length, with or without the overhead of the template. *)
Definition spec_fallback_estimate (average_token_length overhead : nat)
    (query response : string) (context : list string) : nat :=
  (String.length query + String.length response
   + list_sum (map String.length context)) / average_token_length
  + overhead.

(** *** Vocabulary of the further properties *)

Definition pdf_selected (filename file_type : string) : bool :=
  Py.endswith (Py.lower filename) ".pdf" || Py.contains "pdf" file_type.

Definition text_suffix (filename : string) : bool :=
  Py.endswith_any (Py.lower filename) [".txt"; ".md"; ".markdown"; ".csv"].

Definition extract_error_record (e : Exception) : LogRecord :=
  mkLog ERROR "Error extracting text: {e}" [ArgExc e].

Definition pdf_error_record (e : Exception) : LogRecord :=
  mkLog ERROR "Error extracting from PDF: {e}" [ArgExc e].

(** [w] with the records [rs] appended to its log. *)
Definition with_log `{Libraries} (w : World) (rs : list LogRecord) : World :=
  mkWorld (qdrant w) (schedule w) (log w ++ rs) (uuid_count w).

(** The text [_extract_from_pdf] builds from the texts of the pages. *)
Definition pages_text (texts : list string) : string :=
  Py.join "" (map (fun t => t +:+ nl) texts).

(** The server after the points [new] were appended to the collection
    [name]. *)
Definition appended `{Libraries} (q : gmap string Collection) (name : string)
    (new : list PointStruct) : gmap string Collection :=
  match q !! name with
  | Some col => <[name := mkCollection (config col) (points col ++ new)]> q
  | None => q
  end.

(** The payload [ingest] gives the chunk at position [i] of the [n]
    chunks of a document. *)
Definition chunk_document (filename doc_id : string) (n i : nat)
    (chunk : string) : Document :=
  mkDocument chunk (mkMetadata filename doc_id i n).

(** The action [m] does not write to the server, whatever it returns. *)
Definition read_only `{Libraries} {A} (m : M A) : Prop :=
  forall w r w', m w = (r, w') -> qdrant w' = qdrant w.

(** The configured embedding provider is one the service knows, with
    the key it needs; the same for the generation provider, whose
    package must be installed. *)
Definition embedding_configured (s : Settings) : Prop :=
  (Py.lower (embedding_provider s) = "openai" /\ openai_api_key s <> "")
  \/ Py.lower (embedding_provider s) = "huggingface".

Definition llm_configured `{Libraries} (s : Settings) : Prop :=
  (Py.lower (llm_provider s) = "openai" /\ openai_api_key s <> "")
  \/ (Py.lower (llm_provider s) = "groq" /\ GROQ_AVAILABLE = true
      /\ groq_api_key s <> "")
  \/ (Py.lower (llm_provider s) = "ollama" /\ OLLAMA_AVAILABLE = true).

Definition health_error_record (e : Exception) : LogRecord :=
  mkLog ERROR "Vector DB health check failed: {e}" [ArgExc e].

Definition query_error_record (e : Exception) : LogRecord :=
  mkLog ERROR "Error processing query: {e}" [ArgExc e].

Definition stats_error_record (e : Exception) : LogRecord :=
  mkLog ERROR "Failed to get stats: {e}" [ArgExc e].

(** The next call that leaves the process fails with [e]. *)
Definition next_call_fails `{Libraries} (w : World) (e : Exception) : Prop :=
  exists rest, schedule w = Some e :: rest.

(** The next call that leaves the process goes through. *)
Definition next_call_answers `{Libraries} (w : World) : bool :=
  match schedule w with
  | Some _ :: _ => false
  | _ => true
  end.

(** The dictionary [retrain] returns when it goes on with the samples. *)
Definition initiated (samples_used : Z) : gmap string Retrain.Value :=
  <["status" := Retrain.VStr "initiated"]>
    (<["samples_used" := Retrain.VInt samples_used]>
       (<["message" := Retrain.VStr "Retraining job created successfully"]> ∅)).

(** The roles of the messages of a sample for fine-tuning. *)
Definition roles (messages : list Retrain.Message) : list string :=
  map Retrain.role messages.

(** The record the query route writes before it calls the engine. *)
Definition processing_record (request : App.QueryRequest.t) : LogRecord :=
  mkLog INFO "Processing query: {request.query[:100]}..."
    [ArgStr (Py.prefix_chars 100 (App.QueryRequest.query request))].

(** The answer to a request has status 200; it has status 200 and a body
    that parses as JSON. *)
Definition answers_200 (r : Result RetrainFlow.Response) : bool :=
  match r with
  | Ok response => (RetrainFlow.status_code response =? 200)%Z
  | Raise _ => false
  end.

Definition answers_200_with_json (r : Result RetrainFlow.Response) : bool :=
  match r with
  | Ok response =>
      (RetrainFlow.status_code response =? 200)%Z
      && match RetrainFlow.json response with
         | Ok _ => true
         | Raise _ => false
         end
  | Raise _ => false
  end.

(** What a call that leaves the process returns when the service would
    give [answer]: the failure scheduled for the call, if there is one,
    and the answer otherwise; and the world once the call is made. *)
Definition call_outcome `{Libraries} {A} (w : World) (answer : Result A)
  : Result A :=
  match schedule w with
  | Some e :: _ => Raise e
  | _ => answer
  end.

Definition after_call `{Libraries} (w : World) : World :=
  set_schedule (tail (schedule w)) w.

Definition flow_health_error_record (e : Exception) : LogRecord :=
  mkLog ERROR "RAG service health check failed: {e}" [ArgExc e].

(* ===================================================================== *)
(** ** A small implementation of the libraries, for the examples *)
(* ===================================================================== *)

Module Reference.

(** One token per byte; only the "gpt-" models have a tokenizer. *)
Definition ref_encoding_for_model (model : string) : Result string :=
  if String.prefix "gpt-" model then Ok "cl100k_base"
  else Raise (LibraryError "tiktoken"
                "Could not automatically map model to a tokeniser").

Definition ref_encode (encoding text : string) : Result (list nat) :=
  Ok (map nat_of_ascii (list_ascii_of_string text)).

(** A file that starts with "%PDF" has one page, the rest of the file. *)
Definition ref_PdfReader (file_content : list byte) : Result (list string) :=
  let s := string_of_list_byte file_content in
  if String.prefix "%PDF" s
  then Ok [substring 4 (String.length s - 4) s]
  else Raise (LibraryError "PyPDF2" "EOF marker not found").

(** Windows of [chunk_size] characters, each starting
    [chunk_size - chunk_overlap] characters after the previous one. *)
Fixpoint windows (fuel size step : nat) (s : string) : list string :=
  match fuel with
  | O => []
  | S fuel' =>
      if (String.length s <=? size)%nat then [s]
      else substring 0 size s
           :: windows fuel' size step
                (substring step (String.length s - step) s)
  end.

Definition ref_RecursiveCharacterTextSplitter (chunk_size chunk_overlap : Z)
  : Result (Z * Z) :=
  if (chunk_size <? chunk_overlap)%Z
  then Raise (ValueError "Got a larger chunk overlap than chunk size")
  else Ok (chunk_size, chunk_overlap).

Definition ref_split_text (splitter : Z * Z) (text : string) : list string :=
  windows (String.length text) (Z.to_nat splitter.1)
          (Z.to_nat (splitter.1 - splitter.2)) text.

(** A vector is its dimension and one feature, the length of the text;
    the nearer the features, the higher the score. *)
Definition ref_embed (e : Embeddings) (text : string) : nat * Z :=
  (match e with
   | OpenAIEmbeddings _ _ => 1536%nat
   | HuggingFaceEmbeddings _ => 384%nat
   end,
   Z.of_nat (String.length text)).

Definition ref_similarity (d : Distance) (a b : nat * Z) : Qc :=
  Q2Qc (inject_Z (- Z.abs (a.2 - b.2))).

Definition ref_uuid4_nth (n : nat) : string :=
  "00000000-0000-4000-8000-" +:+ pretty n.

#[global] Instance libraries : Libraries := {|
  Encoding := string;
  encoding_for_model := ref_encoding_for_model;
  encode := ref_encode;
  Page := string;
  PdfReader := ref_PdfReader;
  extract_text := fun page => Ok page;
  TextSplitter := Z * Z;
  RecursiveCharacterTextSplitter := ref_RecursiveCharacterTextSplitter;
  split_text := ref_split_text;
  Vector := nat * Z;
  dim := fst;
  similarity := ref_similarity;
  embed := ref_embed;
  complete := fun _ _ => "I don't know.";
  GROQ_AVAILABLE := true;
  OLLAMA_AVAILABLE := true;
  uuid4_nth := ref_uuid4_nth
|}.

(** A server that leaves [vectors_count] out. *)
#[global] Instance server : QdrantServer := {|
  reported_vectors_count := fun _ _ => None
|}.

(** A world with nothing stored and nothing going wrong. *)
Definition empty_world : World := mkWorld ∅ [] [] 0.

(** Settings that differ from the defaults in the providers and keys. *)
Definition configure (llm_provider embedding_provider openai_api_key
    groq_api_key openai_model : string) : Settings := {|
  llm_provider := llm_provider;
  openai_api_key := openai_api_key;
  openai_model := openai_model;
  groq_api_key := groq_api_key;
  groq_model := "llama-3.1-70b-versatile";
  ollama_base_url := "http://host.docker.internal:11434";
  ollama_model := "llama3.1";
  embedding_provider := embedding_provider;
  embedding_model := "text-embedding-3-small";
  hf_embedding_model := "all-MiniLM-L6-v2";
  vector_db := "qdrant";
  qdrant_url := "http://localhost:6333";
  qdrant_api_key := "";
  qdrant_collection_name := "customer_support_docs";
  pinecone_api_key := "";
  pinecone_environment := "";
  pinecone_index_name := "customer-support";
  chunk_size := 1000;
  chunk_overlap := 200;
  top_k := 5;
  temperature := 0x1.6666666666666p-1%float;
  max_tokens := 500;
  rag_service_port := 8000
|}.

(** Groq for generation, HuggingFace for the embeddings. *)
Definition groq_settings : Settings :=
  configure "groq" "huggingface" "" "gsk_key" "gpt-4".

(** The same with a generation provider the service does not know. *)
Definition mistral_settings : Settings :=
  configure "mistral" "huggingface" "" "" "gpt-4".

(** OpenAI with a model tiktoken has no tokenizer for. *)
Definition custom_model_settings : Settings :=
  configure "openai" "openai" "sk_key" "" "support-model-v2".

Definition client : QdrantClient :=
  mkQdrantClient "http://localhost:6333" None.

Definition ingestor : Ingest.DocumentIngestor :=
  Ingest.mkDocumentIngestor (HuggingFaceEmbeddings "all-MiniLM-L6-v2")
    (1000%Z, 200%Z) (Some client).

Definition engine : Query.RAGQueryEngine :=
  Query.mkRAGQueryEngine (HuggingFaceEmbeddings "all-MiniLM-L6-v2")
    (ChatGroq "gsk_key" "llama-3.1-70b-versatile"
       0x1.6666666666666p-1%float 500)
    (Some client)
    (Some (mkQdrant client "customer_support_docs"
             (HuggingFaceEmbeddings "all-MiniLM-L6-v2"))).

Definition connection_refused : Exception :=
  LibraryError "httpx" "Connection refused".

(** The server cannot be reached once the embedding model is loaded. *)
Definition unreachable_world : World :=
  mkWorld ∅ [None; Some connection_refused; Some connection_refused] [] 0.

(** The collection exists already, with the vector size of OpenAI. *)
Definition world_1536 : World :=
  mkWorld {[ "customer_support_docs" :=
               mkCollection (mkVectorParams 1536 COSINE) [] ]} [] [] 0.

Definition chunk (text : string) : PointStruct :=
  mkPoint "id" (ref_embed (HuggingFaceEmbeddings "all-MiniLM-L6-v2") text)
    (mkDocument text (mkMetadata "faq.txt" "doc" 0 3)).

(** Three chunks are stored. *)
Definition populated_world : World :=
  mkWorld {[ "customer_support_docs" :=
               mkCollection (mkVectorParams 384 COSINE)
                 [chunk "Reset it from the login page.";
                  chunk "Refunds take five days.";
                  chunk "Call us."] ]} [] [] 0.

(** Bytes that are no UTF-8 text. *)
Definition binary_file : list byte := [x89; xff; xfe; x00].

(** [groq_settings] with another vector database, and with the name of
    the embedding provider in capitals. *)
Definition pinecone_settings : Settings := {|
  llm_provider := "groq";
  openai_api_key := "";
  openai_model := "gpt-4";
  groq_api_key := "gsk_key";
  groq_model := "llama-3.1-70b-versatile";
  ollama_base_url := "http://host.docker.internal:11434";
  ollama_model := "llama3.1";
  embedding_provider := "huggingface";
  embedding_model := "text-embedding-3-small";
  hf_embedding_model := "all-MiniLM-L6-v2";
  vector_db := "pinecone";
  qdrant_url := "http://localhost:6333";
  qdrant_api_key := "";
  qdrant_collection_name := "customer_support_docs";
  pinecone_api_key := "";
  pinecone_environment := "";
  pinecone_index_name := "customer-support";
  chunk_size := 1000;
  chunk_overlap := 200;
  top_k := 5;
  temperature := 0x1.6666666666666p-1%float;
  max_tokens := 500;
  rag_service_port := 8000
|}.

Definition capitalised_settings : Settings :=
  configure "groq" "HuggingFace" "" "gsk_key" "gpt-4".

(** A PDF of one page without text, and one of one page with text. *)
Definition scanned_pdf : list byte := list_byte_of_string "%PDF".

Definition report_pdf : list byte :=
  list_byte_of_string "%PDFQuarterly report".

(** The components of the application under [groq_settings]. *)
Definition manager : Retrain.RetrainManager :=
  Retrain.mkRetrainManager (Retrain.mkOpenAI "").

Definition components : App.Components :=
  App.mkComponents ingestor engine manager.

(** The listing call fails. *)
Definition refusing_world : World :=
  mkWorld {[ "customer_support_docs" :=
               mkCollection (mkVectorParams 384 COSINE) [] ]}
          [Some connection_refused] [] 0.

(** Three samples of feedback; the last has no response. *)
Definition sample (query response : string) : gmap string Retrain.Value :=
  <["query" := Retrain.VStr query]>
    (<["response" := Retrain.VStr response]>
       (<["rating" := Retrain.VInt 1]> ∅)).

Definition three_samples : list (gmap string Retrain.Value) :=
  [sample "How do I reset my password?" "From the login page.";
   sample "Where is my refund?" "Refunds take five days.";
   <["query" := Retrain.VStr "Hello"]> ∅].

(** A service that answers both requests of the retraining flow with
    status 200; the retraining was skipped. *)
Definition ref_requests : RetrainFlow.Requests := {|
  RetrainFlow.get := fun url timeout =>
    Ok (RetrainFlow.mkResponse 200 "{}" (Ok "{}"));
  RetrainFlow.post := fun url body timeout =>
    Ok (RetrainFlow.mkResponse 200
          "{'status': 'success', 'details': {'status': 'skipped'}}"
          (Ok "{'status': 'success', 'details': {'status': 'skipped'}}"))
|}.

(** A service that cannot be reached. *)
Definition unreachable_requests : RetrainFlow.Requests := {|
  RetrainFlow.get := fun url timeout => Raise connection_refused;
  RetrainFlow.post := fun url body timeout => Raise connection_refused
|}.





(** OpenAI for generation and for the embeddings, the engine built
    from these settings, and a collection of one chunk with a vector of
    the size of OpenAI. *)
Definition openai_settings : Settings :=
  configure "openai" "openai" "sk_key" "" "gpt-4".

Definition openai_engine : Query.RAGQueryEngine :=
  Query.mkRAGQueryEngine (OpenAIEmbeddings "sk_key" "text-embedding-3-small")
    (ChatOpenAI "sk_key" "gpt-4" 0x1.6666666666666p-1%float 500)
    (Some client)
    (Some (mkQdrant client "customer_support_docs"
             (OpenAIEmbeddings "sk_key" "text-embedding-3-small"))).

Definition custom_model_engine : Query.RAGQueryEngine :=
  Query.mkRAGQueryEngine (OpenAIEmbeddings "sk_key" "text-embedding-3-small")
    (ChatOpenAI "sk_key" "support-model-v2" 0x1.6666666666666p-1%float 500)
    (Some client)
    (Some (mkQdrant client "customer_support_docs"
             (OpenAIEmbeddings "sk_key" "text-embedding-3-small"))).

Definition openai_world : World :=
  mkWorld {[ "customer_support_docs" :=
               mkCollection (mkVectorParams 1536 COSINE)
                 [mkPoint "id"
                    (ref_embed
                       (OpenAIEmbeddings "sk_key" "text-embedding-3-small")
                       "Call us.")
                    (mkDocument "Call us."
                       (mkMetadata "faq.txt" "doc" 0 1))] ]} [] [] 0.

End Reference.

(* ===================================================================== *)
(** ** The Python helpers at work *)
(* ===================================================================== *)

Example lower_mixed : Py.lower "Report.PDF" = "report.pdf".
Proof. reflexivity. Qed.

Example endswith_tuple :
  Py.endswith_any "notes.md" [".txt"; ".md"; ".markdown"; ".csv"] = true.
Proof. reflexivity. Qed.

Example contains_pdf : Py.contains "pdf" "application/pdf" = true.
Proof. reflexivity. Qed.

Example strip_spaces : Py.strip "  a b  " = "a b".
Proof. reflexivity. Qed.

Example utf8_rejects_ff : Py.utf8_valid [255%N; 254%N] = false.
Proof. reflexivity. Qed.

Example utf8_accepts_e_acute : Py.utf8_valid [99%N; 195%N; 169%N] = true.
Proof. reflexivity. Qed.

Example lower_kelvin :
  Py.lower (String (ascii_of_nat 226) (String (ascii_of_nat 132)
              (String (ascii_of_nat 170) "")))
  = "k".
Proof. reflexivity. Qed.

Example isspace_no_break_space :
  Py.isspace (String (ascii_of_nat 194) (String (ascii_of_nat 160) " ")) = true.
Proof. reflexivity. Qed.

Example decode_rejects_binary :
  decode_utf8 Reference.binary_file = Raise UnicodeDecodeError.
Proof. reflexivity. Qed.

Example prompt_ends_with_answer_cue :
  Py.endswith (Query.PROMPT "ctx" "q") "Helpful Answer:" = true.
Proof. reflexivity. Qed.

(* ===================================================================== *)
(** ** The monad: inversion and framing *)
(* ===================================================================== *)

Section MonadLemmas.
Context `{Libraries}.

Lemma bind_Ok_inv {A B} (m : M A) (k : A -> M B) w b w' :
  bind m k w = (Ok b, w') ->
  exists a w1, m w = (Ok a, w1) /\ k a w1 = (Ok b, w').
Proof.
  unfold bind. destruct (m w) as [[a|e] w1]; intros Hk; [eauto|discriminate].
Qed.

Lemma bind_Ok {A B} (m : M A) (k : A -> M B) w a w1 :
  m w = (Ok a, w1) -> bind m k w = k a w1.
Proof. unfold bind. intros ->. reflexivity. Qed.

Lemma bind_Raise {A B} (m : M A) (k : A -> M B) w e w1 :
  m w = (Raise e, w1) -> bind m k w = (Raise e, w1).
Proof. unfold bind. intros ->. reflexivity. Qed.

Lemma try_except_Ok {A} (body : M A) handler w a w1 :
  body w = (Ok a, w1) -> try_except body handler w = (Ok a, w1).
Proof. unfold try_except. intros ->. reflexivity. Qed.

Lemma try_except_Raise {A} (body : M A) handler w e w1 :
  body w = (Raise e, w1) -> try_except body handler w = handler e w1.
Proof. unfold try_except. intros ->. reflexivity. Qed.

(** A handler that logs and raises again lets no result through that the
    body did not produce. *)
Lemma reraise_Ok_inv {A} (body : M A) lv msg w a w' :
  try_except body
    (fun e => do _ <- logger lv msg [ArgExc e]; raise e) w = (Ok a, w') ->
  body w = (Ok a, w').
Proof.
  unfold try_except. destruct (body w) as [[a0|e] w1]; [easy|].
  unfold bind, logger, raise. discriminate.
Qed.

Lemma external_Ok_inv {A} (op : M A) w a w' :
  external op w = (Ok a, w') ->
  exists w0, op w0 = (Ok a, w') /\ qdrant w0 = qdrant w.
Proof.
  unfold external. destruct (schedule w) as [|[e|] rest]; intros Hop.
  - eauto.
  - discriminate.
  - eexists; split; [exact Hop|reflexivity].
Qed.



Lemma run_result {A} (t : Result A * World) (r : Result A) :
  t.1 = r -> t = (r, t.2).
Proof. destruct t as [r0 w]. cbn. by intros ->. Qed.

End MonadLemmas.

(* ===================================================================== *)
(** ** Calls that leave the process *)
(* ===================================================================== *)

Section Calls.
Context `{Libraries}.

Lemma external_nil {A} (op : M A) (w : World) :
  schedule w = [] -> external op w = op w.
Proof. unfold external. by intros ->. Qed.

Lemma quiet_refl w : quiet w w.
Proof. split; reflexivity. Qed.

Lemma quiet_trans w1 w2 w3 : quiet w1 w2 -> quiet w2 w3 -> quiet w1 w3.
Proof.
  intros [Hq1 Hs1] [Hq2 Hs2]. split; [congruence|]. by etrans.
Qed.

Lemma quiet_logger lv msg xs w :
  exists w', logger lv msg xs w = (Ok tt, w') /\ quiet w w'
             /\ log w' = log w ++ [mkLog lv msg xs].
Proof.
  eexists. split; [reflexivity|]. split; [|reflexivity].
  split; cbn; reflexivity.
Qed.

(** A call either meets a failure of the schedule, or runs in a world
    that differs from the present one by the schedule only. *)
Lemma external_cases {A} (op : M A) (w : World) :
  (exists e w', external op w = (Raise e, w') /\ quiet w w'
                /\ In (Some e) (schedule w) /\ log w' = log w)
  \/ (exists w0, external op w = op w0 /\ quiet w w0 /\ log w0 = log w
                 /\ uuid_count w0 = uuid_count w).
Proof.
  unfold external. destruct (schedule w) as [|[e|] rest] eqn:Hs.
  - right. exists w. repeat split; reflexivity.
  - left. exists e, (set_schedule rest w). repeat split; cbn.
    + rewrite Hs. by apply suffix_cons_r.
    + by left.
  - right. exists (set_schedule rest w). repeat split; cbn.
    rewrite Hs. by apply suffix_cons_r.
Qed.

Lemma get_collections_cases (c : QdrantClient) (w : World) :
  exists r w', get_collections c w = (r, w') /\ quiet w w' /\ log w' = log w
    /\ match r with
       | Ok names => names = map fst (map_to_list (qdrant w))
       | Raise e => In (Some e) (schedule w)
       end.
Proof.
  unfold get_collections.
  destruct (external_cases
              (fun w => (Ok (map fst (map_to_list (qdrant w))), w)) w)
    as [(e & w' & -> & Hq & Hin & Hl)|(w0 & -> & Hq & Hl & _)].
  - exists (Raise e), w'. auto.
  - exists (Ok (map fst (map_to_list (qdrant w0)))), w0.
    repeat split; try apply Hq; try exact Hl. by rewrite (proj1 Hq).
Qed.

Lemma create_collection_cases (c : QdrantClient) (name : string)
    (params : VectorParams) (w : World) :
  (exists e w', create_collection c name params w = (Raise e, w')
                /\ quiet w w' /\ log w' = log w)
  \/ (exists w', create_collection c name params w = (Ok tt, w')
                 /\ qdrant w !! name = None
                 /\ qdrant w' = <[name := mkCollection params []]> (qdrant w)
                 /\ schedule w' `suffix_of` schedule w /\ log w' = log w).
Proof.
  unfold create_collection.
  match goal with |- context [external ?op w] =>
    destruct (external_cases op w)
      as [(e & w' & -> & Hq & _ & Hl)|(w0 & -> & Hq & Hl & _)]
  end.
  - left. eauto.
  - destruct Hq as [Hq Hs]. rewrite Hq.
    destruct (qdrant w !! name) as [col|] eqn:Hcol.
    + left. eexists _, w0. repeat split; auto.
    + right. eexists. repeat split; cbn; auto.
Qed.

End Calls.

(* ===================================================================== *)
(** ** The collection check of the ingestor *)
(* ===================================================================== *)

Section EnsureCollection.
Context `{Libraries}.

(** The names [get_collections] lists are the keys of the server's map. *)
Lemma listed_iff_stored (q : gmap string Collection) (name : string) :
  name ∈ map fst (map_to_list q) <-> is_Some (q !! name).
Proof.
  change (map fst (map_to_list q)) with ((map_to_list q).*1).
  rewrite list_elem_of_fmap. split.
  - intros [[k col] [-> Hin]]. apply elem_of_map_to_list in Hin. eauto.
  - intros [col Hcol]. exists (name, col). split; [reflexivity|].
    apply elem_of_map_to_list. exact Hcol.
Qed.

Lemma listed_true (q : gmap string Collection) (name : string) col :
  q !! name = Some col ->
  bool_decide (name ∈ map fst (map_to_list q)) = true.
Proof. intros Hq. apply bool_decide_eq_true, listed_iff_stored. eauto. Qed.

Lemma listed_false (q : gmap string Collection) (name : string) :
  q !! name = None ->
  bool_decide (name ∈ map fst (map_to_list q)) = false.
Proof.
  intros Hq. apply bool_decide_eq_false. rewrite listed_iff_stored, Hq.
  by intros [? ?].
Qed.

(** What the check does to the world, case by case: nothing but a log
    record when the server cannot be reached or refuses; nothing at all
    when the collection is listed; one new collection otherwise. *)
Lemma ensure_cases (s : Settings) (c : QdrantClient) (w : World) :
  exists w',
    Ingest._ensure_collection_exists s c w = (Ok tt, w')
    /\ schedule w' `suffix_of` schedule w
    /\ (qdrant w' = qdrant w
        \/ (qdrant w !! qdrant_collection_name s = None
            /\ exists n,
                 qdrant w' =
                   <[qdrant_collection_name s :=
                       mkCollection (mkVectorParams n COSINE) []]> (qdrant w)
                 /\ (embedding_provider s = "openai" -> n = 1536%nat)
                 /\ (embedding_provider s = "huggingface" -> n = 384%nat))).
Proof.
  unfold Ingest._ensure_collection_exists.
  destruct (get_collections_cases c w) as ([names|e] & w1 & Hget & Hq1 & _ & Hr).
  - (* the server answered *)
    destruct (bool_decide (qdrant_collection_name s ∈ names)) eqn:Hin.
    + exists w1. split.
      * apply try_except_Ok. rewrite (bind_Ok _ _ _ _ _ Hget), Hin. reflexivity.
      * split; [apply Hq1|left; apply Hq1].
    + set (n := if String.eqb (embedding_provider s) "openai" then 1536%nat
                else if String.eqb (embedding_provider s) "huggingface"
                     then 384%nat else 1536%nat).
      destruct (quiet_logger INFO
        "Creating collection: {settings.qdrant_collection_name} with vector size: {vector_size}"
        [ArgStr (qdrant_collection_name s); ArgInt (Z.of_nat n)] w1)
        as (w2 & Hlog & Hq2 & _).
      pose proof (quiet_trans _ _ _ Hq1 Hq2) as Hq12.
      destruct (create_collection_cases c (qdrant_collection_name s)
                  (mkVectorParams n COSINE) w2)
        as [(e & w3 & Hc & Hq3 & _)|(w3 & Hc & Hnone & Hins & Hs3 & _)].
      * destruct (quiet_logger ERROR "Failed to ensure collection exists: {e}"
                    [ArgExc e] w3) as (w4 & Hlog4 & Hq4 & _).
        pose proof (quiet_trans _ _ _ Hq12 (quiet_trans _ _ _ Hq3 Hq4)) as Hq.
        exists w4. split.
        -- rewrite (try_except_Raise _ _ _ e w3); [exact Hlog4|].
           rewrite (bind_Ok _ _ _ _ _ Hget), Hin. cbn [negb].
           fold n. rewrite (bind_Ok _ _ _ _ _ Hlog). exact Hc.
        -- split; [apply Hq|left; apply Hq].
      * exists w3. split.
        -- apply try_except_Ok.
           rewrite (bind_Ok _ _ _ _ _ Hget), Hin. cbn [negb].
           fold n. rewrite (bind_Ok _ _ _ _ _ Hlog). exact Hc.
        -- split; [etrans; [exact Hs3|apply Hq12]|].
           right. rewrite (proj1 Hq12) in Hnone, Hins. split; [exact Hnone|].
           exists n. split; [exact Hins|]. subst n.
           split; intros ->; reflexivity.
  - (* the server could not be reached *)
    destruct (quiet_logger ERROR "Failed to ensure collection exists: {e}"
                [ArgExc e] w1) as (w2 & Hlog & Hq2 & _).
    exists w2. split.
    + rewrite (try_except_Raise _ _ _ e w1); [exact Hlog|].
      apply bind_Raise. exact Hget.
    + pose proof (quiet_trans _ _ _ Hq1 Hq2) as Hq.
      split; [apply Hq|left; apply Hq].
Qed.

(** The check logs the failure of the call that lists the collections,
    or of the call that creates one, and leaves the server as it was. *)
Lemma ensure_failure_logged (s : Settings) (c : QdrantClient) (w : World)
    (e : Exception) (rest : Schedule) :
  schedule w = Some e :: rest
  \/ (qdrant w !! qdrant_collection_name s = None
      /\ schedule w = None :: Some e :: rest) ->
  exists w',
    Ingest._ensure_collection_exists s c w = (Ok tt, w')
    /\ qdrant w' = qdrant w
    /\ last (log w') = Some (ensure_error_record e).
Proof.
  destruct w as [q sch lg u]. cbn [qdrant schedule].
  unfold Ingest._ensure_collection_exists, try_except, bind, get_collections,
    create_collection, external, logger, ret.
  intros [->|[Hq ->]]; cbn; rewrite ?(listed_false _ _ Hq); cbn;
    eexists; (split; [reflexivity|]); cbn; (split; [reflexivity|]);
    rewrite ?last_snoc; reflexivity.
Qed.

(** C2, as the code has it. The check never fails. When the collection
    exists it is left as it is, whatever its vector size: there is no
    comparison with the size the embedding provider needs. When it does
    not exist and the two calls to the server go through, it is created
    empty, with cosine distance and the vector size chosen from the name
    of the embedding provider; when a call fails, nothing is created. *)
Theorem ensure_collection_creates_or_keeps
    (s : Settings) (c : QdrantClient) (w : World) :
  exists w',
    Ingest._ensure_collection_exists s c w = (Ok tt, w')
    /\ qdrant w' =
       match qdrant w !! qdrant_collection_name s with
       | Some _ => qdrant w
       | None =>
           if goes_through 2 (schedule w)
           then <[qdrant_collection_name s :=
                    mkCollection (mkVectorParams (vector_size_for s) COSINE) []]>
                  (qdrant w)
           else qdrant w
       end.
Proof.
  destruct w as [q sch lg u]. cbn [qdrant schedule].
  unfold Ingest._ensure_collection_exists, try_except, bind, get_collections,
    create_collection, external, logger, ret, vector_size_for.
  destruct (q !! qdrant_collection_name s) as [col|] eqn:Hq;
    destruct sch as [|[e|] [|[e2|] r]]; cbn;
    rewrite ?(listed_true _ _ _ Hq), ?(listed_false _ _ Hq); cbn;
    rewrite ?Hq; eexists; split; reflexivity.
Qed.

End EnsureCollection.

(* ===================================================================== *)
(** ** Construction of the components *)
(* ===================================================================== *)

Section Construction.
Context `{Libraries}.

Lemma eqb_false_of_ne (a b : string) : a <> b -> String.eqb a b = false.
Proof. intros Hne. apply String.eqb_neq. exact Hne. Qed.

Lemma falsy_empty (k : string) : k = "" -> falsy k = true.
Proof. intros ->. reflexivity. Qed.

(** Both classes run the same checks on the embedding provider, and
    raise before anything outside the process is called. *)
Lemma ingest_embeddings_rejected (s : Settings) (w : World) :
  embedding_provider_unrecognized s \/ embedding_credential_absent s ->
  exists msg w',
    Ingest._initialize_embeddings s w = (Raise (ValueError msg), w')
    /\ Query._initialize_embeddings s w = (Raise (ValueError msg), w')
    /\ qdrant w' = qdrant w /\ schedule w' = schedule w.
Proof.
  intros [[Ho Hh]|[Ho Hk]];
    unfold Ingest._initialize_embeddings, Query._initialize_embeddings,
      bind, logger, raise; cbn.
  - rewrite (eqb_false_of_ne _ _ Ho), (eqb_false_of_ne _ _ Hh). eauto 10.
  - rewrite Ho, (falsy_empty _ Hk). cbn. eauto 10.
Qed.

Lemma llm_rejected (s : Settings) (w : World) :
  llm_provider_unrecognized s \/ llm_credential_absent s ->
  exists msg w',
    Query._initialize_llm s w = (Raise (ValueError msg), w')
    /\ qdrant w' = qdrant w /\ schedule w' = schedule w.
Proof.
  intros [(Ho & Hg & Hl)|[[Ho Hk]|[Hg Hk]]];
    unfold Query._initialize_llm, bind, logger, raise; cbn.
  - rewrite (eqb_false_of_ne _ _ Ho), (eqb_false_of_ne _ _ Hg),
      (eqb_false_of_ne _ _ Hl). eauto 10.
  - rewrite Ho, (falsy_empty _ Hk). cbn. eauto 10.
  - rewrite Hg, (falsy_empty _ Hk). cbn.
    destruct GROQ_AVAILABLE; cbn; eauto 10.
Qed.

Lemma query_init_raises_with_embeddings (s : Settings) (w : World) e w' :
  Query._initialize_embeddings s w = (Raise e, w') ->
  Query.__init__ s w = (Raise e, w').
Proof. intros He. unfold Query.__init__. by apply bind_Raise. Qed.

Lemma query_init_raises_with_llm (s : Settings) (w : World) emb w1 e w' :
  Query._initialize_embeddings s w = (Ok emb, w1) ->
  Query._initialize_llm s w1 = (Raise e, w') ->
  Query.__init__ s w = (Raise e, w').
Proof.
  intros He Hl. unfold Query.__init__.
  rewrite (bind_Ok _ _ _ _ _ He). by apply bind_Raise.
Qed.

Lemma ingest_init_raises_with_embeddings (s : Settings) (w : World) e w' :
  Ingest._initialize_embeddings s w = (Raise e, w') ->
  Ingest.__init__ s w = (Raise e, w').
Proof. intros He. unfold Ingest.__init__. by apply bind_Raise. Qed.

(** Once the embeddings and the splitter are built, nothing the server
    does or fails to do stops the constructor. *)
Lemma ingest_init_completes (s : Settings) (w : World) emb w1 sp :
  Ingest._initialize_embeddings s w = (Ok emb, w1) ->
  RecursiveCharacterTextSplitter (chunk_size s) (chunk_overlap s) = Ok sp ->
  exists w',
    Ingest.__init__ s w =
      (Ok (Ingest.mkDocumentIngestor emb sp
             (if String.eqb (vector_db s) "qdrant" then Some (connect s)
              else None)), w')
    /\ schedule w' `suffix_of` schedule w1.
Proof.
  intros He Hsp. unfold Ingest.__init__.
  rewrite (bind_Ok _ _ _ _ _ He). unfold lift at 1. rewrite Hsp.
  unfold bind at 1.
  destruct (String.eqb (vector_db s) "qdrant").
  - destruct (ensure_cases s (connect s) w1) as (w' & Hens & Hsuf & _).
    exists w'. split; [|exact Hsuf].
    by rewrite (bind_Ok _ _ _ _ _ Hens).
  - exists w1. split; reflexivity.
Qed.


(** C10. Construction of the document ingestor never fails because the
    vector store is unreachable or the collection check errors: once the
    embeddings and the splitter are built, [__init__] returns an
    ingestor whatever the server holds and whatever its calls meet;
    [_ensure_collection_exists] returns normally in every world; and an
    exception raised by either of its two calls ends in the log, with
    the server untouched. *)
Theorem ingestor_construction_survives_store_failures
    (s : Settings) (w w1 : World) (emb : Embeddings) (sp : TextSplitter) :
  Ingest._initialize_embeddings s w = (Ok emb, w1) ->
  RecursiveCharacterTextSplitter (chunk_size s) (chunk_overlap s) = Ok sp ->
  (exists self w', Ingest.__init__ s w = (Ok self, w'))
  /\ (forall c w0, exists w',
        Ingest._ensure_collection_exists s c w0 = (Ok tt, w'))
  /\ (forall c w0 e rest,
        schedule w0 = Some e :: rest
        \/ (qdrant w0 !! qdrant_collection_name s = None
            /\ schedule w0 = None :: Some e :: rest) ->
        exists w',
          Ingest._ensure_collection_exists s c w0 = (Ok tt, w')
          /\ qdrant w' = qdrant w0
          /\ last (log w') = Some (ensure_error_record e)).
Proof.
  intros Hemb Hsp. split; [|split].
  - destruct (ingest_init_completes s w emb w1 sp Hemb Hsp) as (w' & Hinit & _).
    eauto.
  - intros c w0. destruct (ensure_cases s c w0) as (w' & Hens & _). eauto.
  - intros c w0 e rest. apply ensure_failure_logged.
Qed.

(** C5. A configuration that names an unknown embedding provider, or
    OpenAI embeddings without a key, makes both constructors and the
    start of the application raise a [ValueError] before anything
    outside the process is called. One that names an unknown generation
    provider, or one without its key, makes the construction of the
    query engine and the start of the application fail; the exception is
    the [ValueError] of [_initialize_llm] as soon as the steps before it
    have succeeded. *)
Theorem construction_fails_on_misconfiguration (s : Settings) (w : World) :
  (embedding_provider_unrecognized s \/ embedding_credential_absent s ->
   exists msg w',
     Ingest.__init__ s w = (Raise (ValueError msg), w')
     /\ Query.__init__ s w = (Raise (ValueError msg), w')
     /\ App.startup s w = (Raise (ValueError msg), w')
     /\ qdrant w' = qdrant w /\ schedule w' = schedule w)
  /\ (llm_provider_unrecognized s \/ llm_credential_absent s ->
      (exists e w', Query.__init__ s w = (Raise e, w'))
      /\ (exists e w', App.startup s w = (Raise e, w'))
      /\ (forall emb w1,
            Query._initialize_embeddings s w = (Ok emb, w1) ->
            exists msg w',
              Query.__init__ s w = (Raise (ValueError msg), w')
              /\ qdrant w' = qdrant w1 /\ schedule w' = schedule w1)
      /\ (forall self w1 emb w2,
            Ingest.__init__ s w = (Ok self, w1) ->
            Query._initialize_embeddings s w1 = (Ok emb, w2) ->
            exists msg w',
              App.startup s w = (Raise (ValueError msg), w')
              /\ qdrant w' = qdrant w2 /\ schedule w' = schedule w2)).
Proof.
  split.
  - intros Hbad.
    destruct (ingest_embeddings_rejected s w Hbad)
      as (msg & w' & Hi & Hq & Hstore & Hsch).
    exists msg, w'. repeat split; try assumption.
    + by apply ingest_init_raises_with_embeddings.
    + by apply query_init_raises_with_embeddings.
    + unfold App.startup. apply bind_Raise.
      by apply ingest_init_raises_with_embeddings.
  - intros Hbad.
    assert (forall w0 emb w1,
              Query._initialize_embeddings s w0 = (Ok emb, w1) ->
              exists msg w',
                Query.__init__ s w0 = (Raise (ValueError msg), w')
                /\ qdrant w' = qdrant w1 /\ schedule w' = schedule w1)
      as Hquery.
    { intros w0 emb w1 Hemb.
      destruct (llm_rejected s w1 Hbad) as (msg & w' & Hllm & Hstore & Hsch).
      exists msg, w'. split; [|by split].
      by apply (query_init_raises_with_llm s w0 emb w1). }
    assert (forall w0, exists e w', Query.__init__ s w0 = (Raise e, w'))
      as Hfails.
    { intros w0.
      destruct (Query._initialize_embeddings s w0) as [[emb|e] w1] eqn:Hemb.
      - destruct (Hquery w0 emb w1 Hemb) as (msg & w' & Hq & _). eauto.
      - exists e, w1. by apply query_init_raises_with_embeddings. }
    repeat split.
    + apply Hfails.
    + unfold App.startup.
      destruct (Ingest.__init__ s w) as [[self|e] w1] eqn:Hinit.
      * destruct (Hfails w1) as (e & w' & Hq). exists e, w'.
        rewrite (bind_Ok _ _ _ _ _ Hinit). by apply bind_Raise.
      * exists e, w1. by apply bind_Raise.
    + apply Hquery.
    + intros self w1 emb w2 Hinit Hemb.
      destruct (Hquery w1 emb w2 Hemb) as (msg & w' & Hq & Hstore & Hsch).
      exists msg, w'. split; [|by split].
      unfold App.startup. rewrite (bind_Ok _ _ _ _ _ Hinit).
      by apply bind_Raise.
Qed.

End Construction.

(* ===================================================================== *)
(** ** Text extraction *)
(* ===================================================================== *)

Section Extraction.
Context `{Libraries}.

Lemma logged_refl w : logged w w.
Proof. repeat split. Qed.

Lemma logged_trans w1 w2 w3 : logged w1 w2 -> logged w2 w3 -> logged w1 w3.
Proof. intros (?&?&?) (?&?&?). repeat split; congruence. Qed.

Lemma logged_logger lv msg xs w w' :
  logger lv msg xs w = (Ok tt, w') -> logged w w'.
Proof. intros [= <-]. repeat split. Qed.

Lemma strip_of_isspace (text : string) :
  Py.isspace text = true -> Py.strip text = "".
Proof.
  unfold Py.isspace, Py.strip. intros Hs.
  apply andb_prop in Hs as [_ Hs]. apply String.eqb_eq in Hs.
  rewrite Hs. reflexivity.
Qed.

(** The test of [ingest] on the extracted text. *)
Lemma blank_test (text : string) :
  text = "" \/ Py.isspace text = true ->
  falsy text || (String.length (Py.strip text) =? 0)%nat = true.
Proof.
  intros [->|Hs]; [reflexivity|].
  rewrite (strip_of_isspace _ Hs). apply orb_true_r.
Qed.

Lemma concat_pages_logged (pages : list Page) (text : string) (w : World) :
  exists r, Ingest.concat_pages pages text w = (r, w).
Proof.
  revert text. induction pages as [|page rest IH]; intros text; cbn.
  - eexists. reflexivity.
  - unfold bind, lift. destruct (extract_text page) as [t|e].
    + apply IH.
    + eexists. reflexivity.
Qed.

Lemma extract_from_pdf_logged (fc : list byte) (w : World) :
  exists r w', Ingest._extract_from_pdf fc w = (r, w') /\ logged w w'.
Proof.
  unfold Ingest._extract_from_pdf, try_except, bind, lift at 1.
  destruct (PdfReader fc) as [pages|e].
  - destruct (concat_pages_logged pages "" w) as [[t|e] ->].
    + eexists _, _. split; [reflexivity|apply logged_refl].
    + eexists _, _. split; [reflexivity|]. repeat split.
  - eexists _, _. split; [reflexivity|]. repeat split.
Qed.

(** Extraction reads the file and writes to the log, nothing else. *)
Lemma extract_text_logged (fc : list byte) (fn ft : string)
    (w : World) :
  exists r w', Ingest._extract_text fc fn ft w = (r, w') /\ logged w w'.
Proof.
  unfold Ingest._extract_text, try_except.
  destruct (Py.endswith (Py.lower fn) ".pdf" || Py.contains "pdf" ft).
  - destruct (extract_from_pdf_logged fc w) as ([t|e] & w1 & -> & Hl).
    + eauto.
    + eexists _, _. split; [reflexivity|].
      eapply logged_trans; [exact Hl|]. repeat split.
  - destruct (Py.endswith_any (Py.lower fn) [".txt"; ".md"; ".markdown"; ".csv"]);
      unfold lift, bind, logger, raise; destruct (decode_utf8 fc);
      eexists _, _; (split; [reflexivity|]); repeat split.
Qed.


End Extraction.

(* ===================================================================== *)
(** ** Writing chunks to the collection *)
(* ===================================================================== *)

Section AddTexts.
Context `{Libraries}.

Lemma fresh_ids (texts : list string) (w : World) :
  exists ids w',
    for_each (fun _ => uuid4) texts w = (Ok ids, w')
    /\ length ids = length texts
    /\ qdrant w' = qdrant w.
Proof.
  revert w. induction texts as [|t rest IH]; intros w; cbn [for_each].
  - exists [], w. repeat split.
  - rewrite (bind_Ok uuid4 _ w _ _ eq_refl).
    match goal with |- context [bind (for_each _ rest) _ ?w1] =>
      destruct (IH w1) as (ids & w' & Hrest & Hlen & Hq)
    end.
    rewrite (bind_Ok _ _ _ _ _ Hrest).
    eexists (_ :: ids), w'. split; [reflexivity|].
    split; [cbn; congruence|exact Hq].
Qed.

Lemma batches_fuel_concat {A} (n fuel : nat) (l : list A) :
  (0 < n)%nat -> (length l <= fuel)%nat ->
  concat (batches_fuel fuel n l) = l.
Proof.
  intros Hn. revert l. induction fuel as [|fuel IH]; intros l Hlen.
  - destruct l; [reflexivity|cbn in Hlen; lia].
  - destruct l as [|x l]; [reflexivity|].
    cbn [batches_fuel concat]. rewrite IH.
    + apply take_drop.
    + rewrite length_drop. cbn [length] in *. lia.
Qed.

Lemma batches_concat {A} (n : nat) (l : list A) :
  (0 < n)%nat -> concat (batches n l) = l.
Proof. intros Hn. apply batches_fuel_concat; [exact Hn|reflexivity]. Qed.

Lemma texts_of_make_points (batch : list (string * Metadata * string))
    (f : string -> Vector) :
  texts_of (zip_with make_point batch (map f (map (fun x => x.1.1) batch)))
  = map (fun x => x.1.1) batch.
Proof.
  induction batch as [|x batch IH]; [reflexivity|].
  cbn. unfold texts_of in IH. by rewrite IH.
Qed.


Lemma embed_documents_Ok_inv (e : Embeddings) (texts : list string)
    (w w' : World) vectors :
  embed_documents e texts w = (Ok vectors, w') ->
  vectors = map (embed e) texts /\ qdrant w' = qdrant w.
Proof.
  unfold embed_documents. intros Hop.
  apply external_Ok_inv in Hop as (w0 & Hop & Hq).
  injection Hop as <- <-. by split.
Qed.


Lemma zip_texts (texts : list string) (metadatas : list Metadata)
    (ids : list string) :
  length metadatas = length texts -> length ids = length texts ->
  map (fun x : string * Metadata * string => x.1.1)
      (zip (zip texts metadatas) ids) = texts.
Proof.
  revert metadatas ids. induction texts as [|t texts IH];
    intros [|m ms] [|i ids]; cbn; try discriminate; try reflexivity.
  intros [= Hm] [= Hi]. by rewrite IH.
Qed.


Lemma fresh_ids_schedule (texts : list string) (w : World) :
  exists ids w',
    for_each (fun _ => uuid4) texts w = (Ok ids, w')
    /\ qdrant w' = qdrant w /\ schedule w' = schedule w.
Proof.
  revert w. induction texts as [|t rest IH]; intros w; cbn [for_each].
  - exists [], w. repeat split.
  - rewrite (bind_Ok uuid4 _ w _ _ eq_refl).
    match goal with |- context [bind (for_each _ rest) _ ?w1] =>
      destruct (IH w1) as (ids & w' & Hrest & Hq & Hs)
    end.
    rewrite (bind_Ok _ _ _ _ _ Hrest).
    eexists (_ :: ids), w'. split; [reflexivity|]. by split.
Qed.

Lemma make_points_fit (e : Embeddings) (n : nat)
    (batch : list (string * Metadata * string)) :
  (forall text, dim (embed e text) = n) ->
  forallb (fun p => dim (vector p) =? n)%nat
    (zip_with make_point batch (map (embed e) (map (fun x => x.1.1) batch)))
  = true.
Proof.
  intros Hdim. induction batch as [|x batch IH]; [reflexivity|].
  cbn. rewrite Hdim, Nat.eqb_refl. exact IH.
Qed.

(** With the collection in place, embeddings of its vector size and no
    failure outside, the loop of [add_texts] writes every batch. *)
Lemma upsert_batches_return (store : Qdrant)
    (bs : list (list (string * Metadata * string))) (w : World) col :
  schedule w = [] ->
  qdrant w !! store_collection_name store = Some col ->
  (forall text, dim (embed (store_embeddings store) text) = size (config col)) ->
  exists us w',
    for_each
      (fun batch =>
         do vectors <- embed_documents (store_embeddings store)
                         (map (fun x => x.1.1) batch);
         upsert (store_client store) (store_collection_name store)
                (zip_with make_point batch vectors)) bs w = (Ok us, w')
    /\ schedule w' = [].
Proof.
  intros Hsch Hcol Hdim. revert w col Hsch Hcol Hdim.
  induction bs as [|batch bs IH]; intros w col Hsch Hcol Hdim; cbn [for_each].
  - exists [], w. by split.
  - set (pts := zip_with make_point batch
                  (map (embed (store_embeddings store))
                       (map (fun x => x.1.1) batch))).
    set (w1 := set_qdrant
                 (<[store_collection_name store :=
                      mkCollection (config col) (points col ++ pts)]>
                    (qdrant w)) w).
    assert ((do vectors <- embed_documents (store_embeddings store)
                             (map (fun x => x.1.1) batch);
             upsert (store_client store) (store_collection_name store)
                    (zip_with make_point batch vectors)) w = (Ok tt, w1))
      as Hstep.
    { unfold embed_documents, upsert, bind.
      rewrite !(external_nil _ w Hsch). cbn [ret].
      rewrite (external_nil _ w Hsch), Hcol.
      fold pts. unfold pts. rewrite (make_points_fit _ _ _ Hdim). reflexivity. }
    destruct (IH w1 (mkCollection (config col) (points col ++ pts)))
      as (us & w' & Hrest & Hs').
    + exact Hsch.
    + cbn. apply lookup_insert_eq.
    + exact Hdim.
    + rewrite (bind_Ok _ _ _ _ _ Hstep), (bind_Ok _ _ _ _ _ Hrest).
      eexists _, _. split; [reflexivity|exact Hs'].
Qed.

Lemma add_texts_returns (store : Qdrant) (texts : list string)
    (metadatas : list Metadata) (w : World) col :
  schedule w = [] ->
  qdrant w !! store_collection_name store = Some col ->
  (forall text, dim (embed (store_embeddings store) text) = size (config col)) ->
  exists ids w', add_texts store texts metadatas w = (Ok ids, w').
Proof.
  intros Hsch Hcol Hdim. unfold add_texts.
  destruct (fresh_ids_schedule texts w) as (ids & w1 & Hids & Hq & Hs).
  rewrite (bind_Ok _ _ _ _ _ Hids).
  destruct (upsert_batches_return store
              (batches 64 (zip (zip texts metadatas) ids)) w1 col)
    as (us & w' & Hloop & _); [congruence|congruence|exact Hdim|].
  rewrite (bind_Ok _ _ _ _ _ Hloop). eexists _, _. reflexivity.
Qed.

End AddTexts.

(* ===================================================================== *)
(** ** Ingestion *)
(* ===================================================================== *)

Section Ingestion.
Context `{Libraries}.


(** Extraction yields no text: [ingest] raises before it splits. *)
Lemma ingest_blank (s : Settings) (self : Ingest.DocumentIngestor)
    (fc : list byte) (fn ft : string) (w w1 : World) text :
  Ingest._extract_text fc fn ft w = (Ok text, w1) ->
  text = "" \/ Py.isspace text = true ->
  exists w',
    Ingest.ingest s self fc fn ft w = (Raise no_text, w')
    /\ logged w1 w' /\ log w' = log w1 ++ [ingest_error_record no_text].
Proof.
  intros Hex Hblank. unfold Ingest.ingest.
  rewrite (try_except_Raise _ _ _ no_text w1).
  - eexists. split; [reflexivity|]. repeat split.
  - rewrite (bind_Ok _ _ _ _ _ Hex), (blank_test _ Hblank). reflexivity.
Qed.


(** An ingestion returns when the extraction yields a text with content,
    the collection exists, the embeddings have its vector size and no
    call outside fails. *)
Lemma ingest_returns (s : Settings) (self : Ingest.DocumentIngestor)
    (fc : list byte) (fn ft : string) (w w1 : World) text c col :
  Ingest._extract_text fc fn ft w = (Ok text, w1) ->
  falsy text || (String.length (Py.strip text) =? 0)%nat = false ->
  Ingest.qdrant_client self = Some c ->
  qdrant w !! qdrant_collection_name s = Some col ->
  (forall t, dim (embed (Ingest.embeddings self) t) = size (config col)) ->
  schedule w = [] ->
  exists r w', Ingest.ingest s self fc fn ft w = (Ok r, w').
Proof.
  intros Hex Htext Hc Hcol Hdim Hsch.
  destruct (extract_text_logged fc fn ft w) as (r0 & w0 & Hex0 & Hq0 & Hs0 & _).
  rewrite Hex in Hex0. injection Hex0 as <- <-.
  set (chunks := split_text (Ingest.text_splitter self) text).
  set (w2 := mkWorld (qdrant w1) (schedule w1)
               (log w1 ++ [mkLog INFO "Split document into {len(chunks)} chunks"
                             [ArgInt (Z.of_nat (length chunks))]])
               (uuid_count w1)).
  set (doc_id := uuid4_nth (uuid_count w2)).
  set (w3 := mkWorld (qdrant w2) (schedule w2) (log w2) (S (uuid_count w2))).
  set (metadatas := map (fun i => mkMetadata fn doc_id i (length chunks))
                        (seq 0 (length chunks))).
  assert (exists w4,
            (if String.eqb (vector_db s) "qdrant" then
               match Ingest.qdrant_client self with
               | Some c =>
                   do _ <- add_texts
                             (mkQdrant c (qdrant_collection_name s)
                                       (Ingest.embeddings self))
                             chunks metadatas;
                   ret tt
               | None =>
                   raise (AttributeError
                            "'DocumentIngestor' object has no attribute 'qdrant_client'")
               end
             else ret tt) w3 = (Ok tt, w4)) as [w4 Hstore].
  { rewrite Hc. destruct (String.eqb (vector_db s) "qdrant").
    - destruct (add_texts_returns
                  (mkQdrant c (qdrant_collection_name s)
                            (Ingest.embeddings self))
                  chunks metadatas w3 col) as (ids & w4 & Hadd).
      + cbn. congruence.
      + cbn. congruence.
      + exact Hdim.
      + exists w4. by rewrite (bind_Ok _ _ _ _ _ Hadd).
    - by exists w3. }
  eexists _, _. unfold Ingest.ingest. apply try_except_Ok.
  rewrite (bind_Ok _ _ _ _ _ Hex), Htext. cbv beta iota.
  refine (eq_trans (bind_Ok _ _ w1 tt w2 _) _); [reflexivity|].
  refine (eq_trans (bind_Ok _ _ w2 doc_id w3 _) _); [reflexivity|].
  refine (eq_trans (bind_Ok _ _ w3 tt w4 _) _); [exact Hstore|].
  reflexivity.
Qed.

(** C8. When the extracted text is empty or white space only, [ingest]
    raises the [ValueError] "No text could be extracted from the
    document": the splitter is not run (the error record directly
    follows the log of the extraction), no identifier is drawn, no call
    leaves the process and the server holds what it held. *)
Theorem blank_document_is_rejected
    (s : Settings) (self : Ingest.DocumentIngestor) (file_content : list byte)
    (filename file_type : string) (w w1 : World) (text : string) :
  Ingest._extract_text file_content filename file_type w = (Ok text, w1) ->
  text = "" \/ Py.isspace text = true ->
  exists w',
    Ingest.ingest s self file_content filename file_type w
    = (Raise no_text, w')
    /\ qdrant w' = qdrant w /\ schedule w' = schedule w
    /\ uuid_count w' = uuid_count w
    /\ log w' = log w1 ++ [ingest_error_record no_text].
Proof.
  intros Hex Hblank.
  destruct (extract_text_logged file_content filename file_type w)
    as (r0 & w0 & Hex0 & Hl0).
  rewrite Hex in Hex0. injection Hex0 as <- <-.
  destruct (ingest_blank s self _ _ _ _ _ _ Hex Hblank) as (w' & Hing & Hl & Hlog).
  exists w'. split; [exact Hing|].
  pose proof (logged_trans _ _ _ Hl0 Hl) as (Hq & Hs & Hu). by repeat split.
Qed.


End Ingestion.

(* ===================================================================== *)
(** ** Retrieval *)
(* ===================================================================== *)

Section Retrieval.
Context `{Libraries}.

#[local] Instance best_first_trans : Transitive best_first.
Proof. intros a b c Hab Hbc. unfold best_first in *. by etrans. Qed.

#[local] Instance best_first_total : Total best_first.
Proof. intros a b. unfold best_first. destruct (total Qcle (snd a) (snd b)); auto. Qed.

Lemma StronglySorted_take {A} (R : relation A) (n : nat) (l : list A) :
  StronglySorted R l -> StronglySorted R (take n l).
Proof.
  intros Hs. rewrite <- (take_drop n l) in Hs.
  by apply StronglySorted_app_1_l in Hs.
Qed.

(** The answer of the server to a search: a prefix of the ranking. *)
Lemma top_of_ranking (col : Collection) (v : Vector) (k : nat) :
  let hits := take k (ranking col v) in
  length hits = Nat.min k (length (points col))
  /\ StronglySorted best_first hits
  /\ Forall (fun h => h.1 ∈ points col
                      /\ h.2 = similarity (distance (config col)) v (vector h.1))
            hits.
Proof.
  cbn zeta. unfold ranking. split; [|split].
  - rewrite length_take, merge_sort_Permutation, length_map. reflexivity.
  - apply StronglySorted_take, StronglySorted_merge_sort; apply _.
  - apply Forall_forall. intros h Hin.
    apply elem_of_take in Hin as (i & Hi & _).
    apply list_elem_of_lookup_2 in Hi.
    rewrite merge_sort_Permutation in Hi.
    apply list_elem_of_fmap in Hi as (p & -> & Hp). by split.
Qed.

Lemma search_Ok_inv (c : QdrantClient) (name : string) (v : Vector)
    (k : nat) (w w' : World) hits :
  search c name v k w = (Ok hits, w') ->
  qdrant w' = qdrant w
  /\ exists col, qdrant w !! name = Some col
                 /\ hits = take k (ranking col v).
Proof.
  unfold search. intros Hop.
  apply external_Ok_inv in Hop as (w0 & Hop & Hq). rewrite <- Hq.
  destruct (qdrant w0 !! name) as [col|]; [|discriminate].
  destruct (dim v =? size (config col))%nat; [|discriminate].
  injection Hop as <- <-. split; [reflexivity|]. by exists col.
Qed.

Lemma similarity_search_Ok_inv (store : Qdrant) (query : string) (k : nat)
    (w w' : World) docs :
  similarity_search store query k w = (Ok docs, w') ->
  qdrant w' = qdrant w
  /\ exists col, qdrant w !! store_collection_name store = Some col
       /\ docs = map (fun h => payload h.1)
                     (take k (ranking col (embed (store_embeddings store) query))).
Proof.
  unfold similarity_search, similarity_search_with_score. intros Hrun.
  apply bind_Ok_inv in Hrun as (scored_docs & w3 & Hrun & Hret).
  injection Hret as <- <-.
  apply bind_Ok_inv in Hrun as (v & w1 & Hemb & Hrun).
  apply bind_Ok_inv in Hrun as (hits & w2 & Hsearch & Hret).
  injection Hret as <- <-.
  unfold embed_query in Hemb.
  apply external_Ok_inv in Hemb as (w0 & Hemb & Hq0).
  injection Hemb as <- <-.
  apply search_Ok_inv in Hsearch as (Hq2 & col & Hcol & ->).
  split; [congruence|]. exists col. rewrite <- Hq0. split; [exact Hcol|].
  rewrite map_map. reflexivity.
Qed.

(** With the collection in place, a query vector of its size and no
    failure outside, the search returns. *)
Lemma similarity_search_returns (store : Qdrant) (query : string) (k : nat)
    (w : World) col :
  schedule w = [] ->
  qdrant w !! store_collection_name store = Some col ->
  dim (embed (store_embeddings store) query) = size (config col) ->
  similarity_search store query k w
  = (Ok (map (fun h => payload h.1)
           (take k (ranking col (embed (store_embeddings store) query)))), w).
Proof.
  intros Hsch Hcol Hdim. apply Nat.eqb_eq in Hdim.
  unfold similarity_search, similarity_search_with_score, embed_query, search.
  unfold bind. rewrite !(external_nil _ w Hsch). cbn [ret].
  rewrite (external_nil _ w Hsch), Hcol, Hdim. cbn [ret].
  by rewrite map_map.
Qed.

End Retrieval.

(* ===================================================================== *)
(** ** Token accounting and the query *)
(* ===================================================================== *)

Section QueryLemmas.
Context `{Libraries}.

Lemma encode_each (encoding : Encoding) (context : list string)
    (tokens : list (list nat)) (w : World) :
  Forall2 (fun c t => encode encoding c = Ok t) context tokens ->
  for_each (fun c => lift (encode encoding c)) context w = (Ok tokens, w).
Proof.
  induction 1 as [|c t cs ts Hc _ IH]; cbn [for_each]; [reflexivity|].
  unfold bind at 1, lift at 1. rewrite Hc.
  rewrite (bind_Ok _ _ _ _ _ IH). reflexivity.
Qed.

(** With a tokenizer that encodes every text, the estimate is the sum of
    the token counts plus the overhead of the template. *)
Lemma estimate_with_tokenizer (s : Settings) (query response : string)
    (context : list string) (w : World) encoding tq tr tcs :
  encoding_for_model (openai_model s) = Ok encoding ->
  encode encoding query = Ok tq ->
  encode encoding response = Ok tr ->
  Forall2 (fun c t => encode encoding c = Ok t) context tcs ->
  Query._estimate_tokens s query response context w
  = (Ok (length tq + length tr + list_sum (map length tcs) + 100)%nat, w).
Proof.
  intros Henc Hq Hr Hc. unfold Query._estimate_tokens.
  apply try_except_Ok. unfold bind at 1, lift at 1. rewrite Henc.
  unfold bind at 1, lift at 1. rewrite Hq.
  unfold bind at 1, lift at 1. rewrite Hr.
  rewrite (bind_Ok _ _ _ _ _ (encode_each _ _ _ w Hc)). reflexivity.
Qed.

(** Without a tokenizer the estimate is 0, and a warning is logged. *)
Lemma estimate_without_tokenizer (s : Settings) (query response : string)
    (context : list string) (w : World) e :
  encoding_for_model (openai_model s) = Raise e ->
  exists w',
    Query._estimate_tokens s query response context w = (Ok 0%nat, w')
    /\ logged w w' /\ log w' = log w ++ [estimate_warning e].
Proof.
  intros Henc. unfold Query._estimate_tokens.
  rewrite (try_except_Raise _ _ _ e w).
  - eexists. split; [reflexivity|]. repeat split.
  - unfold bind, lift. rewrite Henc. reflexivity.
Qed.

Lemma for_each_lift_world {A B} (f : A -> Result B) (l : list A) (w : World) :
  exists r, for_each (fun x => lift (f x)) l w = (r, w).
Proof.
  induction l as [|x l [r IH]]; cbn [for_each].
  - eexists. reflexivity.
  - unfold bind at 1, lift at 1. destruct (f x) as [y|e].
    + unfold bind. rewrite IH. destruct r; eexists; reflexivity.
    + eexists. reflexivity.
Qed.

(** The estimate never raises, and writes to the log at most. *)
Lemma estimate_returns (s : Settings) (query response : string)
    (context : list string) (w : World) :
  exists n w',
    Query._estimate_tokens s query response context w = (Ok n, w')
    /\ logged w w'.
Proof.
  unfold Query._estimate_tokens, try_except.
  unfold bind at 1, lift at 1.
  destruct (encoding_for_model (openai_model s)) as [enc|e];
    [|eexists _, _; split; [reflexivity|repeat split]].
  unfold bind at 1, lift at 1.
  destruct (encode enc query) as [tq|e];
    [|eexists _, _; split; [reflexivity|repeat split]].
  unfold bind at 1, lift at 1.
  destruct (encode enc response) as [tr|e];
    [|eexists _, _; split; [reflexivity|repeat split]].
  unfold bind at 1.
  destruct (for_each_lift_world (encode enc) context w) as [[tcs|e] ->];
    eexists _, _; (split; [reflexivity|repeat split]).
Qed.

(** A call of [query] that returns has searched the collection of the
    engine's store for [top_k] points, has sent the prompt built from
    them to the engine's model, and reports the estimate of
    [_estimate_tokens] and the OpenAI model of the settings. *)
Lemma query_Ok_inv (s : Settings) (self : Query.RAGQueryEngine)
    (query session_id : string) (top_k : nat) (w w' : World) r :
  Query.query s self query session_id top_k w = (Ok r, w') ->
  exists store col w1 w2,
    Query.vector_store self = Some store
    /\ qdrant w !! store_collection_name store = Some col
    /\ qdrant w' = qdrant w
    /\ Query.context r
       = map (fun h => page_content (payload h.1))
             (take top_k
                (ranking col (embed (store_embeddings store) query)))
    /\ Query.response r
       = complete (Query.llm self)
           (Query.PROMPT (Py.join (nl +:+ nl) (Query.context r)) query)
    /\ Query.model r = openai_model s
    /\ Query._estimate_tokens s query (Query.response r) (Query.context r) w1
       = (Ok (Query.tokens_used r), w2).
Proof.
  unfold Query.query. intros Hrun. apply reraise_Ok_inv in Hrun.
  apply bind_Ok_inv in Hrun as ([] & w1 & Hlog & Hrun).
  apply logged_logger in Hlog.
  apply bind_Ok_inv in Hrun as (store & w2 & Hstore & Hrun).
  destruct (Query.vector_store self) as [store0|] eqn:Hvs; [|discriminate].
  injection Hstore as <- <-.
  apply bind_Ok_inv in Hrun as (output & w3 & Hchain & Hrun).
  apply bind_Ok_inv in Hrun as (n & w4 & Hest & Hrun).
  apply bind_Ok_inv in Hrun as ([] & w5 & Hlog5 & Hret).
  apply logged_logger in Hlog5. injection Hret as <- <-.
  unfold call_chain in Hchain.
  apply bind_Ok_inv in Hchain as (docs & wa & Hdocs & Hchain).
  apply bind_Ok_inv in Hchain as (answer & wb & Hans & Hret).
  injection Hret as <- <-.
  unfold get_relevant_documents in Hdocs. cbn in Hdocs.
  apply similarity_search_Ok_inv in Hdocs as (Hqa & col & Hcol & ->).
  unfold invoke in Hans.
  apply external_Ok_inv in Hans as (w0 & Hans & Hq0).
  injection Hans as <- <-.
  destruct (estimate_returns s query
              (complete (Query.llm self)
                 (Query.PROMPT
                    (Py.join (nl +:+ nl)
                       (map page_content
                          (map (fun h => payload h.1)
                             (take top_k
                                (ranking col
                                   (embed (store_embeddings store0) query))))))
                    query))
              (map page_content
                 (map (fun h => payload h.1)
                    (take top_k
                       (ranking col (embed (store_embeddings store0) query)))))
              w0) as (n' & w4' & Hest' & Hl4).
  cbn in Hest. rewrite Hest' in Hest. injection Hest as -> ->.
  exists store0, col, w0, w4. cbn.
  rewrite map_map in *.
  repeat split; try reflexivity.
  - rewrite <- (proj1 Hlog). exact Hcol.
  - rewrite (proj1 Hlog5), (proj1 Hl4), Hq0, Hqa. apply Hlog.
  - exact Hest'.
Qed.

(** Under the same conditions [query] returns. *)
Lemma query_returns (s : Settings) (self : Query.RAGQueryEngine)
    (query session_id : string) (top_k : nat) (w : World) store col :
  Query.vector_store self = Some store ->
  qdrant w !! store_collection_name store = Some col ->
  dim (embed (store_embeddings store) query) = size (config col) ->
  schedule w = [] ->
  exists r w', Query.query s self query session_id top_k w = (Ok r, w').
Proof.
  intros Hstore Hcol Hdim Hsch.
  unfold Query.query. rewrite Hstore.
  set (w1 := mkWorld (qdrant w) (schedule w)
               (log w ++ [mkLog INFO "Processing query for session {session_id}"
                            [ArgStr session_id]]) (uuid_count w)).
  assert (schedule w1 = []) as Hsch1 by exact Hsch.
  pose proof (similarity_search_returns store query top_k w1 col Hsch1 Hcol Hdim)
    as Hdocs.
  match type of Hdocs with _ = (Ok ?d, _) => set (docs := d) in * end.
  set (answer := complete (Query.llm self)
                   (Query.PROMPT (Py.join (nl +:+ nl) (map page_content docs))
                      query)).
  assert (call_chain
            (mkRetrievalQA (Query.llm self) (as_retriever store top_k)
               Query.PROMPT) query w1
          = (Ok (mkChainOutput answer docs), w1)) as Hchain.
  { unfold call_chain, get_relevant_documents. cbn.
    rewrite (bind_Ok _ _ _ _ _ Hdocs). unfold invoke, bind.
    by rewrite (external_nil _ w1 Hsch1). }
  destruct (estimate_returns s query answer (map page_content docs) w1)
    as (n & w2 & Hest & _).
  eexists _, _. apply try_except_Ok.
  erewrite bind_Ok; [|reflexivity]. fold w1.
  erewrite bind_Ok; [|reflexivity].
  rewrite (bind_Ok _ _ _ _ _ Hchain). cbn [result source_documents].
  rewrite (bind_Ok _ _ _ _ _ Hest).
  reflexivity.
Qed.

(** C7. A query retrieves at most [top_k] chunks. When it returns, the
    context it reports is the texts of the hits of the search, pairs of
    a stored point and its score; there are [min top_k n] of them when
    the collection holds [n] points; every hit is a point of the
    collection with its own score against the query vector; and the
    hits come best score first. And it does return when the collection
    exists, the query vector has its size and no call outside fails,
    however few points the collection holds. *)
Theorem retrieval_returns_at_most_top_k
    (s : Settings) (self : Query.RAGQueryEngine) (query session_id : string)
    (top_k : nat) (w : World) :
  (forall r w',
     Query.query s self query session_id top_k w = (Ok r, w') ->
     exists store col (hits : list (PointStruct * Qc)),
       Query.vector_store self = Some store
       /\ qdrant w !! store_collection_name store = Some col
       /\ Query.context r = map (fun h => page_content (payload h.1)) hits
       /\ length (Query.context r) <= top_k
       /\ length hits = Nat.min top_k (length (points col))
       /\ StronglySorted (fun a b => (b.2 <= a.2)%Qc) hits
       /\ Forall (fun h =>
                    h.1 ∈ points col
                    /\ h.2 = similarity (distance (config col))
                               (embed (store_embeddings store) query)
                               (vector h.1)) hits)
  /\ (forall store col,
        Query.vector_store self = Some store ->
        qdrant w !! store_collection_name store = Some col ->
        dim (embed (store_embeddings store) query) = size (config col) ->
        schedule w = [] ->
        exists r w', Query.query s self query session_id top_k w = (Ok r, w')).
Proof.
  split; [|apply query_returns].
  intros r w' Hrun.
  apply query_Ok_inv in Hrun
    as (store & col & w1 & w2 & Hstore & Hcol & _ & Hctx & _).
  destruct (top_of_ranking col (embed (store_embeddings store) query) top_k)
    as (Hlen & Hsorted & Hall).
  exists store, col,
    (take top_k (ranking col (embed (store_embeddings store) query))).
  repeat split; try assumption.
  rewrite Hctx, length_map, Hlen. lia.
Qed.

(** A call of [query] that returns has made the estimate for the
    answer and the context it reports, and has written one record after
    it. *)
Lemma query_Ok_estimate (s : Settings) (self : Query.RAGQueryEngine)
    (query session_id : string) (top_k : nat) (w w' : World) r :
  Query.query s self query session_id top_k w = (Ok r, w') ->
  exists w1 w2,
    Query._estimate_tokens s query (Query.response r) (Query.context r) w1
    = (Ok (Query.tokens_used r), w2)
    /\ log w' = log w2 ++ [processed_record (length (Query.context r))].
Proof.
  unfold Query.query. intros Hrun. apply reraise_Ok_inv in Hrun.
  apply bind_Ok_inv in Hrun as ([] & w1 & _ & Hrun).
  apply bind_Ok_inv in Hrun as (store & w2 & _ & Hrun).
  apply bind_Ok_inv in Hrun as (output & w3 & _ & Hrun).
  apply bind_Ok_inv in Hrun as (n & w4 & Hest & Hrun).
  apply bind_Ok_inv in Hrun as ([] & w5 & Hlog & Hret).
  injection Hret as <- <-. injection Hlog as <-.
  exists w3, w4. split; [exact Hest|reflexivity].
Qed.

(** An engine built for the OpenAI provider holds the chat object of the
    OpenAI model of the settings. *)
Lemma openai_engine_model (s : Settings) (u u' : World)
    (self : Query.RAGQueryEngine) :
  Py.lower (llm_provider s) = "openai" ->
  Query.__init__ s u = (Ok self, u') ->
  llm_model (Query.llm self) = openai_model s.
Proof.
  intros Hp Hinit. unfold Query.__init__ in Hinit.
  apply bind_Ok_inv in Hinit as (emb & u1 & _ & Hinit).
  apply bind_Ok_inv in Hinit as (l & u2 & Hllm & Hret).
  injection Hret as <- _. cbn [Query.llm].
  unfold Query._initialize_llm in Hllm. rewrite Hp in Hllm.
  apply bind_Ok_inv in Hllm as ([] & u3 & _ & Hllm).
  change (String.eqb "openai" "openai") with true in Hllm. cbv iota in Hllm.
  destruct (falsy (openai_api_key s)); [discriminate|].
  by injection Hllm as <- _.
Qed.

(** C1, as the code has it for the OpenAI provider. For a query that
    returns from an engine built under that provider, the tokens are
    counted with the tokenizer of the model of the engine's chat object,
    the configured generation model: when tiktoken has a tokenizer for
    it that encodes the three inputs, the count is tokens(query) +
    tokens(answer) + the sum of tokens over the retrieved chunks + 100;
    when it has none, the count is 0 and the warning of the estimate is
    logged, followed by the record of the processed query only. The
    estimate itself never raises. *)
Theorem token_estimate_of_query
    (s : Settings) (u u' : World) (self : Query.RAGQueryEngine)
    (query session_id : string) (top_k : nat) (w w' : World)
    (r : Query.QueryResult) :
  Py.lower (llm_provider s) = "openai" ->
  Query.__init__ s u = (Ok self, u') ->
  Query.query s self query session_id top_k w = (Ok r, w') ->
  (forall encoding tq tr tcs,
     encoding_for_model (llm_model (Query.llm self)) = Ok encoding ->
     encode encoding query = Ok tq ->
     encode encoding (Query.response r) = Ok tr ->
     Forall2 (fun c t => encode encoding c = Ok t) (Query.context r) tcs ->
     Query.tokens_used r
     = (length tq + length tr + list_sum (map length tcs) + 100)%nat)
  /\ (forall e,
        encoding_for_model (llm_model (Query.llm self)) = Raise e ->
        Query.tokens_used r = 0%nat
        /\ exists earlier,
             log w'
             = earlier ++ [estimate_warning e;
                           processed_record (length (Query.context r))])
  /\ (forall q a c w0, exists n w1,
        Query._estimate_tokens s q a c w0 = (Ok n, w1)
        /\ qdrant w1 = qdrant w0).
Proof.
  intros Hp Hinit Hrun.
  rewrite (openai_engine_model s u u' self Hp Hinit).
  apply query_Ok_estimate in Hrun as (w1 & w2 & Hest & Hlog).
  split; [|split].
  - intros encoding tq tr tcs Henc Hq Hr Hc.
    rewrite (estimate_with_tokenizer s _ _ _ w1 _ _ _ _ Henc Hq Hr Hc) in Hest.
    by injection Hest as <- _.
  - intros e Henc.
    destruct (estimate_without_tokenizer s query (Query.response r)
                (Query.context r) w1 e Henc) as (w3 & Hzero & _ & Hw3).
    rewrite Hzero in Hest. injection Hest as <- <-.
    split; [reflexivity|].
    exists (log w1). rewrite Hlog, Hw3, <- app_assoc. reflexivity.
  - intros q a c w0.
    destruct (estimate_returns s q a c w0) as (n & w3 & Hn & Hq & _).
    eauto.
Qed.

(** The model name [query] reports is the OpenAI model of the settings,
    whichever chat object the engine holds. *)
Lemma reported_model (s : Settings) (self : Query.RAGQueryEngine)
    (query session_id : string) (top_k : nat) (w w' : World)
    (r : Query.QueryResult) :
  Query.query s self query session_id top_k w = (Ok r, w') ->
  Query.model r = openai_model s.
Proof.
  intros Hrun.
  by apply query_Ok_inv in Hrun as (? & ? & ? & ? & _ & _ & _ & _ & _ & Hm & _).
Qed.

End QueryLemmas.

(* ===================================================================== *)
(** ** Retraining *)
(* ===================================================================== *)

Section Retraining.
Context `{Libraries}.

Lemma skipped_fields (n threshold : Z) :
  let r := skipped n threshold in
  r !! "status" = Some (Retrain.VStr "skipped")
  /\ r !! "reason" = Some (Retrain.VStr "insufficient_data")
  /\ r !! "samples_collected" = Some (Retrain.VInt n)
  /\ r !! "threshold" = Some (Retrain.VInt threshold)
  /\ r !! "error" = None.
Proof. cbn zeta. unfold skipped. repeat split; by simplify_map_eq. Qed.

Lemma after_collection_skips (training_data : list (gmap string Retrain.Value))
    (threshold : Z) (model_name : option string) (w : World) :
  (Z.of_nat (length training_data) < threshold)%Z ->
  exists w',
    Retrain.after_collection training_data threshold model_name w
    = (Ok (skipped (Z.of_nat (length training_data)) threshold), w')
    /\ logged w w'.
Proof.
  intros Hlt. unfold Retrain.after_collection.
  apply Z.ltb_lt in Hlt. rewrite Hlt.
  eexists. split; [reflexivity|]. repeat split.
Qed.

(** [retrain] collects nothing, and so skips for every positive
    threshold. *)
Lemma retrain_skips (self : Retrain.RetrainManager) (threshold : Z)
    (model_name : option string) (w : World) :
  (0 < threshold)%Z ->
  exists w',
    Retrain.retrain self threshold model_name w
    = (Ok (skipped 0 threshold), w').
Proof.
  intros Hpos. unfold Retrain.retrain.
  destruct (after_collection_skips [] threshold model_name
              (mkWorld (qdrant w) (schedule w)
                 ((log w ++ [mkLog INFO "Starting retraining process..." []])
                  ++ [mkLog INFO "Collecting training data from feedback..." []])
                 (uuid_count w)))
    as (w' & Hrun & _); [exact Hpos|].
  exists w'. apply try_except_Ok. exact Hrun.
Qed.

(** C9, as the code has it. When fewer samples were collected than the
    threshold asks for, retraining returns, without raising, a
    dictionary with status "skipped", reason "insufficient_data", the
    number of samples collected and the threshold, and no "error" entry.
    For [retrain] itself, whose collection step collects nothing, this
    is the case for every positive threshold, with 0 samples. *)
Theorem insufficient_feedback_is_skipped
    (self : Retrain.RetrainManager)
    (training_data : list (gmap string Retrain.Value))
    (feedback_threshold : Z) (model_name : option string) (w : World) :
  (Z.of_nat (length training_data) < feedback_threshold)%Z ->
  (exists r w',
     Retrain.after_collection training_data feedback_threshold model_name w
     = (Ok r, w')
     /\ r !! "status" = Some (Retrain.VStr "skipped")
     /\ r !! "reason" = Some (Retrain.VStr "insufficient_data")
     /\ r !! "samples_collected"
        = Some (Retrain.VInt (Z.of_nat (length training_data)))
     /\ r !! "threshold" = Some (Retrain.VInt feedback_threshold)
     /\ r !! "error" = None)
  /\ ((0 < feedback_threshold)%Z ->
      exists r w',
        Retrain.retrain self feedback_threshold model_name w = (Ok r, w')
        /\ r !! "status" = Some (Retrain.VStr "skipped")
        /\ r !! "reason" = Some (Retrain.VStr "insufficient_data")
        /\ r !! "samples_collected" = Some (Retrain.VInt 0)
        /\ r !! "threshold" = Some (Retrain.VInt feedback_threshold)
        /\ r !! "error" = None).
Proof.
  intros Hlt. split.
  - destruct (after_collection_skips training_data feedback_threshold
                model_name w Hlt) as (w' & Hrun & _).
    destruct (skipped_fields (Z.of_nat (length training_data))
                feedback_threshold) as (Hs & Hr & Hn & Ht & He).
    eauto 10.
  - intros Hpos.
    destruct (retrain_skips self feedback_threshold model_name w Hpos)
      as (w' & Hrun).
    destruct (skipped_fields 0 feedback_threshold) as (Hs & Hr & Hn & Ht & He).
    eauto 10.
Qed.

End Retraining.

(* ===================================================================== *)
(** ** Text extraction, case by case *)
(* ===================================================================== *)

Section ExtractionMore.
Context `{Libraries}.

Lemma append_cons (x : ascii) (a b : string) :
  String x a +:+ b = String x (a +:+ b).
Proof. reflexivity. Qed.

Lemma append_assoc (a b c : string) : (a +:+ b) +:+ c = a +:+ (b +:+ c).
Proof.
  induction a as [|x a IH]; [reflexivity|]. by rewrite !append_cons, IH.
Qed.

Lemma append_nil_r (a : string) : a +:+ "" = a.
Proof. induction a as [|x a IH]; [reflexivity|]. by rewrite append_cons, IH. Qed.

Lemma pages_text_cons (t : string) (texts : list string) :
  pages_text (t :: texts) = t +:+ nl +:+ pages_text texts.
Proof.
  unfold pages_text. destruct texts as [|t2 texts]; cbn [map Py.join].
  - by rewrite append_nil_r.
  - by rewrite append_assoc.
Qed.

Lemma concat_pages_all (pages : list Page) (texts : list string)
    (acc : string) (w : World) :
  Forall2 (fun p t => extract_text p = Ok t) pages texts ->
  Ingest.concat_pages pages acc w = (Ok (acc +:+ pages_text texts), w).
Proof.
  intros Hall. revert acc.
  induction Hall as [|p t ps ts Hp _ IH]; intros acc; cbn [Ingest.concat_pages].
  - unfold pages_text. cbn. by rewrite append_nil_r.
  - unfold bind at 1, lift at 1. rewrite Hp, IH, pages_text_cons.
    by rewrite !append_assoc.
Qed.

Lemma concat_pages_fails (before after : list Page) (texts : list string)
    (p : Page) (e : Exception) (acc : string) (w : World) :
  Forall2 (fun p t => extract_text p = Ok t) before texts ->
  extract_text p = Raise e ->
  Ingest.concat_pages (before ++ p :: after) acc w = (Raise e, w).
Proof.
  intros Hall Hp. revert acc.
  induction Hall as [|p0 t ps ts Hp0 _ IH]; intros acc;
    cbn [Ingest.concat_pages app]; unfold bind at 1, lift at 1.
  - by rewrite Hp.
  - rewrite Hp0. apply IH.
Qed.

(** X1. Inputs that are not sent to the PDF reader are decoded, whatever
    their name and declared type say. *)
Theorem text_is_decoded_whatever_the_declared_type
    (file_content : list byte) (filename file_type : string) (w : World) :
  pdf_selected filename file_type = false ->
  (Py.utf8_valid (map Byte.to_N file_content) = true ->
   Ingest._extract_text file_content filename file_type w
   = (Ok (string_of_list_byte file_content), w))
  /\ (Py.utf8_valid (map Byte.to_N file_content) = false ->
      let e := if text_suffix filename then UnicodeDecodeError
               else ValueError ("Unsupported file type: " +:+ file_type) in
      Ingest._extract_text file_content filename file_type w
      = (Raise e, with_log w [extract_error_record e])).
Proof.
  unfold pdf_selected, text_suffix. intros Hpdf.
  unfold Ingest._extract_text, try_except, decode_utf8. rewrite Hpdf.
  split; intros ->.
  - by destruct (Py.endswith_any _ _).
  - by destruct (Py.endswith_any _ _).
Qed.

Lemma extract_text_of_pdf
    (file_content : list byte) (filename file_type : string) (w : World)
    (pages : list Page) (texts : list string) :
  pdf_selected filename file_type = true ->
  PdfReader file_content = Ok pages ->
  Forall2 (fun p t => extract_text p = Ok t) pages texts ->
  Ingest._extract_text file_content filename file_type w
  = (Ok (pages_text texts), w).
Proof.
  unfold pdf_selected. intros Hpdf Hr Hall.
  unfold Ingest._extract_text, Ingest._extract_from_pdf. rewrite Hpdf.
  unfold try_except, bind at 1, lift at 1.
  rewrite Hr, (concat_pages_all _ _ "" w Hall). reflexivity.
Qed.

(** X2. The text of a PDF is the texts of its pages in order, a line feed
    after each; a failure of the reader or of a page is raised as it is,
    after the two handlers on its way have logged it. *)
Theorem pdf_text_is_the_pages_in_order
    (file_content : list byte) (filename file_type : string) (w : World) :
  pdf_selected filename file_type = true ->
  (forall pages texts,
     PdfReader file_content = Ok pages ->
     Forall2 (fun p t => extract_text p = Ok t) pages texts ->
     Ingest._extract_text file_content filename file_type w
     = (Ok (pages_text texts), w))
  /\ (forall e,
        PdfReader file_content = Raise e ->
        Ingest._extract_text file_content filename file_type w
        = (Raise e, with_log w [pdf_error_record e; extract_error_record e]))
  /\ (forall before p after texts e,
        PdfReader file_content = Ok (before ++ p :: after) ->
        Forall2 (fun p t => extract_text p = Ok t) before texts ->
        extract_text p = Raise e ->
        Ingest._extract_text file_content filename file_type w
        = (Raise e, with_log w [pdf_error_record e; extract_error_record e])).
Proof.
  intros Hpdf. split; [|split].
  - intros pages texts. by apply extract_text_of_pdf.
  - unfold pdf_selected in Hpdf.
    unfold Ingest._extract_text, Ingest._extract_from_pdf. rewrite Hpdf.
    intros e Hr. unfold try_except, bind at 1, lift at 1. rewrite Hr.
    unfold with_log, bind, logger, raise. cbn. by rewrite <- app_assoc.
  - unfold pdf_selected in Hpdf.
    unfold Ingest._extract_text, Ingest._extract_from_pdf. rewrite Hpdf.
    intros before p after texts e Hr Hall Hp.
    unfold try_except, bind at 1, lift at 1.
    rewrite Hr, (concat_pages_fails _ _ _ _ e "" w Hall Hp).
    unfold with_log, bind, logger, raise. cbn. by rewrite <- app_assoc.
Qed.

Lemma lstrip_line_feeds (n : nat) :
  Py.lstrip (pages_text (replicate n "")) = "".
Proof.
  induction n as [|n IH]; [reflexivity|].
  change (replicate (S n) "") with ("" :: replicate n "").
  rewrite pages_text_cons. exact IH.
Qed.

Lemma blank_pages_text (n : nat) :
  let text := pages_text (replicate n "") in
  text = "" \/ Py.isspace text = true.
Proof.
  cbn zeta. destruct n as [|n]; [by left|]. right.
  unfold Py.isspace. rewrite lstrip_line_feeds.
  change (replicate (S n) "") with ("" :: replicate n "").
  by rewrite pages_text_cons.
Qed.

Lemma all_pages_empty (pages : list Page) :
  Forall (fun p => extract_text p = Ok "") pages ->
  Forall2 (fun p t => extract_text p = Ok t) pages
          (replicate (length pages) "").
Proof. induction 1; cbn; constructor; auto. Qed.

End ExtractionMore.

(* ===================================================================== *)
(** ** What an ingestion stores *)
(* ===================================================================== *)

Section IngestionMore.
Context `{Libraries}.

(** X3. A PDF whose pages hold no text is rejected: no text could be
    extracted, and nothing is written. *)
Theorem pdf_without_text_is_rejected
    (s : Settings) (self : Ingest.DocumentIngestor) (file_content : list byte)
    (filename file_type : string) (w : World) (pages : list Page) :
  pdf_selected filename file_type = true ->
  PdfReader file_content = Ok pages ->
  Forall (fun p => extract_text p = Ok "") pages ->
  exists w',
    Ingest.ingest s self file_content filename file_type w
    = (Raise no_text, w')
    /\ qdrant w' = qdrant w /\ schedule w' = schedule w
    /\ log w' = log w ++ [ingest_error_record no_text].
Proof.
  intros Hpdf Hr Hall.
  pose proof (extract_text_of_pdf file_content filename file_type w pages _
                Hpdf Hr (all_pages_empty _ Hall)) as Hok.
  destruct (ingest_blank s self _ _ _ _ _ _ Hok
              (blank_pages_text (length pages)))
    as (w' & Hing & (Hq & Hs & _) & Hl).
  exists w'. by repeat split.
Qed.

Lemma make_points_map (e : Embeddings)
    (batch : list (string * Metadata * string)) :
  zip_with make_point batch (map (embed e) (map (fun x => x.1.1) batch))
  = map (fun x => make_point x (embed e x.1.1)) batch.
Proof. induction batch as [|x batch IH]; [reflexivity|]. cbn. by rewrite IH. Qed.

Lemma appended_nil (q : gmap string Collection) (name : string) :
  appended q name [] = q.
Proof.
  unfold appended. destruct (q !! name) as [[cfg pts]|] eqn:Hq; [|reflexivity].
  cbn. rewrite app_nil_r. by apply insert_id.
Qed.

Lemma appended_app (q : gmap string Collection) (name : string)
    (a b : list PointStruct) :
  appended (appended q name a) name b = appended q name (a ++ b).
Proof.
  unfold appended. destruct (q !! name) as [col|] eqn:Hq.
  - rewrite lookup_insert_eq. cbn. by rewrite insert_insert_eq, app_assoc.
  - by rewrite Hq.
Qed.

Lemma upsert_appended (c : QdrantClient) (name : string)
    (batch : list PointStruct) (w w' : World) :
  upsert c name batch w = (Ok tt, w') ->
  is_Some (qdrant w !! name)
  /\ qdrant w' = appended (qdrant w) name batch.
Proof.
  unfold upsert. intros Hup.
  apply external_Ok_inv in Hup as (w0 & Hop & Hq).
  unfold appended. rewrite <- Hq.
  destruct (qdrant w0 !! name) as [col|]; [|discriminate].
  destruct (forallb _ batch); [|discriminate].
  injection Hop as <-. by split.
Qed.

Lemma upsert_batches_appended (store : Qdrant)
    (bs : list (list (string * Metadata * string))) (w w' : World) us :
  for_each
    (fun batch =>
       do vectors <- embed_documents (store_embeddings store)
                       (map (fun x => x.1.1) batch);
       upsert (store_client store) (store_collection_name store)
              (zip_with make_point batch vectors)) bs w = (Ok us, w') ->
  qdrant w'
  = appended (qdrant w) (store_collection_name store)
      (map (fun x => make_point x (embed (store_embeddings store) x.1.1))
           (concat bs)).
Proof.
  revert w us. induction bs as [|batch bs IH]; intros w us; cbn [for_each].
  - intros [= _ <-]. cbn. by rewrite appended_nil.
  - intros Hrun.
    apply bind_Ok_inv in Hrun as ([] & w2 & Hstep & Hrun).
    apply bind_Ok_inv in Hrun as (us' & w3 & Hrest & Hret).
    injection Hret as _ <-.
    apply bind_Ok_inv in Hstep as (vectors & w1 & Hemb & Hup).
    apply embed_documents_Ok_inv in Hemb as [-> Hq1].
    apply upsert_appended in Hup as [_ Hup].
    rewrite (IH _ _ Hrest), Hup, make_points_map, Hq1.
    cbn [concat]. by rewrite appended_app, map_app.
Qed.

(** A call of [add_texts] that returns has appended one point for each
    text, in order: the text with its metadata, under a fresh
    identifier, with the embedding of the text. *)
Lemma add_texts_appended (store : Qdrant) (texts : list string)
    (metadatas : list Metadata) (w w' : World) ids :
  add_texts store texts metadatas w = (Ok ids, w') ->
  length ids = length texts
  /\ qdrant w'
     = appended (qdrant w) (store_collection_name store)
         (map (fun x => make_point x (embed (store_embeddings store) x.1.1))
              (zip (zip texts metadatas) ids)).
Proof.
  unfold add_texts. intros Hrun.
  destruct (fresh_ids texts w) as (ids0 & w1 & Hids & Hlen_ids & Hq).
  rewrite (bind_Ok _ _ _ _ _ Hids) in Hrun.
  apply bind_Ok_inv in Hrun as (us & w2 & Hloop & Hret).
  injection Hret as <- <-. split; [exact Hlen_ids|].
  apply upsert_batches_appended in Hloop. rewrite Hloop.
  rewrite batches_concat by lia. by rewrite Hq.
Qed.

Lemma payloads_of_new_points (e : Embeddings) (texts : list string)
    (metadatas : list Metadata) (ids : list string) :
  length metadatas = length texts -> length ids = length texts ->
  map payload
    (map (fun x : string * Metadata * string => make_point x (embed e x.1.1))
         (zip (zip texts metadatas) ids))
  = zip_with mkDocument texts metadatas
  /\ map vector
       (map (fun x : string * Metadata * string => make_point x (embed e x.1.1))
            (zip (zip texts metadatas) ids))
     = map (embed e) texts.
Proof.
  revert metadatas ids. induction texts as [|t texts IH];
    intros [|m ms] [|i ids]; cbn; try discriminate; try (by split).
  intros [= Hm] [= Hi]. destruct (IH ms ids Hm Hi) as [-> ->]. by split.
Qed.

Lemma chunk_documents (filename doc_id : string) (n k : nat)
    (chunks : list string) :
  zip_with mkDocument chunks
    (map (fun i => mkMetadata filename doc_id i n) (seq k (length chunks)))
  = imap (fun i chunk => chunk_document filename doc_id n (k + i) chunk) chunks.
Proof.
  revert k. induction chunks as [|c chunks IH]; intros k; [reflexivity|].
  cbn. rewrite Nat.add_0_r. f_equal. rewrite IH.
  apply imap_ext. intros i x _. cbn. f_equal. lia.
Qed.

(** A call of [ingest] that returns has appended one point for each
    chunk to the configured collection, and has changed nothing else on
    the server. *)
Lemma ingest_Ok_run
    (s : Settings) (self : Ingest.DocumentIngestor) (file_content : list byte)
    (filename file_type : string) (w w' : World) (r : Ingest.IngestResult) :
  Ingest.ingest s self file_content filename file_type w = (Ok r, w') ->
  vector_db s = "qdrant" ->
  exists text w1 doc_id ids,
    let chunks := split_text (Ingest.text_splitter self) text in
    let metadatas :=
      map (fun i => mkMetadata filename doc_id i (length chunks))
          (seq 0 (length chunks)) in
    Ingest._extract_text file_content filename file_type w = (Ok text, w1)
    /\ r = Ingest.mkIngestResult (length chunks) doc_id filename
    /\ length ids = length chunks
    /\ qdrant w'
       = appended (qdrant w) (qdrant_collection_name s)
           (map (fun x => make_point x (embed (Ingest.embeddings self) x.1.1))
                (zip (zip chunks metadatas) ids)).
Proof.
  unfold Ingest.ingest. intros Hrun Hdb. apply reraise_Ok_inv in Hrun.
  apply bind_Ok_inv in Hrun as (text & w1 & Hex & Hrun).
  destruct (extract_text_logged file_content filename file_type w)
    as (r0 & w1' & Hex' & Hl1).
  rewrite Hex in Hex'. injection Hex' as <- <-.
  destruct (falsy text || (String.length (Py.strip text) =? 0)%nat);
    [discriminate|].
  set (chunks := split_text (Ingest.text_splitter self) text) in *.
  apply bind_Ok_inv in Hrun as ([] & w2 & Hlog & Hrun).
  apply logged_logger in Hlog.
  apply bind_Ok_inv in Hrun as (doc_id & w3 & Hid & Hrun).
  assert (qdrant w3 = qdrant w2) as Hq3 by (injection Hid as _ <-; reflexivity).
  apply bind_Ok_inv in Hrun as ([] & w4 & Hadd & Hrun).
  apply bind_Ok_inv in Hrun as ([] & w5 & Hlog5 & Hret).
  apply logged_logger in Hlog5. injection Hret as <- <-.
  rewrite Hdb in Hadd.
  replace (String.eqb "qdrant" "qdrant") with true in Hadd by reflexivity.
  destruct (Ingest.qdrant_client self) as [c|]; [|discriminate].
  apply bind_Ok_inv in Hadd as (ids & w4' & Hadd & Hret).
  injection Hret as <-.
  apply add_texts_appended in Hadd as (Hlen & Hadd).
  cbn [store_collection_name store_embeddings] in Hadd.
  exists text, w1, doc_id, ids. cbn zeta.
  split; [exact Hex|]. split; [reflexivity|]. split; [exact Hlen|].
  rewrite (proj1 Hlog5), Hadd, Hq3, (proj1 Hlog), (proj1 Hl1). reflexivity.
Qed.

(** The same, in terms of the texts stored. *)
Lemma ingest_Ok_texts
    (s : Settings) (self : Ingest.DocumentIngestor) (file_content : list byte)
    (filename file_type : string) (w w' : World) (r : Ingest.IngestResult) :
  Ingest.ingest s self file_content filename file_type w = (Ok r, w') ->
  vector_db s = "qdrant" ->
  exists text w1 new,
    Ingest._extract_text file_content filename file_type w = (Ok text, w1)
    /\ length new = Ingest.chunk_count r
    /\ qdrant w' = appended (qdrant w) (qdrant_collection_name s) new
    /\ texts_of new = split_text (Ingest.text_splitter self) text.
Proof.
  intros Hrun Hdb.
  destruct (ingest_Ok_run _ _ _ _ _ _ _ _ Hrun Hdb)
    as (text & w1 & doc_id & ids & Hex & -> & Hlen & Hq).
  eexists text, w1, _. split; [exact Hex|]. split; [|split; [exact Hq|]].
  - rewrite length_map, !length_zip, length_map, length_seq, Hlen. cbn. lia.
  - rewrite <- make_points_map, texts_of_make_points.
    apply zip_texts; [by rewrite length_map, length_seq|exact Hlen].
Qed.

(** X4. Every chunk of an ingested document is stored as one point: its
    text with the file name, the identifier [ingest] returns, its
    position and the number of chunks, and the embedding of its text
    under the embeddings of the ingestor. The points are appended to the
    configured collection in the order of the chunks; its parameters,
    the points it held and the other collections are left as they were. *)
Theorem ingested_chunks_carry_provenance
    (s : Settings) (self : Ingest.DocumentIngestor) (file_content : list byte)
    (filename file_type : string) (w w' : World) (r : Ingest.IngestResult) :
  Ingest.ingest s self file_content filename file_type w = (Ok r, w') ->
  vector_db s = "qdrant" ->
  exists text w1 new,
    Ingest._extract_text file_content filename file_type w = (Ok text, w1)
    /\ Ingest.filename r = filename
    /\ Ingest.chunk_count r
       = length (split_text (Ingest.text_splitter self) text)
    /\ qdrant w' = appended (qdrant w) (qdrant_collection_name s) new
    /\ map payload new
       = imap (chunk_document filename (Ingest.vector_store_id r)
                 (Ingest.chunk_count r))
              (split_text (Ingest.text_splitter self) text)
    /\ map vector new
       = map (embed (Ingest.embeddings self))
             (split_text (Ingest.text_splitter self) text).
Proof.
  intros Hrun Hdb.
  destruct (ingest_Ok_run _ _ _ _ _ _ _ _ Hrun Hdb)
    as (text & w1 & doc_id & ids & Hex & -> & Hlen & Hq).
  set (chunks := split_text (Ingest.text_splitter self) text) in *.
  destruct (payloads_of_new_points (Ingest.embeddings self) chunks
              (map (fun i => mkMetadata filename doc_id i (length chunks))
                   (seq 0 (length chunks))) ids) as (Hpay & Hvec);
    [by rewrite length_map, length_seq|exact Hlen|].
  eexists text, w1, _. cbn.
  split; [exact Hex|]. split; [reflexivity|]. split; [reflexivity|].
  split; [exact Hq|]. split; [|exact Hvec].
  rewrite Hpay. apply (chunk_documents filename doc_id (length chunks) 0).
Qed.

(** X5. With a vector database other than Qdrant configured, [ingest]
    reports the chunks of the document as ingested without storing
    them, and without a call outside the process. *)
Theorem ingest_without_qdrant_stores_nothing
    (s : Settings) (self : Ingest.DocumentIngestor) (file_content : list byte)
    (filename file_type : string) (w w1 : World) (text : string) :
  vector_db s <> "qdrant" ->
  Ingest._extract_text file_content filename file_type w = (Ok text, w1) ->
  falsy text || (String.length (Py.strip text) =? 0)%nat = false ->
  exists r w',
    Ingest.ingest s self file_content filename file_type w = (Ok r, w')
    /\ Ingest.chunk_count r
       = length (split_text (Ingest.text_splitter self) text)
    /\ qdrant w' = qdrant w /\ schedule w' = schedule w.
Proof.
  intros Hdb Hex Htext.
  destruct (extract_text_logged file_content filename file_type w)
    as (r0 & w0 & Hex0 & Hq0 & Hs0 & _).
  rewrite Hex in Hex0. injection Hex0 as <- <-.
  apply eqb_false_of_ne in Hdb.
  eexists _, _. split.
  - unfold Ingest.ingest. apply try_except_Ok.
    rewrite (bind_Ok _ _ _ _ _ Hex), Htext, Hdb. reflexivity.
  - cbn. by repeat split.
Qed.

End IngestionMore.

(* ===================================================================== *)
(** ** Ingestions that fail *)
(* ===================================================================== *)

Section FailedIngestion.
Context `{Libraries}.












End FailedIngestion.

(* ===================================================================== *)
(** ** Vector size and embeddings *)
(* ===================================================================== *)

Section DimensionMore.
Context `{Libraries}.

Lemma zip_cons_of_lengths (texts : list string) (metadatas : list Metadata)
    (ids : list string) :
  texts <> [] -> length metadatas = length texts ->
  length ids = length texts ->
  exists x rest, zip (zip texts metadatas) ids = x :: rest.
Proof.
  destruct texts as [|t texts]; [done|].
  destruct metadatas as [|m ms]; [discriminate|].
  destruct ids as [|i ids]; [discriminate|]. cbn. eauto.
Qed.

(** [add_texts] on a collection whose vector size is not the dimension
    of the embeddings: the first batch is refused. *)
Lemma add_texts_refused (store : Qdrant) (texts : list string)
    (metadatas : list Metadata) (w : World) col :
  texts <> [] -> length metadatas = length texts ->
  schedule w = [] ->
  qdrant w !! store_collection_name store = Some col ->
  (forall t, dim (embed (store_embeddings store) t) <> size (config col)) ->
  exists w',
    add_texts store texts metadatas w
    = (Raise (qdrant_error "Vector dimension error"), w')
    /\ qdrant w' = qdrant w /\ schedule w' = [].
Proof.
  intros Hne Hlen Hsch Hcol Hdim. unfold add_texts.
  destruct (fresh_ids_schedule texts w) as (ids & w1 & Hids & Hq & Hs).
  destruct (fresh_ids texts w) as (ids' & w1' & Hids' & Hlen_ids & _).
  rewrite Hids in Hids'. injection Hids' as <- <-.
  rewrite (bind_Ok _ _ _ _ _ Hids).
  destruct (zip_cons_of_lengths texts metadatas ids Hne Hlen Hlen_ids)
    as (x & rest & Hzip).
  rewrite Hzip. unfold batches. cbn [length batches_fuel for_each take].
  assert (schedule w1 = []) as Hs1 by congruence.
  exists w1. split; [|by split].
  apply bind_Raise, bind_Raise.
  unfold embed_documents, upsert, bind.
  rewrite (external_nil _ w1 Hs1). cbn [ret].
  rewrite (external_nil _ w1 Hs1), Hq, Hcol. cbn [map zip_with forallb].
  specialize (Hdim x.1.1). apply Nat.eqb_neq in Hdim.
  cbn [vector make_point]. by rewrite Hdim.
Qed.

(** X6. A collection whose vector size is not the dimension of the
    embeddings makes every ingestion fail at its first write, with the
    collection left as it was. *)
Theorem dimension_mismatch_surfaces_at_ingestion
    (s : Settings) (self : Ingest.DocumentIngestor) (file_content : list byte)
    (filename file_type : string) (w w1 : World) (text : string)
    (c : QdrantClient) (col : Collection) :
  Ingest._extract_text file_content filename file_type w = (Ok text, w1) ->
  falsy text || (String.length (Py.strip text) =? 0)%nat = false ->
  split_text (Ingest.text_splitter self) text <> [] ->
  vector_db s = "qdrant" ->
  Ingest.qdrant_client self = Some c ->
  qdrant w !! qdrant_collection_name s = Some col ->
  (forall t, dim (embed (Ingest.embeddings self) t) <> size (config col)) ->
  schedule w = [] ->
  exists msg w',
    Ingest.ingest s self file_content filename file_type w
    = (Raise (qdrant_error msg), w')
    /\ qdrant w' = qdrant w
    /\ last (log w') = Some (ingest_error_record (qdrant_error msg)).
Proof.
  intros Hex Htext Hne Hdb Hc Hcol Hdim Hsch.
  destruct (extract_text_logged file_content filename file_type w)
    as (r0 & w0 & Hex0 & Hq0 & Hs0 & _).
  rewrite Hex in Hex0. injection Hex0 as <- <-.
  set (chunks := split_text (Ingest.text_splitter self) text) in *.
  set (w2 := mkWorld (qdrant w1) (schedule w1)
               (log w1 ++ [mkLog INFO "Split document into {len(chunks)} chunks"
                             [ArgInt (Z.of_nat (length chunks))]])
               (uuid_count w1)).
  set (doc_id := uuid4_nth (uuid_count w2)).
  set (w3 := mkWorld (qdrant w2) (schedule w2) (log w2) (S (uuid_count w2))).
  set (metadatas := map (fun i => mkMetadata filename doc_id i (length chunks))
                        (seq 0 (length chunks))).
  destruct (add_texts_refused
              (mkQdrant c (qdrant_collection_name s) (Ingest.embeddings self))
              chunks metadatas w3 col) as (w4 & Hadd & Hq4 & _).
  { exact Hne. }
  { unfold metadatas. by rewrite length_map, length_seq. }
  { cbn. congruence. }
  { cbn. congruence. }
  { exact Hdim. }
  exists "Vector dimension error".
  eexists. split; [|split].
  - unfold Ingest.ingest.
    rewrite (try_except_Raise _ _ _ (qdrant_error "Vector dimension error") w4);
      [reflexivity|].
    rewrite (bind_Ok _ _ _ _ _ Hex), Htext. cbv beta iota.
    refine (eq_trans (bind_Ok _ _ w1 tt w2 _) _); [reflexivity|].
    refine (eq_trans (bind_Ok _ _ w2 doc_id w3 _) _); [reflexivity|].
    apply bind_Raise. rewrite Hdb, Hc.
    replace (String.eqb "qdrant" "qdrant") with true by reflexivity.
    apply bind_Raise. exact Hadd.
  - cbn. rewrite Hq4. cbn. exact Hq0.
  - cbn. by rewrite last_snoc.
Qed.

(** X7. The embedding provider is accepted whatever the case of its
    letters, but the vector size of a new collection is chosen from the
    name as it is written: "HuggingFace" builds the HuggingFace
    embeddings and a collection of the default size 1536. *)
Theorem mixed_case_provider_gets_the_default_size
    (s : Settings) (w : World) (sp : TextSplitter) :
  Py.lower (embedding_provider s) = "huggingface" ->
  embedding_provider s <> "huggingface" ->
  RecursiveCharacterTextSplitter (chunk_size s) (chunk_overlap s) = Ok sp ->
  vector_db s = "qdrant" ->
  qdrant w !! qdrant_collection_name s = None ->
  schedule w = [] ->
  exists w',
    Ingest.__init__ s w
    = (Ok (Ingest.mkDocumentIngestor
             (HuggingFaceEmbeddings (hf_embedding_model s)) sp
             (Some (connect s))), w')
    /\ qdrant w'
       = <[qdrant_collection_name s :=
             mkCollection (mkVectorParams 1536 COSINE) []]> (qdrant w).
Proof.
  intros Hlow Hne Hsp Hdb Hcol Hsch.
  assert (embedding_provider s <> "openai") as Hno.
  { intros Heq. rewrite Heq in Hlow. discriminate. }
  destruct w as [q sch lg u]. cbn [qdrant schedule] in *. subst sch.
  unfold Ingest.__init__, Ingest._initialize_embeddings. rewrite Hlow.
  unfold bind, logger, external, ret, lift. cbn. rewrite Hsp, Hdb. cbn.
  unfold Ingest._ensure_collection_exists, try_except, bind, get_collections,
    create_collection, external, logger, ret. cbn.
  rewrite (listed_false _ _ Hcol). cbn. rewrite Hcol.
  rewrite (eqb_false_of_ne _ _ Hno), (eqb_false_of_ne _ _ Hne).
  eexists. split; reflexivity.
Qed.

End DimensionMore.

(* ===================================================================== *)
(** ** Actions that do not write *)
(* ===================================================================== *)

Section ReadOnly.
Context `{Libraries} `{!QdrantServer}.

Lemma read_only_ret {A} (a : A) : read_only (ret a).
Proof. by intros w r w' [= _ <-]. Qed.

Lemma read_only_raise {A} (e : Exception) : read_only (@raise _ A e).
Proof. by intros w r w' [= _ <-]. Qed.

Lemma read_only_lift {A} (x : Result A) : read_only (lift x).
Proof. by intros w r w' [= _ <-]. Qed.

Lemma read_only_logger lv msg xs : read_only (logger lv msg xs).
Proof. by intros w r w' [= _ <-]. Qed.

Lemma read_only_bind {A B} (m : M A) (k : A -> M B) :
  read_only m -> (forall a, read_only (k a)) -> read_only (bind m k).
Proof.
  intros Hm Hk w r w'. unfold bind.
  destruct (m w) as [[a|e] w1] eqn:Hrun; intros Hr.
  - rewrite (Hk a _ _ _ Hr). by apply (Hm _ _ _ Hrun).
  - injection Hr as _ <-. by apply (Hm _ _ _ Hrun).
Qed.

Lemma read_only_try_except {A} (body : M A) (handler : Exception -> M A) :
  read_only body -> (forall e, read_only (handler e)) ->
  read_only (try_except body handler).
Proof.
  intros Hm Hk w r w'. unfold try_except.
  destruct (body w) as [[a|e] w1] eqn:Hrun; intros Hr.
  - injection Hr as _ <-. by apply (Hm _ _ _ Hrun).
  - rewrite (Hk e _ _ _ Hr). by apply (Hm _ _ _ Hrun).
Qed.

Lemma read_only_external {A} (op : M A) : read_only op -> read_only (external op).
Proof.
  intros Hop w r w'. unfold external.
  destruct (schedule w) as [|[e|] rest]; intros Hr.
  - by apply (Hop _ _ _ Hr).
  - by injection Hr as _ <-.
  - by rewrite (Hop _ _ _ Hr).
Qed.

Lemma read_only_for_each {A B} (f : A -> M B) (l : list A) :
  (forall x, read_only (f x)) -> read_only (for_each f l).
Proof.
  intros Hf. induction l as [|x l IH]; cbn [for_each].
  - apply read_only_ret.
  - apply read_only_bind; [apply Hf|]. intros y.
    apply read_only_bind; [exact IH|]. intros ys. apply read_only_ret.
Qed.

Lemma read_only_get_collections c : read_only (get_collections c).
Proof. apply read_only_external. by intros w r w' [= _ <-]. Qed.

Lemma read_only_get_collection c name : read_only (get_collection c name).
Proof.
  apply read_only_external. intros w r w'.
  destruct (qdrant w !! name); by intros [= _ <-].
Qed.

Lemma read_only_search c name v k : read_only (search c name v k).
Proof.
  apply read_only_external. intros w r w'.
  destruct (qdrant w !! name) as [col|]; [|by intros [= _ <-]].
  destruct (dim v =? size (config col))%nat; by intros [= _ <-].
Qed.

Lemma read_only_call_chain chain query : read_only (call_chain chain query).
Proof.
  unfold call_chain, get_relevant_documents, similarity_search,
    similarity_search_with_score, embed_query, invoke.
  repeat first
    [ apply read_only_ret | apply read_only_search | apply read_only_external
    | apply read_only_bind | intros ? ].
Qed.

Lemma read_only_estimate s query response context :
  read_only (Query._estimate_tokens s query response context).
Proof.
  unfold Query._estimate_tokens.
  apply read_only_try_except; [|intros e].
  - repeat first
      [ apply read_only_ret | apply read_only_lift | apply read_only_for_each
      | apply read_only_bind | intros ? ].
  - apply read_only_bind; [apply read_only_logger|intros; apply read_only_ret].
Qed.

Lemma read_only_query s self query session_id top_k :
  read_only (Query.query s self query session_id top_k).
Proof.
  unfold Query.query.
  apply read_only_try_except; [|intros e].
  - apply read_only_bind; [apply read_only_logger|intros _].
    apply read_only_bind.
    { destruct (Query.vector_store self);
        [apply read_only_ret|apply read_only_raise]. }
    intros store. apply read_only_bind; [apply read_only_call_chain|].
    intros output. apply read_only_bind; [apply read_only_estimate|].
    intros n. apply read_only_bind; [apply read_only_logger|].
    intros _. apply read_only_ret.
  - apply read_only_bind; [apply read_only_logger|intros; apply read_only_raise].
Qed.

Lemma read_only_the_qdrant_client self :
  read_only (Query.the_qdrant_client self).
Proof.
  unfold Query.the_qdrant_client.
  destruct (Query.qdrant_client self);
    [apply read_only_ret|apply read_only_raise].
Qed.

Lemma read_only_health s self : read_only (Query.check_vector_db_health s self).
Proof.
  unfold Query.check_vector_db_health.
  apply read_only_try_except; [|intros e].
  - destruct (String.eqb (vector_db s) "qdrant"); [|apply read_only_ret].
    apply read_only_bind; [apply read_only_the_qdrant_client|intros c].
    apply read_only_bind; [apply read_only_get_collections|intros].
    apply read_only_ret.
  - apply read_only_bind; [apply read_only_logger|intros; apply read_only_ret].
Qed.

Lemma read_only_get_stats s self : read_only (Query.get_stats s self).
Proof.
  unfold Query.get_stats.
  apply read_only_try_except; [|intros e].
  - destruct (String.eqb (vector_db s) "qdrant"); [|apply read_only_ret].
    apply read_only_bind; [apply read_only_the_qdrant_client|intros c].
    apply read_only_bind; [apply read_only_get_collection|intros].
    apply read_only_ret.
  - apply read_only_bind; [apply read_only_logger|intros; apply read_only_ret].
Qed.

(** X8. A query, the health check and the statistics never write to the
    server, whether they return or fail. *)
Theorem queries_never_write (s : Settings) (self : Query.RAGQueryEngine) :
  (forall query session_id top_k,
     read_only (Query.query s self query session_id top_k))
  /\ read_only (Query.check_vector_db_health s self)
  /\ read_only (Query.get_stats s self).
Proof.
  split; [|split].
  - intros. apply read_only_query.
  - apply read_only_health.
  - apply read_only_get_stats.
Qed.

End ReadOnly.

(* ===================================================================== *)
(** ** When the providers are accepted *)
(* ===================================================================== *)

Section ConstructionMore.
Context `{Libraries}.

Lemma falsy_true_inv (k : string) : falsy k = true -> k = "".
Proof. unfold falsy. by intros Hk%String.eqb_eq. Qed.

Lemma falsy_false_inv (k : string) : falsy k = false -> k <> "".
Proof. unfold falsy. by intros Hk%String.eqb_neq. Qed.

(** What [_initialize_llm] returns, by provider. *)
Lemma llm_cases (s : Settings) (w : World) :
  exists r w',
    Query._initialize_llm s w = (r, w') /\ logged w w'
    /\ match r with
       | Ok l =>
           (Py.lower (llm_provider s) = "openai" /\ openai_api_key s <> ""
            /\ l = ChatOpenAI (openai_api_key s) (openai_model s)
                     (temperature s) (max_tokens s))
           \/ (Py.lower (llm_provider s) = "groq" /\ GROQ_AVAILABLE = true
               /\ groq_api_key s <> ""
               /\ l = ChatGroq (groq_api_key s) (groq_model s)
                        (temperature s) (max_tokens s))
           \/ (Py.lower (llm_provider s) = "ollama" /\ OLLAMA_AVAILABLE = true
               /\ l = Ollama (ollama_base_url s) (ollama_model s)
                        (temperature s))
       | Raise e => (exists msg, e = ValueError msg) /\ ~ llm_configured s
       end.
Proof.
  unfold Query._initialize_llm, llm_configured, bind, logger, raise, ret.
  destruct (String.eqb (Py.lower (llm_provider s)) "openai") eqn:Ho.
  { apply String.eqb_eq in Ho. rewrite Ho.
    destruct (falsy (openai_api_key s)) eqn:Hk.
    - apply falsy_true_inv in Hk.
      eexists _, _. split; [reflexivity|]. split; [by repeat split|].
      split; [eauto|]. intros [[_ ?]|[[? _]|[? _]]]; done.
    - apply falsy_false_inv in Hk.
      eexists _, _. split; [reflexivity|]. split; [by repeat split|].
      left. by repeat split. }
  apply String.eqb_neq in Ho.
  destruct (String.eqb (Py.lower (llm_provider s)) "groq") eqn:Hg.
  { apply String.eqb_eq in Hg. rewrite Hg.
    destruct GROQ_AVAILABLE eqn:Ha; cbn [negb].
    - destruct (falsy (groq_api_key s)) eqn:Hk.
      + apply falsy_true_inv in Hk.
        eexists _, _. split; [reflexivity|]. split; [by repeat split|].
        split; [eauto|]. intros [[? _]|[(_ & _ & ?)|[? _]]]; done.
      + apply falsy_false_inv in Hk.
        eexists _, _. split; [reflexivity|]. split; [by repeat split|].
        right; left. by repeat split.
    - eexists _, _. split; [reflexivity|]. split; [by repeat split|].
      split; [eauto|]. intros [[? _]|[(_ & ? & _)|[? _]]]; done. }
  apply String.eqb_neq in Hg.
  destruct (String.eqb (Py.lower (llm_provider s)) "ollama") eqn:Hl.
  { apply String.eqb_eq in Hl. rewrite Hl.
    destruct OLLAMA_AVAILABLE eqn:Ha; cbn [negb].
    - eexists _, _. split; [reflexivity|]. split; [by repeat split|].
      right; right. by repeat split.
    - eexists _, _. split; [reflexivity|]. split; [by repeat split|].
      split; [eauto|]. intros [[? _]|[[? _]|[_ ?]]]; done. }
  apply String.eqb_neq in Hl.
  eexists _, _. split; [reflexivity|]. split; [by repeat split|].
  split; [eauto|]. intros [[? _]|[[? _]|[? _]]]; done.
Qed.

(** X9. The generation model is built exactly when its provider is one of
    the three the service knows, its package is installed and, for
    OpenAI and Groq, the key is set. The chat object then carries the
    model configured for that provider. Whether it is built or refused,
    nothing outside the process is called. *)
Theorem llm_is_built_exactly_when_configured (s : Settings) (w : World) :
  ((exists l w', Query._initialize_llm s w = (Ok l, w')) <-> llm_configured s)
  /\ (forall l w',
        Query._initialize_llm s w = (Ok l, w') ->
        logged w w'
        /\ (Py.lower (llm_provider s) = "openai" ->
            llm_model l = openai_model s)
        /\ (Py.lower (llm_provider s) = "groq" ->
            llm_model l = groq_model s)
        /\ (Py.lower (llm_provider s) = "ollama" ->
            llm_model l = ollama_model s))
  /\ (forall e w',
        Query._initialize_llm s w = (Raise e, w') ->
        logged w w' /\ exists msg, e = ValueError msg).
Proof.
  destruct (llm_cases s w) as (r & w1 & Hrun & Hl & Hr).
  split; [|split].
  - split.
    + intros (l & w' & Hok). rewrite Hok in Hrun. injection Hrun as <- <-.
      unfold llm_configured.
      destruct Hr as [(? & ? & _)|[(? & ? & ? & _)|(? & ? & _)]]; auto.
    + intros Hc. destruct r as [l|e]; [eauto|]. by destruct Hr as [_ Hn].
  - intros l w' Hok. rewrite Hok in Hrun. injection Hrun as <- <-.
    split; [exact Hl|].
    destruct Hr as [(Hp & _ & ->)|[(Hp & _ & _ & ->)|(Hp & _ & ->)]];
      rewrite Hp; repeat split; intros; (reflexivity || discriminate).
  - intros e w' He. rewrite He in Hrun. injection Hrun as <- <-.
    split; [exact Hl|]. apply Hr.
Qed.

(** What the two [_initialize_embeddings] return, by provider. *)
Lemma embeddings_cases (s : Settings) (w : World) :
  exists r wi wq,
    Ingest._initialize_embeddings s w = (r, wi)
    /\ Query._initialize_embeddings s w = (r, wq)
    /\ quiet w wi /\ quiet w wq
    /\ match r with
       | Ok emb =>
           (Py.lower (embedding_provider s) = "openai"
            /\ openai_api_key s <> ""
            /\ emb = OpenAIEmbeddings (openai_api_key s) (embedding_model s))
           \/ (Py.lower (embedding_provider s) = "huggingface"
               /\ emb = HuggingFaceEmbeddings (hf_embedding_model s))
       | Raise e => ~ embedding_configured s \/ In (Some e) (schedule w)
       end.
Proof.
  unfold Ingest._initialize_embeddings, Query._initialize_embeddings,
    embedding_configured, bind, logger, raise, ret.
  destruct (String.eqb (Py.lower (embedding_provider s)) "openai") eqn:Ho.
  { apply String.eqb_eq in Ho. rewrite Ho.
    destruct (falsy (openai_api_key s)) eqn:Hk.
    - apply falsy_true_inv in Hk.
      eexists _, _, _. split; [reflexivity|]. split; [reflexivity|].
      split; [by split|]. split; [by split|].
      left. intros [[_ ?]|?]; done.
    - apply falsy_false_inv in Hk.
      eexists _, _, _. split; [reflexivity|]. split; [reflexivity|].
      split; [by split|]. split; [by split|]. left. by repeat split. }
  apply String.eqb_neq in Ho.
  destruct (String.eqb (Py.lower (embedding_provider s)) "huggingface") eqn:Hh.
  { apply String.eqb_eq in Hh. rewrite Hh.
    unfold external. cbn [schedule].
    destruct (schedule w) as [|[e|] rest] eqn:Hs; cbn.
    - eexists _, _, _. split; [reflexivity|]. split; [reflexivity|].
      split; [split; cbn; by rewrite ?Hs|]. split; [split; cbn; by rewrite ?Hs|].
      right. by split.
    - eexists _, _, _. split; [reflexivity|]. split; [reflexivity|].
      split; [split; cbn; rewrite ?Hs; [done|by apply suffix_cons_r]|].
      split; [split; cbn; rewrite ?Hs; [done|by apply suffix_cons_r]|].
      right. by left.
    - eexists _, _, _. split; [reflexivity|]. split; [reflexivity|].
      split; [split; cbn; rewrite ?Hs; [done|by apply suffix_cons_r]|].
      split; [split; cbn; rewrite ?Hs; [done|by apply suffix_cons_r]|].
      right. by split. }
  apply String.eqb_neq in Hh.
  eexists _, _, _. split; [reflexivity|]. split; [reflexivity|].
  split; [by split|]. split; [by split|]. left. intros [[? _]|?]; done.
Qed.

End ConstructionMore.

(* ===================================================================== *)
(** ** The start of the application *)
(* ===================================================================== *)

Section StartupMore.
Context `{Libraries}.

Lemma suffix_of_nil (sch : Schedule) : sch `suffix_of` [] -> sch = [].
Proof. intros Hs. by apply suffix_nil_inv. Qed.

(** The embeddings object is a function of the settings. *)
Lemma embeddings_agree (s : Settings) (w1 w2 wi wq : World) e1 e2 :
  Ingest._initialize_embeddings s w1 = (Ok e1, wi) ->
  Query._initialize_embeddings s w2 = (Ok e2, wq) ->
  e1 = e2.
Proof.
  intros H1 H2.
  destruct (embeddings_cases s w1) as (r1 & wi1 & wq1 & Hi1 & _ & _ & _ & Hr1).
  destruct (embeddings_cases s w2) as (r2 & wi2 & wq2 & _ & Hq2 & _ & _ & Hr2).
  rewrite H1 in Hi1. injection Hi1 as <- <-.
  rewrite H2 in Hq2. injection Hq2 as <- <-.
  destruct Hr1 as [(Ho1 & _ & ->)|(Hh1 & ->)],
    Hr2 as [(Ho2 & _ & ->)|(Hh2 & ->)]; congruence.
Qed.

(** The ingestor [__init__] returns. *)
Lemma ingest_init_Ok_record (s : Settings) (w w' : World)
    (self : Ingest.DocumentIngestor) :
  Ingest.__init__ s w = (Ok self, w') ->
  exists emb w1 sp,
    Ingest._initialize_embeddings s w = (Ok emb, w1)
    /\ RecursiveCharacterTextSplitter (chunk_size s) (chunk_overlap s) = Ok sp
    /\ self = Ingest.mkDocumentIngestor emb sp
                (if String.eqb (vector_db s) "qdrant" then Some (connect s)
                 else None)
    /\ schedule w' `suffix_of` schedule w1.
Proof.
  intros Hrun. pose proof Hrun as Hrun0. unfold Ingest.__init__ in Hrun.
  apply bind_Ok_inv in Hrun as (emb & w1 & Hemb & Hrun).
  apply bind_Ok_inv in Hrun as (sp & w2 & Hsp & _).
  unfold lift in Hsp. injection Hsp as Hsp _.
  destruct (ingest_init_completes s w emb w1 sp Hemb Hsp) as (w0 & Hinit & Hsuf).
  rewrite Hinit in Hrun0. injection Hrun0 as <- <-.
  exists emb, w1, sp. by repeat split.
Qed.

(** The engine [__init__] returns. *)
Lemma query_init_Ok_record (s : Settings) (w w' : World)
    (self : Query.RAGQueryEngine) :
  Query.__init__ s w = (Ok self, w') ->
  exists emb w1 l,
    Query._initialize_embeddings s w = (Ok emb, w1)
    /\ Query._initialize_llm s w1 = (Ok l, w')
    /\ self = Query.mkRAGQueryEngine emb l
                (if String.eqb (vector_db s) "qdrant" then Some (connect s)
                 else None)
                (if String.eqb (vector_db s) "qdrant"
                 then Some (mkQdrant (connect s) (qdrant_collection_name s) emb)
                 else None).
Proof.
  unfold Query.__init__. intros Hrun.
  apply bind_Ok_inv in Hrun as (emb & w1 & Hemb & Hrun).
  apply bind_Ok_inv in Hrun as (l & w2 & Hllm & Hret).
  injection Hret as <- <-. exists emb, w1, l.
  split; [exact Hemb|]. split; [exact Hllm|].
  unfold Query._initialize_vector_store.
  by destruct (String.eqb (vector_db s) "qdrant").
Qed.

(** X10. The application starts exactly when both providers are configured
    and the splitter accepts the chunk size and overlap: with no failure
    of a call outside, nothing else stops the three constructors. *)
Theorem startup_succeeds_exactly_when_configured (s : Settings) (w : World) :
  schedule w = [] ->
  (exists c w', App.startup s w = (Ok c, w'))
  <-> (embedding_configured s /\ llm_configured s
       /\ exists sp,
            RecursiveCharacterTextSplitter (chunk_size s) (chunk_overlap s)
            = Ok sp).
Proof.
  intros Hsch. split.
  - intros (c & w' & Hrun). unfold App.startup in Hrun.
    apply bind_Ok_inv in Hrun as (di & w1 & Hdi & Hrun).
    apply bind_Ok_inv in Hrun as (qe & w2 & Hqe & _).
    apply ingest_init_Ok_record in Hdi as (emb & wi & sp & Hemb & Hsp & _ & _).
    apply query_init_Ok_record in Hqe as (emb' & wq & l & _ & Hllm & _).
    split; [|split; [|eauto]].
    + destruct (embeddings_cases s w) as (r & wi' & _ & Hi & _ & _ & _ & Hr).
      rewrite Hemb in Hi. injection Hi as <- <-. unfold embedding_configured.
      destruct Hr as [(? & ? & _)|(? & _)]; auto.
    + destruct (llm_cases s wq) as (r & w3 & Hl & _ & Hr).
      rewrite Hllm in Hl. injection Hl as <- <-. unfold llm_configured.
      destruct Hr as [(? & ? & _)|[(? & ? & ? & _)|(? & ? & _)]]; auto.
  - intros (Hemb & Hllm & sp & Hsp).
    destruct (embeddings_cases s w) as ([emb|e] & wi & _ & Hi & _ & Hqi & _ & Hr);
      [|destruct Hr as [Hr|Hr]; [done|by rewrite Hsch in Hr]].
    destruct (ingest_init_completes s w emb wi sp Hi Hsp) as (w1 & Hinit & Hsuf).
    assert (schedule w1 = []) as Hsch1.
    { apply suffix_of_nil. etrans; [exact Hsuf|].
      rewrite <- Hsch. apply Hqi. }
    destruct (embeddings_cases s w1)
      as ([emb'|e] & _ & wq & _ & Hq & _ & _ & Hr');
      [|destruct Hr' as [Hr'|Hr']; [done|by rewrite Hsch1 in Hr']].
    destruct (llm_cases s wq) as ([l|e] & w2 & Hl & _ & Hrl);
      [|by destruct Hrl as [_ Hn]].
    eexists _, _. unfold App.startup.
    rewrite (bind_Ok _ _ _ _ _ Hinit).
    erewrite bind_Ok; [reflexivity|].
    unfold Query.__init__.
    rewrite (bind_Ok _ _ _ _ _ Hq), (bind_Ok _ _ _ _ _ Hl). reflexivity.
Qed.

(** X11. The components the application builds agree on the store: the
    engine searches the collection the ingestor writes to, through the
    same client and with the same embeddings. With another vector
    database configured, neither holds a client. *)
Theorem components_share_the_store (s : Settings) (w w' : World)
    (c : App.Components) :
  App.startup s w = (Ok c, w') ->
  Query.embeddings (App.query_engine c)
  = Ingest.embeddings (App.document_ingestor c)
  /\ (vector_db s = "qdrant" ->
      Ingest.qdrant_client (App.document_ingestor c) = Some (connect s)
      /\ Query.qdrant_client (App.query_engine c) = Some (connect s)
      /\ Query.vector_store (App.query_engine c)
         = Some (mkQdrant (connect s) (qdrant_collection_name s)
                   (Ingest.embeddings (App.document_ingestor c))))
  /\ (vector_db s <> "qdrant" ->
      Ingest.qdrant_client (App.document_ingestor c) = None
      /\ Query.qdrant_client (App.query_engine c) = None
      /\ Query.vector_store (App.query_engine c) = None).
Proof.
  unfold App.startup. intros Hrun.
  apply bind_Ok_inv in Hrun as (di & w1 & Hdi & Hrun).
  apply bind_Ok_inv in Hrun as (qe & w2 & Hqe & Hrun).
  apply bind_Ok_inv in Hrun as (rm & w3 & _ & Hret).
  injection Hret as <- _. cbn.
  apply ingest_init_Ok_record in Hdi as (emb & wi & sp & Hemb & _ & -> & _).
  apply query_init_Ok_record in Hqe as (emb' & wq & l & Hemb' & _ & ->).
  pose proof (embeddings_agree _ _ _ _ _ _ _ Hemb Hemb') as <-. cbn.
  split; [reflexivity|]. split.
  - intros ->. by replace (String.eqb "qdrant" "qdrant") with true by reflexivity.
  - intros Hne. by rewrite (eqb_false_of_ne _ _ Hne).
Qed.

End StartupMore.

(* ===================================================================== *)
(** ** Health check and statistics *)
(* ===================================================================== *)

Section HealthMore.
Context `{Libraries} `{!QdrantServer}.

Lemma check_vector_db_health_returns
    (s : Settings) (self : Query.RAGQueryEngine) (w : World) :
  exists b w', Query.check_vector_db_health s self w = (Ok b, w').
Proof.
  unfold Query.check_vector_db_health, try_except.
  match goal with |- context [match ?m w with _ => _ end] =>
    destruct (m w) as [[b|e] w1] end; eexists _, _; reflexivity.
Qed.

Lemma get_stats_returns
    (s : Settings) (self : Query.RAGQueryEngine) (w : World) :
  exists d w', Query.get_stats s self w = (Ok d, w').
Proof.
  unfold Query.get_stats, try_except.
  match goal with |- context [match ?m w with _ => _ end] =>
    destruct (m w) as [[b|e] w1] end; eexists _, _; reflexivity.
Qed.

(** X12. The health check never raises. With Qdrant configured it is the
    outcome of one call that lists the collections: [True] when the call
    is answered, [False], with the exception logged, when it fails. With
    another vector database it is [True] and nothing is called. *)
Theorem health_check_reports_the_listing_call
    (s : Settings) (self : Query.RAGQueryEngine) (w : World) :
  (exists b w', Query.check_vector_db_health s self w = (Ok b, w'))
  /\ (vector_db s <> "qdrant" ->
      Query.check_vector_db_health s self w = (Ok true, w))
  /\ (forall c,
        vector_db s = "qdrant" -> Query.qdrant_client self = Some c ->
        (next_call_answers w = true ->
         Query.check_vector_db_health s self w
         = (Ok true, set_schedule (tail (schedule w)) w))
        /\ (forall e,
              next_call_fails w e ->
              Query.check_vector_db_health s self w
              = (Ok false,
                 with_log (set_schedule (tail (schedule w)) w)
                   [health_error_record e]))).
Proof.
  split; [apply check_vector_db_health_returns|].
  unfold Query.check_vector_db_health, Query.the_qdrant_client.
  split.
  - intros Hne. by rewrite (eqb_false_of_ne _ _ Hne).
  - intros c -> Hc. rewrite Hc.
    replace (String.eqb "qdrant" "qdrant") with true by reflexivity.
    unfold try_except, bind, get_collections, external, ret, next_call_answers,
      next_call_fails.
    destruct w as [q sch lg u]. cbn.
    split.
    + destruct sch as [|[e|] rest]; cbn; [|discriminate|]; reflexivity.
    + intros e [rest ->]. reflexivity.
Qed.

Lemma get_stats_healthy (s : Settings) (self : Query.RAGQueryEngine)
    (w : World) c col :
  vector_db s = "qdrant" -> Query.qdrant_client self = Some c ->
  next_call_answers w = true ->
  qdrant w !! qdrant_collection_name s = Some col ->
  exists d w',
    Query.get_stats s self w = (Ok d, w')
    /\ d !! "status" = Some (Query.SStr "healthy")
    /\ d !! "vectors_count"
       = Some (Query.optional_int
                 (reported_vectors_count (qdrant w) (qdrant_collection_name s)))
    /\ d !! "collection" = Some (Query.SStr (qdrant_collection_name s))
    /\ d !! "vector_db" = Some (Query.SStr "qdrant").
Proof.
  unfold Query.get_stats, Query.the_qdrant_client.
  intros -> Hc Hsch Hcol. rewrite Hc.
  replace (String.eqb "qdrant" "qdrant") with true by reflexivity.
  unfold try_except, bind, get_collection, external, ret, logger,
    next_call_answers in *.
  destruct w as [q sch lg u]. cbn in *.
  destruct sch as [|[e|] rest]; cbn; [|discriminate|]; rewrite Hcol;
    eexists _, _; (split; [reflexivity|]); cbn;
    repeat split; by simplify_map_eq.
Qed.

(** X13. The statistics never raise. With Qdrant configured and the call
    answered they report status "healthy", the names of the collection
    and of the vector database, and as [vectors_count] the field of the
    client's answer as it is, a number or [None]; when the collection
    does not exist or the call fails they report status "error" with the
    message of the exception and no count; with another vector database,
    status "unknown" only. *)
Theorem stats_report_the_collection
    (s : Settings) (self : Query.RAGQueryEngine) (w : World) :
  (exists d w', Query.get_stats s self w = (Ok d, w'))
  /\ (vector_db s <> "qdrant" ->
      exists d, Query.get_stats s self w = (Ok d, w)
        /\ d !! "status" = Some (Query.SStr "unknown")
        /\ d !! "vectors_count" = None)
  /\ (forall c,
        vector_db s = "qdrant" -> Query.qdrant_client self = Some c ->
        (forall col,
           next_call_answers w = true ->
           qdrant w !! qdrant_collection_name s = Some col ->
           exists d w',
             Query.get_stats s self w = (Ok d, w')
             /\ d !! "status" = Some (Query.SStr "healthy")
             /\ d !! "vectors_count"
                = Some (Query.optional_int
                          (reported_vectors_count (qdrant w)
                             (qdrant_collection_name s)))
             /\ d !! "collection" = Some (Query.SStr (qdrant_collection_name s))
             /\ d !! "vector_db" = Some (Query.SStr "qdrant"))
        /\ (next_call_answers w = true ->
            qdrant w !! qdrant_collection_name s = None ->
            exists d w' e,
              Query.get_stats s self w = (Ok d, w')
              /\ d !! "status" = Some (Query.SStr "error")
              /\ d !! "message" = Some (Query.SStr (str e))
              /\ d !! "vectors_count" = None
              /\ last (log w') = Some (stats_error_record e))
        /\ (forall e,
              next_call_fails w e ->
              exists d w',
                Query.get_stats s self w = (Ok d, w')
                /\ d !! "status" = Some (Query.SStr "error")
                /\ d !! "message" = Some (Query.SStr (str e))
                /\ d !! "vectors_count" = None
                /\ last (log w') = Some (stats_error_record e))).
Proof.
  split; [apply get_stats_returns|]. split.
  - intros Hne. unfold Query.get_stats. rewrite (eqb_false_of_ne _ _ Hne).
    eexists. split; [reflexivity|]. split; by simplify_map_eq.
  - intros c Hdb Hc. split.
    { intros col. by apply (get_stats_healthy s self w c). }
    unfold Query.get_stats, Query.the_qdrant_client.
    revert Hdb. intros ->. rewrite Hc.
    replace (String.eqb "qdrant" "qdrant") with true by reflexivity.
    unfold try_except, bind, get_collection, external, ret, logger,
      next_call_answers, next_call_fails.
    destruct w as [q sch lg u]. cbn.
    split.
    + intros Hsch Hcol.
      destruct sch as [|[e|] rest]; cbn; [|discriminate|]; rewrite Hcol;
        eexists _, _, _; (split; [reflexivity|]); cbn;
        rewrite last_snoc; repeat split; by simplify_map_eq.
    + intros e [rest ->]. cbn.
      eexists _, _; (split; [reflexivity|]); cbn.
      rewrite last_snoc; repeat split; by simplify_map_eq.
Qed.

End HealthMore.

(* ===================================================================== *)
(** ** Queries, token counts and what ingestion leaves for them *)
(* ===================================================================== *)

Section QueryMore.
Context `{Libraries}.

(** X14. With a vector database other than Qdrant configured the engine is
    built without a vector store, and every query fails on the missing
    attribute before anything outside is called. *)
Theorem query_without_qdrant_always_fails
    (s : Settings) (u u' : World) (self : Query.RAGQueryEngine) :
  Query.__init__ s u = (Ok self, u') ->
  vector_db s <> "qdrant" ->
  forall query session_id top_k w,
    exists w',
      Query.query s self query session_id top_k w
      = (Raise (AttributeError
                  "'RAGQueryEngine' object has no attribute 'vector_store'"),
         w')
      /\ qdrant w' = qdrant w /\ schedule w' = schedule w
      /\ last (log w')
         = Some (query_error_record
                   (AttributeError
                      "'RAGQueryEngine' object has no attribute 'vector_store'")).
Proof.
  intros Hinit Hne query session_id top_k w.
  apply query_init_Ok_record in Hinit as (emb & w1 & l & _ & _ & ->).
  rewrite (eqb_false_of_ne _ _ Hne).
  eexists. split; [reflexivity|]. cbn. repeat split. by rewrite last_snoc.
Qed.

(** What [_estimate_tokens] returns: a count that includes the overhead
    of the template, or 0 after a logged failure. *)
Lemma estimate_cases (s : Settings) (query response : string)
    (context : list string) (w : World) :
  (exists n, Query._estimate_tokens s query response context w = (Ok n, w)
             /\ (100 <= n)%nat)
  \/ (exists e,
        Query._estimate_tokens s query response context w
        = (Ok 0%nat, with_log w [estimate_warning e])).
Proof.
  destruct (encoding_for_model (openai_model s)) as [enc|e] eqn:Henc.
  2: { right. exists e.
       unfold Query._estimate_tokens, try_except, bind, lift.
       by rewrite Henc. }
  destruct (encode enc query) as [tq|e] eqn:Hq.
  2: { right. exists e.
       unfold Query._estimate_tokens, try_except, bind, lift.
       by rewrite Henc, Hq. }
  destruct (encode enc response) as [tr|e] eqn:Hr.
  2: { right. exists e.
       unfold Query._estimate_tokens, try_except, bind, lift.
       by rewrite Henc, Hq, Hr. }
  destruct (for_each_lift_world (encode enc) context w) as [[tcs|e] Hc];
    unfold lift in Hc.
  - left. eexists. split.
    + unfold Query._estimate_tokens, try_except, bind, lift.
      rewrite Henc, Hq, Hr, Hc. reflexivity.
    + lia.
  - right. exists e.
    unfold Query._estimate_tokens, try_except, bind, lift.
    by rewrite Henc, Hq, Hr, Hc.
Qed.

(** X15. The token count of a result is either 0, which means that the
    estimate failed and a warning was logged, or at least the 100 tokens
    of overhead: a failed estimate cannot be taken for a real one. *)
Theorem token_count_is_zero_or_includes_overhead
    (s : Settings) (self : Query.RAGQueryEngine) (query session_id : string)
    (top_k : nat) :
  (forall q a c w,
     (exists n, Query._estimate_tokens s q a c w = (Ok n, w)
                /\ (100 <= n)%nat)
     \/ (exists e,
           Query._estimate_tokens s q a c w
           = (Ok 0%nat, with_log w [estimate_warning e])))
  /\ (forall w w' r,
        Query.query s self query session_id top_k w = (Ok r, w') ->
        Query.tokens_used r = 0%nat \/ (100 <= Query.tokens_used r)%nat).
Proof.
  split; [apply estimate_cases|].
  intros w w' r Hrun.
  apply query_Ok_inv in Hrun
    as (store & col & w1 & w2 & _ & _ & _ & _ & _ & _ & Hest).
  destruct (estimate_cases s query (Query.response r) (Query.context r) w1)
    as [(n & Hn & Hge)|(e & He)].
  - rewrite Hn in Hest. injection Hest as <- _. by right.
  - rewrite He in Hest. injection Hest as <- _. by left.
Qed.

Lemma texts_of_ranking (col : Collection) (v : Vector) :
  map (fun h : PointStruct * Qc => page_content (payload h.1)) (ranking col v)
  ≡ₚ texts_of (points col).
Proof.
  unfold ranking. rewrite merge_sort_Permutation.
  unfold texts_of. by rewrite map_map.
Qed.

(** X16. Ingestion and query compose: when a query asks for at least as many
    chunks as the collection holds after an ingestion, its context is
    the texts the collection held together with the chunks of the
    ingested document, in the order of their scores. *)
Theorem ingested_chunks_are_retrieved
    (s : Settings) (ingestor : Ingest.DocumentIngestor)
    (engine : Query.RAGQueryEngine) (u u' : World)
    (file_content : list byte) (filename file_type : string)
    (query session_id : string) (top_k : nat) (w w1 w2 : World)
    (col : Collection) (ri : Ingest.IngestResult) (rq : Query.QueryResult) :
  Query.__init__ s u = (Ok engine, u') ->
  vector_db s = "qdrant" ->
  qdrant w !! qdrant_collection_name s = Some col ->
  Ingest.ingest s ingestor file_content filename file_type w = (Ok ri, w1) ->
  Query.query s engine query session_id top_k w1 = (Ok rq, w2) ->
  length (points col) + Ingest.chunk_count ri <= top_k ->
  exists text w0,
    Ingest._extract_text file_content filename file_type w = (Ok text, w0)
    /\ Query.context rq
       ≡ₚ texts_of (points col)
          ++ split_text (Ingest.text_splitter ingestor) text.
Proof.
  intros Hinit Hdb Hcol Hing Hq Hk.
  apply (ingest_Ok_texts _ _ _ _ _ _ _ _) in Hing
    as (text & w0 & new & Hex & Hlen & Hstore & Htexts); [|exact Hdb].
  exists text, w0. split; [exact Hex|].
  apply query_init_Ok_record in Hinit as (emb & wq & l & _ & _ & ->).
  rewrite Hdb in Hq.
  apply query_Ok_inv in Hq
    as (store & col' & wa & wb & Hvs & Hcol' & _ & Hctx & _).
  cbn in Hvs. injection Hvs as <-. cbn [store_collection_name] in *.
  rewrite Hstore in Hcol'. unfold appended in Hcol'.
  rewrite Hcol, lookup_insert_eq in Hcol'. injection Hcol' as <-.
  rewrite Hctx, take_ge.
  - rewrite texts_of_ranking. cbn [points]. rewrite <- Htexts.
    unfold texts_of. by rewrite map_app.
  - unfold ranking. rewrite merge_sort_Permutation, length_map. cbn [points].
    rewrite length_app. lia.
Qed.

End QueryMore.

(* ===================================================================== *)
(** ** Start, ingestion and ingestion again *)
(* ===================================================================== *)

Section CompositionMore.
Context `{Libraries}.

(** The collection check when the server answers. *)
Lemma ensure_answered (s : Settings) (c : QdrantClient) (w : World) :
  schedule w = [] ->
  exists w',
    Ingest._ensure_collection_exists s c w = (Ok tt, w')
    /\ schedule w' = []
    /\ qdrant w'
       = match qdrant w !! qdrant_collection_name s with
         | Some _ => qdrant w
         | None =>
             <[qdrant_collection_name s :=
                 mkCollection (mkVectorParams (vector_size_for s) COSINE) []]>
               (qdrant w)
         end.
Proof.
  destruct w as [q sch lg u]. cbn [qdrant schedule]. intros ->.
  unfold Ingest._ensure_collection_exists, try_except, bind, get_collections,
    create_collection, external, logger, ret, vector_size_for.
  destruct (q !! qdrant_collection_name s) as [col|] eqn:Hq; cbn;
    rewrite ?(listed_true _ _ _ Hq), ?(listed_false _ _ Hq); cbn;
    rewrite ?Hq; eexists; repeat split.
Qed.

(** X27. After the application has started with Qdrant configured and
    the server answering, the configured collection exists: it was
    created empty, with cosine distance and the vector size chosen from
    the name of the embedding provider, if it was absent, and it is as
    it was otherwise. Nothing else on the server has changed. *)
Theorem startup_leaves_the_collection_in_place
    (s : Settings) (w w' : World) (c : App.Components) :
  App.startup s w = (Ok c, w') ->
  vector_db s = "qdrant" ->
  schedule w = [] ->
  is_Some (qdrant w' !! qdrant_collection_name s)
  /\ qdrant w'
     = match qdrant w !! qdrant_collection_name s with
       | Some _ => qdrant w
       | None =>
           <[qdrant_collection_name s :=
               mkCollection (mkVectorParams (vector_size_for s) COSINE) []]>
             (qdrant w)
       end.
Proof.
  unfold App.startup. intros Hrun Hdb Hsch.
  apply bind_Ok_inv in Hrun as (di & w1 & Hdi & Hrun).
  apply bind_Ok_inv in Hrun as (qe & w2 & Hqe & Hrun).
  apply bind_Ok_inv in Hrun as (rm & w3 & Hrm & Hret).
  injection Hret as _ <-. injection Hrm as _ <-.
  (* the engine does not write *)
  apply query_init_Ok_record in Hqe as (emb' & wq & l & Hemb' & Hllm & _).
  destruct (embeddings_cases s w1) as (r1 & _ & wq' & _ & Hq' & _ & Hquiet & _).
  rewrite Hemb' in Hq'. injection Hq' as <- <-.
  destruct (llm_cases s wq) as (r2 & w2' & Hl' & Hlogged & _).
  rewrite Hllm in Hl'. injection Hl' as <- <-.
  assert (qdrant w2 = qdrant w1) as Hq21.
  { rewrite (proj1 Hlogged). apply Hquiet. }
  (* the ingestor checks the collection *)
  unfold Ingest.__init__ in Hdi.
  apply bind_Ok_inv in Hdi as (emb & wi & Hemb & Hdi).
  apply bind_Ok_inv in Hdi as (sp & wi' & Hsp & Hdi).
  unfold lift in Hsp. injection Hsp as _ <-.
  destruct (embeddings_cases s w) as (r0 & wi0 & _ & Hi0 & _ & Hquiet0 & _).
  rewrite Hemb in Hi0. injection Hi0 as <- <-.
  assert (schedule wi = []) as Hschi.
  { apply suffix_of_nil. rewrite <- Hsch. apply Hquiet0. }
  rewrite Hdb in Hdi.
  replace (String.eqb "qdrant" "qdrant") with true in Hdi by reflexivity.
  destruct (ensure_answered s (connect s) wi Hschi) as (w1' & Hens & _ & Hq1).
  rewrite (bind_Ok _ _ _ _ _ Hens) in Hdi. injection Hdi as _ <-.
  rewrite Hq21, Hq1, (proj1 Hquiet0).
  split; [|reflexivity].
  destruct (qdrant w !! qdrant_collection_name s) as [col|] eqn:Hcol.
  - rewrite Hcol. eauto.
  - rewrite lookup_insert_eq. eauto.
Qed.

Lemma concat_pages_same (pages : list Page) (text : string) (w w' : World) :
  (Ingest.concat_pages pages text w).1 = (Ingest.concat_pages pages text w').1.
Proof.
  revert text. induction pages as [|page rest IH]; intros text; cbn;
    [reflexivity|].
  unfold bind, lift. destruct (extract_text page) as [t|e]; [apply IH|reflexivity].
Qed.

(** The text extracted from a file does not depend on the world. *)
Lemma extract_text_same (fc : list byte) (fn ft : string) (w w' : World) :
  (Ingest._extract_text fc fn ft w).1 = (Ingest._extract_text fc fn ft w').1.
Proof.
  unfold Ingest._extract_text, try_except.
  destruct (Py.endswith (Py.lower fn) ".pdf" || Py.contains "pdf" ft).
  - unfold Ingest._extract_from_pdf, try_except, bind, lift, logger, raise.
    destruct (PdfReader fc) as [pages|e]; [|reflexivity].
    pose proof (concat_pages_same pages "" w w') as Hsame.
    destruct (Ingest.concat_pages pages "" w) as [[t|e] w1],
      (Ingest.concat_pages pages "" w') as [[t'|e'] w1']; cbn in Hsame;
      try discriminate; by injection Hsame as ->.
  - destruct (Py.endswith_any (Py.lower fn) [".txt"; ".md"; ".markdown"; ".csv"]);
      unfold lift, bind, logger, raise; by destruct (decode_utf8 fc).
Qed.

(** X28. Ingestion does not recognise a document it has stored: the
    same file ingested twice is stored twice. After the second
    ingestion the collection holds the texts it held, then the chunks
    the splitter of the ingestor cuts the text of the file into, then
    the same chunks again, and both calls report their number. *)
Theorem reingestion_stores_the_chunks_again
    (s : Settings) (self : Ingest.DocumentIngestor) (file_content : list byte)
    (filename file_type : string) (w w1 w2 : World) (col : Collection)
    (r1 r2 : Ingest.IngestResult) :
  vector_db s = "qdrant" ->
  qdrant w !! qdrant_collection_name s = Some col ->
  Ingest.ingest s self file_content filename file_type w = (Ok r1, w1) ->
  Ingest.ingest s self file_content filename file_type w1 = (Ok r2, w2) ->
  exists text we,
    Ingest._extract_text file_content filename file_type w = (Ok text, we)
    /\ Ingest.chunk_count r1
       = length (split_text (Ingest.text_splitter self) text)
    /\ Ingest.chunk_count r2
       = length (split_text (Ingest.text_splitter self) text)
    /\ stored_texts w2 (qdrant_collection_name s)
       = texts_of (points col)
         ++ split_text (Ingest.text_splitter self) text
         ++ split_text (Ingest.text_splitter self) text.
Proof.
  intros Hdb Hcol Hing1 Hing2.
  apply (ingest_Ok_texts _ _ _ _ _ _ _ _) in Hing1
    as (text1 & wa & new1 & Hex1 & Hlen1 & Hq1 & Htexts1); [|exact Hdb].
  apply (ingest_Ok_texts _ _ _ _ _ _ _ _) in Hing2
    as (text2 & wb & new2 & Hex2 & Hlen2 & Hq2 & Htexts2); [|exact Hdb].
  pose proof (extract_text_same file_content filename file_type w w1) as Hsame.
  rewrite Hex1, Hex2 in Hsame. cbn in Hsame. injection Hsame as <-.
  exists text1, wa. split; [exact Hex1|].
  split; [by rewrite <- Hlen1, <- Htexts1; unfold texts_of; rewrite length_map|].
  split; [by rewrite <- Hlen2, <- Htexts2; unfold texts_of; rewrite length_map|].
  unfold stored_texts. rewrite Hq2, Hq1, appended_app.
  unfold appended. rewrite Hcol, lookup_insert_eq. cbn [points].
  unfold texts_of in *. rewrite !map_app. by rewrite Htexts1, Htexts2.
Qed.

End CompositionMore.

(* ===================================================================== *)
(** ** Retraining, for every threshold *)
(* ===================================================================== *)

Section RetrainingMore.
Context `{Libraries}.

Lemma initiated_fields (n : Z) :
  let r := initiated n in
  r !! "status" = Some (Retrain.VStr "initiated")
  /\ r !! "samples_used" = Some (Retrain.VInt n)
  /\ r !! "message" = Some (Retrain.VStr "Retraining job created successfully")
  /\ r !! "job_id" = None
  /\ r !! "reason" = None
  /\ r !! "error" = None.
Proof. cbn zeta. unfold initiated. repeat split; by simplify_map_eq. Qed.

Lemma after_collection_initiates
    (training_data : list (gmap string Retrain.Value))
    (threshold : Z) (model_name : option string) (w : World) :
  (threshold <= Z.of_nat (length training_data))%Z ->
  Retrain.after_collection training_data threshold model_name w
  = (Ok (initiated (Z.of_nat (length training_data))),
     with_log w [mkLog INFO "Retraining process initiated" []]).
Proof.
  intros Hle. unfold Retrain.after_collection.
  apply Z.ltb_ge in Hle. rewrite Hle. reflexivity.
Qed.

(** What [retrain] returns, for every threshold. *)
Lemma retrain_cases (self : Retrain.RetrainManager) (threshold : Z)
    (model_name : option string) (w : World) :
  exists w',
    Retrain.retrain self threshold model_name w
    = (Ok (if (0 <? threshold)%Z then skipped 0 threshold else initiated 0), w')
    /\ logged w w'.
Proof.
  unfold Retrain.retrain, Retrain._collect_training_data, try_except, bind,
    logger, ret. cbn.
  unfold Retrain.after_collection. cbn [length].
  change (Z.of_nat 0) with 0%Z.
  destruct (0 <? threshold)%Z; eexists; (split; [reflexivity|]);
    by repeat split.
Qed.

(** X18. When at least as many samples were collected as the threshold asks
    for, the one that equals the threshold included, retraining is
    reported as initiated with the number of samples used; no job is
    created and there is no job identifier in the result. *)
Theorem sufficient_feedback_is_reported_as_initiated
    (training_data : list (gmap string Retrain.Value))
    (feedback_threshold : Z) (model_name : option string) (w : World) :
  (feedback_threshold <= Z.of_nat (length training_data))%Z ->
  exists r w',
    Retrain.after_collection training_data feedback_threshold model_name w
    = (Ok r, w')
    /\ logged w w'
    /\ r !! "status" = Some (Retrain.VStr "initiated")
    /\ r !! "samples_used"
       = Some (Retrain.VInt (Z.of_nat (length training_data)))
    /\ r !! "message"
       = Some (Retrain.VStr "Retraining job created successfully")
    /\ r !! "job_id" = None
    /\ r !! "reason" = None.
Proof.
  intros Hle. eexists _, _.
  split; [by apply after_collection_initiates|].
  destruct (initiated_fields (Z.of_nat (length training_data)))
    as (? & ? & ? & ? & ? & _).
  by repeat split.
Qed.

(** X19. [retrain] never raises and never reports a failure. Its collection
    step collects nothing, so the threshold alone decides: a positive
    threshold gives "skipped", any other gives "initiated" with 0
    samples used. The model name plays no role, and nothing outside the
    process is called. *)
Theorem retraining_outcome_is_decided_by_the_threshold
    (self : Retrain.RetrainManager) (feedback_threshold : Z)
    (model_name : option string) (w : World) :
  exists r w',
    Retrain.retrain self feedback_threshold model_name w = (Ok r, w')
    /\ logged w w'
    /\ r !! "status"
       = Some (Retrain.VStr (if (0 <? feedback_threshold)%Z then "skipped"
                             else "initiated"))
    /\ r !! "error" = None
    /\ ((feedback_threshold <= 0)%Z ->
        r !! "samples_used" = Some (Retrain.VInt 0))
    /\ (forall other_name, exists w2,
          Retrain.retrain self feedback_threshold other_name w = (Ok r, w2)).
Proof.
  destruct (retrain_cases self feedback_threshold model_name w)
    as (w' & Hrun & Hl).
  eexists _, w'. split; [exact Hrun|]. split; [exact Hl|].
  destruct (skipped_fields 0 feedback_threshold) as (Hs1 & _ & _ & _ & He1).
  destruct (initiated_fields 0) as (Hs2 & Hn2 & _ & _ & _ & He2).
  split; [|split; [|split]].
  - by destruct (0 <? feedback_threshold)%Z.
  - by destruct (0 <? feedback_threshold)%Z.
  - intros Hle. apply Z.ltb_ge in Hle. by rewrite Hle.
  - intros other_name.
    destruct (retrain_cases self feedback_threshold other_name w)
      as (w2 & Hrun2 & _). eauto.
Qed.

(** X20. Formatting for fine-tuning gives one sample for each collected one,
    in order, each a system, a user and an assistant message; a sample
    without a query or a response gets the empty text; and only the
    query and the response of a sample are read. *)
Theorem finetuning_format_reads_query_and_response
    (training_data : list (gmap string Retrain.Value)) :
  length (Retrain._format_for_finetuning training_data) = length training_data
  /\ Forall (fun messages => roles messages = ["system"; "user"; "assistant"])
            (Retrain._format_for_finetuning training_data)
  /\ (forall i sample,
        training_data !! i = Some sample ->
        exists system_message,
          Retrain._format_for_finetuning training_data !! i
          = Some [system_message;
                  Retrain.mkMessage "user"
                    (default (Retrain.VStr "") (sample !! "query"));
                  Retrain.mkMessage "assistant"
                    (default (Retrain.VStr "") (sample !! "response"))])
  /\ (forall other,
        Forall2 (fun a b => a !! "query" = b !! "query"
                            /\ a !! "response" = b !! "response")
                training_data other ->
        Retrain._format_for_finetuning other
        = Retrain._format_for_finetuning training_data).
Proof.
  unfold Retrain._format_for_finetuning. split; [|split; [|split]].
  - apply length_map.
  - apply Forall_forall. intros messages Hin.
    apply list_elem_of_fmap in Hin as (sample & -> & _). reflexivity.
  - intros i sample Hi. eexists.
    change (map ?f training_data) with (f <$> training_data).
    rewrite list_lookup_fmap, Hi. reflexivity.
  - intros other Hall. induction Hall as [|a b la lb [Hq Hr] _ IH];
      [reflexivity|].
    cbn [map]. by rewrite IH, Hq, Hr.
Qed.

End RetrainingMore.

(* ===================================================================== *)
(** ** The routes of the application *)
(* ===================================================================== *)

Section RoutesMore.
Context `{Libraries} `{!QdrantServer}.

(** X21. The two status routes always answer: an exception never leaves the
    health check or the statistics, so neither route reaches its
    handler. The health route reports "healthy" or "degraded", as the
    health check of the engine says, and never "unhealthy". *)
Theorem status_routes_always_answer
    (s : Settings) (app : App.Components) (utcnow : Z) (w : World) :
  (exists b w',
     Query.check_vector_db_health s (App.query_engine app) w = (Ok b, w')
     /\ App.health_check s app utcnow w
        = (Ok (App.Sent
                 (App.HealthResponse.mk
                    (if b : bool then "healthy" else "degraded")
                    utcnow "1.0.0" (vector_db s))), w'))
  /\ (exists d w',
        Query.get_stats s (App.query_engine app) w = (Ok d, w')
        /\ App.get_stats s app w = (Ok (App.Sent d), w')).
Proof.
  split.
  - destruct (check_vector_db_health_returns s (App.query_engine app) w)
      as (b & w' & Hrun).
    exists b, w'. split; [exact Hrun|].
    unfold App.health_check. apply try_except_Ok.
    by rewrite (bind_Ok _ _ _ _ _ Hrun).
  - destruct (get_stats_returns s (App.query_engine app) w) as (d & w' & Hrun).
    exists d, w'. split; [exact Hrun|].
    unfold App.get_stats. apply try_except_Ok.
    by rewrite (bind_Ok _ _ _ _ _ Hrun).
Qed.

(** X23. The query route answers for every request. The reply of a query
    that returned copies its four fields, so it holds at most [top_k]
    context texts and names the OpenAI model of the settings; every
    failure of the query is answered with status 500 and the message of
    the exception. *)
Theorem query_route_answers_failures_with_500
    (s : Settings) (app : App.Components) (request : App.QueryRequest.t)
    (w : World) :
  let run :=
    Query.query s (App.query_engine app) (App.QueryRequest.query request)
      (App.QueryRequest.session_id request) (App.QueryRequest.top_k request)
      (with_log w [processing_record request]) in
  (forall r w1,
     run = (Ok r, w1) ->
     exists w',
       App.query_rag s app request w
       = (Ok (App.Sent
                (App.QueryResponse.mk (Query.response r) (Query.context r)
                   (Query.model r) (Query.tokens_used r))), w')
       /\ logged w1 w'
       /\ Query.model r = openai_model s
       /\ length (Query.context r) <= App.QueryRequest.top_k request)
  /\ (forall e w1,
        run = (Raise e, w1) ->
        exists w',
          App.query_rag s app request w
          = (Ok (App.HTTPException 500
                   ("Failed to process query: " +:+ str e)), w')
          /\ logged w1 w').
Proof.
  cbn zeta. split.
  - intros r w1 Hrun. eexists. split; [|split].
    + unfold App.query_rag. apply try_except_Ok.
      refine (eq_trans (bind_Ok _ _ w tt _ _) _); [reflexivity|].
      rewrite (bind_Ok _ _ _ _ _ Hrun). reflexivity.
    + by repeat split.
    + apply query_Ok_inv in Hrun
        as (store & col & wa & wb & _ & _ & _ & Hctx & _ & Hm & _).
      split; [exact Hm|].
      rewrite Hctx, length_map, length_take. lia.
  - intros e w1 Hrun. eexists. split.
    + unfold App.query_rag.
      rewrite (try_except_Raise _ _ _ e w1); [reflexivity|].
      refine (eq_trans (bind_Ok _ _ w tt _ _) _); [reflexivity|].
      apply bind_Raise. exact Hrun.
    + by repeat split.
Qed.

(** X24. The retraining route answers every request with status "success"
    and the message "Model retraining initiated", whatever the outcome
    of the retraining it carries as details: "skipped" for a positive
    threshold, "initiated" with no sample otherwise. *)
Theorem retrain_route_always_reports_success
    (app : App.Components) (request : App.RetrainRequest.t) (w : World) :
  exists details w',
    App.retrain_model app request w
    = (Ok (App.Sent
             (App.RetrainReply.mk "success" "Model retraining initiated"
                details)), w')
    /\ logged w w'
    /\ details !! "status"
       = Some (Retrain.VStr
                 (if (0 <? App.RetrainRequest.feedback_threshold request)%Z
                  then "skipped" else "initiated")).
Proof.
  set (w0 := with_log w [mkLog INFO "Starting model retraining..." []]).
  destruct (retrain_cases (App.retrain_manager app)
              (App.RetrainRequest.feedback_threshold request)
              (App.RetrainRequest.model_name request) w0)
    as (w1 & Hrun & Hl).
  eexists _, _. split; [|split].
  - unfold App.retrain_model. apply try_except_Ok.
    refine (eq_trans (bind_Ok _ _ w tt w0 _) _); [reflexivity|].
    rewrite (bind_Ok _ _ _ _ _ Hrun). reflexivity.
  - cbn. destruct Hl as (Hq & Hs & Hu). by repeat split.
  - destruct (skipped_fields 0 (App.RetrainRequest.feedback_threshold request))
      as (Hs1 & _).
    destruct (initiated_fields 0) as (Hs2 & _).
    by destruct (0 <? App.RetrainRequest.feedback_threshold request)%Z.
Qed.

End RoutesMore.

(* ===================================================================== *)
(** ** The automated retraining flow *)
(* ===================================================================== *)

Section FlowMore.
Context `{Libraries}.

Lemma check_rag_health_run (RAG_SERVICE_URL : string)
    (requests : RetrainFlow.Requests) (w : World) :
  exists w',
    RetrainFlow.check_rag_health RAG_SERVICE_URL requests w
    = (Ok (answers_200
             (call_outcome w
                (RetrainFlow.get requests (RAG_SERVICE_URL +:+ "/health") 5))),
       w')
    /\ qdrant w' = qdrant w /\ schedule w' = tail (schedule w).
Proof.
  unfold RetrainFlow.check_rag_health, call_outcome, answers_200,
    try_except, bind, external, lift, logger, ret.
  destruct w as [q sch lg u]. cbn [schedule qdrant].
  destruct sch as [|[e|] rest]; cbn;
    try destruct (RetrainFlow.get requests _ 5) as [response|e'];
    eexists; (split; [reflexivity|]); by split.
Qed.

Lemma trigger_retraining_run (RAG_SERVICE_URL : string)
    (FEEDBACK_THRESHOLD : Z) (requests : RetrainFlow.Requests) (w : World) :
  exists w',
    RetrainFlow.trigger_retraining RAG_SERVICE_URL FEEDBACK_THRESHOLD
      requests w
    = (Ok (answers_200_with_json
             (call_outcome w
                (RetrainFlow.post requests (RAG_SERVICE_URL +:+ "/rag/retrain")
                   [("feedback_threshold", FEEDBACK_THRESHOLD)] 300))),
       w')
    /\ qdrant w' = qdrant w /\ schedule w' = tail (schedule w).
Proof.
  unfold RetrainFlow.trigger_retraining, call_outcome, answers_200_with_json,
    try_except, bind, external, lift, logger, ret.
  destruct w as [q sch lg u]. cbn [schedule qdrant].
  destruct sch as [|[e|] rest]; cbn;
    try (destruct (RetrainFlow.post requests _ _ 300) as [response|e'];
         [destruct (RetrainFlow.status_code response =? 200)%Z;
          [destruct (RetrainFlow.json response)|]|]);
    cbn; eexists; (split; [reflexivity|]); by split.
Qed.

(** X25. The two steps of the flow never raise, and each makes one
    call. The health check is [True] exactly when the service answers
    with status 200; an exception of the call is logged, an answer with
    another status is not. The trigger is [True] exactly when the
    service answers with status 200 and a body that is JSON; it logs
    that it starts and then one record, an error unless it is [True]. *)
Theorem flow_steps_turn_failures_into_false
    (RAG_SERVICE_URL : string) (FEEDBACK_THRESHOLD : Z)
    (requests : RetrainFlow.Requests) (w : World) :
  let health :=
    call_outcome w
      (RetrainFlow.get requests (RAG_SERVICE_URL +:+ "/health") 5) in
  let retraining :=
    call_outcome w
      (RetrainFlow.post requests (RAG_SERVICE_URL +:+ "/rag/retrain")
         [("feedback_threshold", FEEDBACK_THRESHOLD)] 300) in
  RetrainFlow.check_rag_health RAG_SERVICE_URL requests w
  = (Ok (answers_200 health),
     with_log (after_call w)
       match health with
       | Ok _ => []
       | Raise e => [flow_health_error_record e]
       end)
  /\ exists outcome,
       RetrainFlow.trigger_retraining RAG_SERVICE_URL FEEDBACK_THRESHOLD
         requests w
       = (Ok (answers_200_with_json retraining),
          with_log (after_call w)
            [mkLog INFO "Triggering model retraining..." []; outcome])
       /\ level outcome
          = if answers_200_with_json retraining then INFO else ERROR.
Proof.
  cbn zeta.
  unfold RetrainFlow.check_rag_health, RetrainFlow.trigger_retraining,
    call_outcome, answers_200, answers_200_with_json, after_call, with_log,
    flow_health_error_record, try_except, bind, external, lift, logger, ret.
  destruct w as [q sch lg u]. cbn [schedule qdrant log uuid_count].
  split.
  - destruct sch as [|[e|] rest]; cbn;
      try destruct (RetrainFlow.get requests _ 5) as [response|e'];
      cbn; rewrite ?app_nil_r; reflexivity.
  - destruct sch as [|[e|] rest]; cbn;
      try (destruct (RetrainFlow.post requests _ _ 300) as [response|e'];
           [destruct (RetrainFlow.status_code response =? 200)%Z;
            [destruct (RetrainFlow.json response)|]|]);
      cbn; rewrite <- ?app_assoc; cbn;
      eexists; (split; [reflexivity|reflexivity]).
Qed.

(** X26. The flow ends with status 0 exactly when the service answers
    the health request with status 200 and the retraining request with
    status 200 and a JSON body, whatever that body says; otherwise with
    status 1. When the health check fails the retraining request is not
    sent: the health request is the only call. *)
Theorem flow_exit_status
    (RAG_SERVICE_URL : string) (FEEDBACK_THRESHOLD : Z)
    (requests : RetrainFlow.Requests) (now : string) (w : World) :
  let healthy :=
    answers_200
      (call_outcome w
         (RetrainFlow.get requests (RAG_SERVICE_URL +:+ "/health") 5)) in
  let triggered :=
    answers_200_with_json
      (call_outcome (after_call w)
         (RetrainFlow.post requests (RAG_SERVICE_URL +:+ "/rag/retrain")
            [("feedback_threshold", FEEDBACK_THRESHOLD)] 300)) in
  exists w',
    RetrainFlow.main RAG_SERVICE_URL FEEDBACK_THRESHOLD requests now w
    = (Ok (if healthy && triggered then 0%Z else 1%Z), w')
    /\ qdrant w' = qdrant w
    /\ schedule w' = drop (if healthy then 2 else 1) (schedule w).
Proof.
  cbn zeta. unfold RetrainFlow.main.
  set (w0 := with_log w
               [mkLog INFO RetrainFlow.rule [];
                mkLog INFO "Starting automated retraining flow" [];
                mkLog INFO "Timestamp: {datetime.now()}" [ArgStr now];
                mkLog INFO RetrainFlow.rule []]).
  assert (forall k : unit -> M Z,
            (do _ <- logger INFO RetrainFlow.rule [];
             do _ <- logger INFO "Starting automated retraining flow" [];
             do _ <- logger INFO "Timestamp: {datetime.now()}" [ArgStr now];
             do u <- logger INFO RetrainFlow.rule [];
             k u) w = k tt w0) as Hstart.
  { intros k. unfold bind, logger, w0, with_log. cbn.
    by rewrite <- !app_assoc. }
  rewrite Hstart. clear Hstart.
  destruct (check_rag_health_run RAG_SERVICE_URL requests w0)
    as (w1 & Hcheck & Hq1 & Hs1).
  rewrite (bind_Ok _ _ _ _ _ Hcheck).
  change (@call_outcome _ RetrainFlow.Response w0)
    with (@call_outcome _ RetrainFlow.Response w).
  change (schedule w0) with (schedule w) in Hs1.
  change (qdrant w0) with (qdrant w) in Hq1.
  destruct (answers_200
              (call_outcome w
                 (RetrainFlow.get requests (RAG_SERVICE_URL +:+ "/health") 5)))
    eqn:Hhealthy; cbn [negb andb].
  - set (w2 := with_log w1 [mkLog INFO "✅ RAG service is healthy" []]).
    rewrite (bind_Ok (logger INFO "✅ RAG service is healthy" []) _ w1 tt w2
               eq_refl).
    destruct (trigger_retraining_run RAG_SERVICE_URL FEEDBACK_THRESHOLD
                requests w2) as (w3 & Htrig & Hq3 & Hs3).
    rewrite (bind_Ok _ _ _ _ _ Htrig).
    change (schedule w2) with (schedule w1) in Hs3.
    change (qdrant w2) with (qdrant w1) in Hq3.
    assert (forall answer : Result RetrainFlow.Response,
              call_outcome w2 answer = call_outcome (after_call w) answer)
      as Hsame.
    { intros answer. unfold call_outcome, after_call.
      change (schedule w2) with (schedule w1). by rewrite Hs1. }
    rewrite Hsame.
    assert (schedule w3 = drop 2 (schedule w)) as Hdrop.
    { rewrite Hs3, Hs1. by destruct (schedule w) as [|x [|y rest]]. }
    destruct (answers_200_with_json (call_outcome (after_call w) _));
      cbn [andb]; eexists; (split; [reflexivity|]); cbn; split; congruence.
  - eexists. split; [reflexivity|]. cbn. split; [exact Hq1|].
    rewrite Hs1. by destruct (schedule w).
Qed.

End FlowMore.

(* ===================================================================== *)
(** ** The properties at work on the small implementation *)
(* ===================================================================== *)

Import Reference.

(** [evaluate t as H] runs the closed program [t] and records what it
    returns as [H : t = (result, t.2)]. *)
Tactic Notation "evaluate" constr(t) "as" ident(H) :=
  let r := eval vm_compute in (t.1) in
  assert (H : t = (r, t.2)) by (apply run_result; vm_compute; reflexivity).

(** C10 at work: the embedding model loads, then the server refuses
    every call. *)
Lemma ingestor_construction_witness :
  (Ingest._initialize_embeddings groq_settings unreachable_world).1
  = Ok (HuggingFaceEmbeddings "all-MiniLM-L6-v2")
  /\ RecursiveCharacterTextSplitter (chunk_size groq_settings)
       (chunk_overlap groq_settings) = Ok (1000%Z, 200%Z)
  /\ exists self w',
       Ingest.__init__ groq_settings unreachable_world = (Ok self, w').
Proof.
  evaluate (Ingest._initialize_embeddings groq_settings unreachable_world)
    as Hemb.
  split; [by rewrite Hemb|]. split; [reflexivity|].
  apply (ingestor_construction_survives_store_failures
           groq_settings unreachable_world _ _ _ Hemb eq_refl).
Defined.

(** C2, the mismatch as the specification states it, fails: the
    collection exists with vectors of size 1536, the HuggingFace
    embeddings configured need 384, and the check returns normally and
    leaves everything as it was. *)
Lemma mismatched_dimension_is_accepted :
  qdrant world_1536 !! qdrant_collection_name groq_settings
  = Some (mkCollection (mkVectorParams 1536 COSINE) [])
  /\ vector_size_for groq_settings = 384%nat
  /\ Ingest._ensure_collection_exists groq_settings client world_1536
     = (Ok tt, world_1536).
Proof. repeat split; vm_compute; reflexivity. Qed.

(** C5 at work: the default settings name OpenAI and hold no key; other
    settings name a generation provider the service does not know. *)
Lemma construction_fails_witness :
  embedding_credential_absent Config.defaults
  /\ (exists msg w',
        App.startup Config.defaults empty_world = (Raise (ValueError msg), w'))
  /\ llm_provider_unrecognized mistral_settings
  /\ (exists msg w',
        App.startup mistral_settings empty_world
        = (Raise (ValueError msg), w')).
Proof.
  split; [split; reflexivity|]. split.
  - destruct (proj1 (construction_fails_on_misconfiguration
                       Config.defaults empty_world))
      as (msg & w' & _ & _ & Hstart & _).
    + right. split; reflexivity.
    + exists msg, w'. exact Hstart.
  - split; [repeat split; discriminate|].
    destruct (proj2 (construction_fails_on_misconfiguration
                       mistral_settings empty_world))
      as (_ & _ & _ & Hstart).
    + left. repeat split; discriminate.
    + evaluate (Ingest.__init__ mistral_settings empty_world) as Hinit.
      evaluate (Query._initialize_embeddings mistral_settings
                  (Ingest.__init__ mistral_settings empty_world).2) as Hemb.
      destruct (Hstart _ _ _ _ Hinit Hemb) as (msg & w' & Hs & _).
      exists msg, w'. exact Hs.
Defined.



(** C8 at work: a text file of two spaces and a line feed. *)
Lemma blank_document_witness :
  (Ingest._extract_text [x20; x20; x0a] "blank.txt" "text/plain"
     populated_world).1 = Ok ("  " +:+ nl)
  /\ Py.isspace ("  " +:+ nl) = true
  /\ exists w',
       Ingest.ingest groq_settings ingestor [x20; x20; x0a] "blank.txt"
         "text/plain" populated_world = (Raise no_text, w')
       /\ qdrant w' = qdrant populated_world.
Proof.
  evaluate (Ingest._extract_text [x20; x20; x0a] "blank.txt" "text/plain"
              populated_world) as Hex.
  split; [by rewrite Hex|]. split; [reflexivity|].
  destruct (blank_document_is_rejected groq_settings ingestor _ _ _ _ _ _ Hex)
    as (w' & Hing & Hq & _); [right; reflexivity|].
  exists w'. by split.
Defined.


(** C7 at work: two of the three stored chunks are asked for; and five
    are asked of a collection that holds none. *)
Lemma retrieval_witness :
  (exists r w',
     Query.query groq_settings engine "How do I reset my password?"
       "session-1" 2 populated_world = (Ok r, w')
     /\ Query.context r
        = ["Reset it from the login page."; "Refunds take five days."]
     /\ length (Query.context r) <= 2)
  /\ (exists r w',
        Query.query groq_settings engine "How do I reset my password?"
          "session-1" 5 (Ingest.__init__ groq_settings empty_world).2
        = (Ok r, w')
        /\ Query.context r = []
        /\ Query.response r = "I don't know.").
Proof.
  split.
  - evaluate (Query.query groq_settings engine "How do I reset my password?"
                "session-1" 2 populated_world) as Hq.
    destruct (proj1 (retrieval_returns_at_most_top_k groq_settings engine
                       "How do I reset my password?" "session-1" 2
                       populated_world) _ _ Hq)
      as (store & col & hits & _ & _ & _ & Hlen & _).
    eexists _, _. split; [exact Hq|]. split; [reflexivity|exact Hlen].
  - destruct (proj2 (retrieval_returns_at_most_top_k groq_settings engine
                       "How do I reset my password?" "session-1" 5
                       (Ingest.__init__ groq_settings empty_world).2)
                (mkQdrant client "customer_support_docs"
                   (HuggingFaceEmbeddings "all-MiniLM-L6-v2"))
                (mkCollection (mkVectorParams 384 COSINE) []))
      as (r & w' & Hq);
      [reflexivity | vm_compute; reflexivity | reflexivity
      | vm_compute; reflexivity |].
    evaluate (Query.query groq_settings engine "How do I reset my password?"
                "session-1" 5 (Ingest.__init__ groq_settings empty_world).2)
      as Hq'.
    eexists _, _. split; [exact Hq'|]. split; reflexivity.
Defined.

(** C1 at work: OpenAI is configured; one token per byte for "gpt-4",
    and no tokenizer for "support-model-v2". *)
Lemma token_estimate_witness :
  Py.lower (llm_provider openai_settings) = "openai"
  /\ Query.__init__ openai_settings empty_world
     = (Ok openai_engine, (Query.__init__ openai_settings empty_world).2)
  /\ Query.__init__ custom_model_settings empty_world
     = (Ok custom_model_engine,
        (Query.__init__ custom_model_settings empty_world).2)
  /\ encoding_for_model (llm_model (Query.llm openai_engine))
     = Ok "cl100k_base"
  /\ encoding_for_model (llm_model (Query.llm custom_model_engine))
     = Raise (LibraryError "tiktoken"
                "Could not automatically map model to a tokeniser")
  /\ (exists r w',
        Query.query openai_settings openai_engine "Refunds?" "session-1" 1
          openai_world = (Ok r, w')
        /\ Query.context r = ["Call us."]
        /\ Query.response r = "I don't know."
        /\ Query.tokens_used r = (8 + 13 + 8 + 100)%nat)
  /\ (exists r w' earlier,
        Query.query custom_model_settings custom_model_engine "Refunds?"
          "session-1" 1 openai_world = (Ok r, w')
        /\ Query.tokens_used r = 0%nat
        /\ log w'
           = earlier
             ++ [estimate_warning
                   (LibraryError "tiktoken"
                      "Could not automatically map model to a tokeniser");
                 processed_record 1]).
Proof.
  evaluate (Query.__init__ openai_settings empty_world) as Hinit.
  evaluate (Query.__init__ custom_model_settings empty_world) as Hinit'.
  split; [reflexivity|]. split; [exact Hinit|]. split; [exact Hinit'|].
  split; [reflexivity|]. split; [reflexivity|]. split.
  - evaluate (Query.query openai_settings openai_engine "Refunds?" "session-1"
                1 openai_world) as Hq.
    eexists _, _. split; [exact Hq|]. split; [reflexivity|].
    split; [reflexivity|].
    exact (proj1 (token_estimate_of_query openai_settings _ _ _ _ _ _ _ _ _
                    eq_refl Hinit Hq)
             "cl100k_base" _ _
             [map nat_of_ascii (list_ascii_of_string "Call us.")]
             eq_refl eq_refl eq_refl ltac:(repeat constructor)).
  - evaluate (Query.query custom_model_settings custom_model_engine "Refunds?"
                "session-1" 1 openai_world) as Hq.
    destruct (proj1 (proj2 (token_estimate_of_query custom_model_settings
                              _ _ _ _ _ _ _ _ _ eq_refl Hinit' Hq))
                _ eq_refl)
      as (Hzero & earlier & Hlog).
    eexists _, _, earlier. split; [exact Hq|]. split; [exact Hzero|].
    exact Hlog.
Defined.

(** C9 at work: three samples against a threshold of 10, and [retrain]
    with the same threshold. *)
Lemma insufficient_feedback_witness :
  (Z.of_nat (length [(∅ : gmap string Retrain.Value); ∅; ∅]) < 10)%Z
  /\ (exists r w',
        Retrain.after_collection [∅; ∅; ∅] 10 None empty_world = (Ok r, w')
        /\ r !! "status" = Some (Retrain.VStr "skipped")
        /\ r !! "reason" = Some (Retrain.VStr "insufficient_data")
        /\ r !! "samples_collected" = Some (Retrain.VInt 3))
  /\ (exists r w',
        Retrain.retrain (Retrain.mkRetrainManager (Retrain.mkOpenAI ""))
          10 None empty_world = (Ok r, w')
        /\ r !! "status" = Some (Retrain.VStr "skipped")
        /\ r !! "samples_collected" = Some (Retrain.VInt 0)).
Proof.
  split; [reflexivity|].
  destruct (insufficient_feedback_is_skipped
              (Retrain.mkRetrainManager (Retrain.mkOpenAI ""))
              [∅; ∅; ∅] 10 None empty_world eq_refl) as [Hafter Hretrain].
  split.
  - destruct Hafter as (r & w' & Hrun & Hs & Hr & Hn & _).
    exists r, w'. by repeat split.
  - destruct (Hretrain eq_refl) as (r & w' & Hrun & Hs & _ & Hn & _).
    exists r, w'. by repeat split.
Defined.

(** C9, the reason as the specification spells it, fails: with nothing
    collected against a threshold of 10 the result is "skipped", and its
    reason is not the text "insufficient data". *)
Lemma skipped_reason_spelling :
  exists r w',
    Retrain.retrain (Retrain.mkRetrainManager (Retrain.mkOpenAI ""))
      10 None empty_world = (Ok r, w')
    /\ r !! "status" = Some (Retrain.VStr "skipped")
    /\ r !! "samples_collected" = Some (Retrain.VInt 0)
    /\ r !! "reason" <> Some (Retrain.VStr "insufficient data").
Proof.
  destruct (retrain_skips (Retrain.mkRetrainManager (Retrain.mkOpenAI ""))
              10 None empty_world eq_refl) as (w' & Hrun).
  destruct (skipped_fields 0 10) as (Hs & Hr & Hn & _).
  exists (skipped 0 10), w'. repeat split; try assumption.
  rewrite Hr. discriminate.
Qed.

(** C10 at work: the server refuses the call that lists the collections
    while the ingestor is built; the constructor returns all the same,
    no collection exists, and the first ingestion fails in [add_texts],
    at the upsert. *)
Example creation_failure_surfaces_at_upsert :
  let built :=
    Ingest.__init__ groq_settings
      (mkWorld ∅ [None; Some connection_refused] [] 0) in
  built.1 = Ok ingestor
  /\ qdrant built.2 !! "customer_support_docs" = None
  /\ (Ingest.ingest groq_settings ingestor (list_byte_of_string "Call us.")
        "faq.txt" "text/plain" built.2).1
     = Raise (qdrant_error "Collection not found").
Proof. repeat split; vm_compute; reflexivity. Qed.

(** C3 at work: Groq is configured, the engine holds the Groq chat
    object and its model answers the prompt, and the result names the
    OpenAI model of the settings. *)
Lemma model_field_under_groq :
  Py.lower (llm_provider groq_settings) = "groq"
  /\ (Query.__init__ groq_settings empty_world).1 = Ok engine
  /\ llm_model (Query.llm engine) = "llama-3.1-70b-versatile"
  /\ exists r w',
       Query.query groq_settings engine "How do I reset my password?"
         "session-1" 5 populated_world = (Ok r, w')
       /\ Query.model r = "gpt-4".
Proof.
  split; [reflexivity|]. split; [vm_compute; reflexivity|].
  split; [reflexivity|].
  evaluate (Query.query groq_settings engine "How do I reset my password?"
              "session-1" 5 populated_world) as Hq.
  eexists _, _. split; [exact Hq|]. reflexivity.
Qed.

(** Under Groq the tokenizer is still looked up for the OpenAI model of
    the settings: the engine holds the Groq chat object in both runs,
    and the count follows [openai_model] alone. *)
Example estimate_under_groq :
  llm_model (Query.llm engine) = "llama-3.1-70b-versatile"
  /\ (exists r,
        (Query.query groq_settings engine "Refunds?" "session-1" 1
           populated_world).1 = Ok r
        /\ Query.tokens_used r = 129%nat)
  /\ (exists r,
        (Query.query (configure "groq" "huggingface" "" "gsk_key"
                        "support-model-v2")
           engine "Refunds?" "session-1" 1 populated_world).1 = Ok r
        /\ Query.tokens_used r = 0%nat).
Proof.
  split; [reflexivity|]. split; eexists; (split; [vm_compute; reflexivity|]);
    reflexivity.
Qed.

(** A text of [n] characters. *)
Lemma length_replicate_x (n : nat) :
  String.length (string_of_list_ascii (repeat "x"%char n)) = n.
Proof. induction n as [|n IH]; cbn; congruence. Qed.

(** C1, the fallback as the specification states it, fails: for a model
    without a tokenizer no average token length makes the estimate the
    character count divided by it, with or without an overhead. *)
Lemma no_character_count_fallback :
  encoding_for_model (openai_model custom_model_settings)
  = Raise (LibraryError "tiktoken"
             "Could not automatically map model to a tokeniser")
  /\ ~ exists average_token_length overhead : nat,
        (0 < average_token_length)%nat
        /\ forall query response context,
             (Query._estimate_tokens custom_model_settings query response
                context empty_world).1
             = Ok (spec_fallback_estimate average_token_length overhead
                     query response context).
Proof.
  split; [reflexivity|].
  intros (L & c & HL & Hall).
  specialize (Hall (string_of_list_ascii (repeat "x"%char L)) "" []).
  destruct (estimate_without_tokenizer custom_model_settings
              (string_of_list_ascii (repeat "x"%char L)) "" [] empty_world
              _ eq_refl) as (w' & Hzero & _).
  rewrite Hzero in Hall. cbn [fst] in Hall. injection Hall as Hall.
  unfold spec_fallback_estimate in Hall.
  rewrite length_replicate_x in Hall. cbn [String.length map list_sum] in Hall.
  rewrite !Nat.add_0_r, Nat.div_same in Hall by lia. lia.
Qed.

(* ------------------------------------------------------------------- *)
(** *** The further properties at work *)

(** Text of any declared type is decoded; undecodable bytes under a
    text suffix raise the error of the decoder. *)
Lemma text_decoding_witness :
  Ingest._extract_text (list_byte_of_string "Call us.") "notes.bin"
    "application/octet-stream" empty_world
  = (Ok "Call us.", empty_world)
  /\ Ingest._extract_text binary_file "notes.txt" "text/plain" empty_world
     = (Raise UnicodeDecodeError,
        with_log empty_world [extract_error_record UnicodeDecodeError]).
Proof.
  split.
  - exact (proj1 (text_is_decoded_whatever_the_declared_type
                    (list_byte_of_string "Call us.") "notes.bin"
                    "application/octet-stream" empty_world eq_refl) eq_refl).
  - exact (proj2 (text_is_decoded_whatever_the_declared_type binary_file
                    "notes.txt" "text/plain" empty_world eq_refl) eq_refl).
Defined.

(** A PDF by its name, in capitals, and one by its declared type that
    the reader refuses. *)
Lemma pdf_text_witness :
  Ingest._extract_text report_pdf "Report.PDF" "application/octet-stream"
    empty_world
  = (Ok ("Quarterly report" +:+ nl), empty_world)
  /\ exists e,
       Ingest._extract_text binary_file "upload" "application/pdf" empty_world
       = (Raise e,
          with_log empty_world [pdf_error_record e; extract_error_record e]).
Proof.
  split.
  - apply (proj1 (pdf_text_is_the_pages_in_order report_pdf "Report.PDF"
                    "application/octet-stream" empty_world eq_refl)
             ["Quarterly report"] ["Quarterly report"] eq_refl).
    repeat constructor.
  - eexists.
    apply (proj1 (proj2 (pdf_text_is_the_pages_in_order binary_file "upload"
                           "application/pdf" empty_world eq_refl))).
    reflexivity.
Defined.

(** A PDF whose only page holds no text. *)
Lemma pdf_without_text_witness :
  exists w',
    Ingest.ingest groq_settings ingestor scanned_pdf "scan.pdf"
      "application/pdf" populated_world
    = (Raise no_text, w')
    /\ qdrant w' = qdrant populated_world.
Proof.
  destruct (pdf_without_text_is_rejected groq_settings ingestor scanned_pdf
              "scan.pdf" "application/pdf" populated_world [""]
              eq_refl eq_refl)
    as (w' & Hing & Hq & _).
  - repeat constructor.
  - exists w'. by split.
Defined.

(** One chunk is appended to the three that are stored. *)
Lemma provenance_witness :
  exists r w' new,
    Ingest.ingest groq_settings ingestor (list_byte_of_string "Call us.")
      "faq.txt" "text/plain" populated_world = (Ok r, w')
    /\ qdrant w'
       = appended (qdrant populated_world) "customer_support_docs" new
    /\ map payload new
       = [chunk_document "faq.txt" (Ingest.vector_store_id r) 1 0 "Call us."].
Proof.
  evaluate (Ingest.ingest groq_settings ingestor
              (list_byte_of_string "Call us.") "faq.txt" "text/plain"
              populated_world) as Hing.
  destruct (ingested_chunks_carry_provenance groq_settings ingestor _ _ _ _ _ _
              Hing eq_refl)
    as (text & w1 & new & Hex & _ & _ & Hq & Hpay & _).
  evaluate (Ingest._extract_text (list_byte_of_string "Call us.") "faq.txt"
              "text/plain" populated_world) as Hex'.
  rewrite Hex' in Hex. injection Hex as <- _.
  eexists _, _, new. split; [exact Hing|]. split; [exact Hq|exact Hpay].
Defined.

(** With Pinecone configured the chunk is counted and not stored. *)
Lemma ingest_without_qdrant_witness :
  exists r w',
    Ingest.ingest pinecone_settings ingestor (list_byte_of_string "Call us.")
      "faq.txt" "text/plain" populated_world = (Ok r, w')
    /\ Ingest.chunk_count r = 1
    /\ qdrant w' = qdrant populated_world.
Proof.
  destruct (ingest_without_qdrant_stores_nothing pinecone_settings ingestor
              (list_byte_of_string "Call us.") "faq.txt" "text/plain"
              populated_world populated_world "Call us.")
    as (r & w' & Hing & Hn & Hq & _); [done|reflexivity|reflexivity|].
  exists r, w'. by repeat split.
Defined.

(** The collection has vectors of size 1536, the embeddings of the
    ingestor have 384 dimensions. *)
Lemma dimension_mismatch_witness :
  exists msg w',
    Ingest.ingest groq_settings ingestor (list_byte_of_string "Call us.")
      "faq.txt" "text/plain" world_1536
    = (Raise (qdrant_error msg), w')
    /\ qdrant w' = qdrant world_1536.
Proof.
  destruct (dimension_mismatch_surfaces_at_ingestion groq_settings ingestor
              (list_byte_of_string "Call us.") "faq.txt" "text/plain"
              world_1536 world_1536 "Call us." client
              (mkCollection (mkVectorParams 1536 COSINE) []))
    as (msg & w' & Hing & Hq & _);
    [reflexivity|reflexivity|done|reflexivity|reflexivity
    |vm_compute; reflexivity|intros t; cbn; lia|reflexivity|].
  exists msg, w'. by split.
Defined.

(** "HuggingFace", in capitals. *)
Lemma mixed_case_provider_witness :
  exists self w',
    Ingest.__init__ capitalised_settings empty_world = (Ok self, w')
    /\ Ingest.embeddings self = HuggingFaceEmbeddings "all-MiniLM-L6-v2"
    /\ qdrant w' !! "customer_support_docs"
       = Some (mkCollection (mkVectorParams 1536 COSINE) []).
Proof.
  destruct (mixed_case_provider_gets_the_default_size capitalised_settings
              empty_world (1000%Z, 200%Z))
    as (w' & Hinit & Hq); [reflexivity|done|reflexivity|reflexivity
                          |reflexivity|reflexivity|].
  eexists _, w'. split; [exact Hinit|]. split; [reflexivity|].
  rewrite Hq. apply lookup_insert_eq.
Defined.

(** A query leaves the three chunks as they are. *)
Lemma read_only_witness :
  qdrant (Query.query groq_settings engine "How do I reset my password?"
            "session-1" 2 populated_world).2
  = qdrant populated_world.
Proof.
  apply (proj1 (queries_never_write groq_settings engine)
           "How do I reset my password?" "session-1" 2 populated_world
           (Query.query groq_settings engine "How do I reset my password?"
              "session-1" 2 populated_world).1).
  apply surjective_pairing.
Defined.

(** Groq with its key. *)
Lemma llm_construction_witness :
  exists l w',
    Query._initialize_llm groq_settings empty_world = (Ok l, w')
    /\ llm_model l = "llama-3.1-70b-versatile".
Proof.
  destruct (llm_is_built_exactly_when_configured groq_settings empty_world)
    as (Hiff & Hok & _).
  destruct (proj2 Hiff) as (l & w' & Hrun).
  { right; left. by repeat split. }
  exists l, w'. split; [exact Hrun|].
  by apply (proj1 (proj2 (proj2 (Hok l w' Hrun)))).
Defined.

(** The application starts under [groq_settings]. *)
Lemma startup_witness :
  exists c w', App.startup groq_settings empty_world = (Ok c, w').
Proof.
  apply (proj2 (startup_succeeds_exactly_when_configured groq_settings
                  empty_world eq_refl)).
  split; [by right|]. split; [right; left; by repeat split|].
  by exists (1000%Z, 200%Z).
Defined.

Lemma shared_store_witness :
  exists c w',
    App.startup groq_settings empty_world = (Ok c, w')
    /\ Query.vector_store (App.query_engine c)
       = Some (mkQdrant client "customer_support_docs"
                 (Ingest.embeddings (App.document_ingestor c))).
Proof.
  evaluate (App.startup groq_settings empty_world) as Hrun.
  destruct (components_share_the_store groq_settings _ _ _ Hrun)
    as (_ & Hq & _).
  eexists _, _. split; [exact Hrun|]. by apply Hq.
Defined.

(** The server answers; the server refuses. *)
Lemma health_check_witness :
  Query.check_vector_db_health groq_settings engine populated_world
  = (Ok true, populated_world)
  /\ (Query.check_vector_db_health groq_settings engine refusing_world).1
     = Ok false.
Proof.
  destruct (health_check_reports_the_listing_call groq_settings engine
              populated_world) as (_ & _ & Hq).
  destruct (health_check_reports_the_listing_call groq_settings engine
              refusing_world) as (_ & _ & Hr).
  split.
  - exact (proj1 (Hq client eq_refl eq_refl) eq_refl).
  - rewrite (proj2 (Hr client eq_refl eq_refl) connection_refused);
      [reflexivity|by eexists].
Defined.

(** The server of the examples leaves the count out. *)
Lemma stats_witness :
  exists d w',
    Query.get_stats groq_settings engine populated_world = (Ok d, w')
    /\ d !! "status" = Some (Query.SStr "healthy")
    /\ d !! "vectors_count" = Some Query.SNone
    /\ d !! "collection" = Some (Query.SStr "customer_support_docs").
Proof.
  destruct (proj1 (proj2 (proj2 (stats_report_the_collection groq_settings
                                   engine populated_world))
                     client eq_refl eq_refl)
              (mkCollection (mkVectorParams 384 COSINE)
                 [chunk "Reset it from the login page.";
                  chunk "Refunds take five days."; chunk "Call us."])
              eq_refl)
    as (d & w' & Hrun & Hs & Hn & Hc & _); [vm_compute; reflexivity|].
  exists d, w'. by repeat split.
Defined.

(** The engine is built under Pinecone, and its queries fail. *)
Lemma query_without_qdrant_witness :
  exists self u' w',
    Query.__init__ pinecone_settings empty_world = (Ok self, u')
    /\ Query.query pinecone_settings self "How do I reset my password?"
         "session-1" 5 populated_world
       = (Raise (AttributeError
                   "'RAGQueryEngine' object has no attribute 'vector_store'"),
          w').
Proof.
  evaluate (Query.__init__ pinecone_settings empty_world) as Hinit.
  destruct (query_without_qdrant_always_fails pinecone_settings _ _ _ Hinit
              ltac:(done) "How do I reset my password?" "session-1" 5
              populated_world) as (w' & Hrun & _).
  eexists _, _, w'. split; [exact Hinit|exact Hrun].
Defined.

(** The count of a query under [groq_settings]. *)
Lemma token_count_witness :
  exists r w',
    Query.query groq_settings engine "How do I reset my password?"
      "session-1" 2 populated_world = (Ok r, w')
    /\ (Query.tokens_used r = 0 \/ 100 <= Query.tokens_used r).
Proof.
  evaluate (Query.query groq_settings engine "How do I reset my password?"
              "session-1" 2 populated_world) as Hq.
  eexists _, _. split; [exact Hq|].
  exact (proj2 (token_count_is_zero_or_includes_overhead groq_settings engine
                  "How do I reset my password?" "session-1" 2) _ _ _ Hq).
Defined.

(** A fourth chunk is ingested, and a query for five chunks retrieves
    the four. *)
Lemma round_trip_witness :
  exists rq w2,
    Query.query groq_settings engine "How do I reset my password?" "session-1"
      5 (Ingest.ingest groq_settings ingestor
           (list_byte_of_string "Open on weekdays.") "hours.txt" "text/plain"
           populated_world).2 = (Ok rq, w2)
    /\ Query.context rq
       ≡ₚ ["Reset it from the login page."; "Refunds take five days.";
           "Call us."; "Open on weekdays."].
Proof.
  evaluate (Query.__init__ groq_settings empty_world) as Hinit.
  evaluate (Ingest.ingest groq_settings ingestor
              (list_byte_of_string "Open on weekdays.") "hours.txt"
              "text/plain" populated_world) as Hing.
  evaluate (Query.query groq_settings engine "How do I reset my password?"
              "session-1" 5
              (Ingest.ingest groq_settings ingestor
                 (list_byte_of_string "Open on weekdays.") "hours.txt"
                 "text/plain" populated_world).2) as Hq.
  evaluate (Ingest._extract_text (list_byte_of_string "Open on weekdays.")
              "hours.txt" "text/plain" populated_world) as Hex'.
  assert (qdrant populated_world !! qdrant_collection_name groq_settings
          = Some (mkCollection (mkVectorParams 384 COSINE)
                    [chunk "Reset it from the login page.";
                     chunk "Refunds take five days."; chunk "Call us."]))
    as Hcol by (vm_compute; reflexivity).
  destruct (ingested_chunks_are_retrieved groq_settings ingestor engine
              _ _ _ _ _ _ _ 5 _ _ _ _ _ _ Hinit eq_refl Hcol Hing Hq)
    as (text & w0 & Hex & Hperm); [cbn; lia|].
  rewrite Hex' in Hex. injection Hex as <- _.
  eexists _, _. split; [exact Hq|exact Hperm].
Defined.

(** The application starts on an empty server and leaves the collection
    of the HuggingFace size. *)
Lemma startup_collection_witness :
  exists c w',
    App.startup groq_settings empty_world = (Ok c, w')
    /\ qdrant w' !! "customer_support_docs"
       = Some (mkCollection (mkVectorParams 384 COSINE) []).
Proof.
  evaluate (App.startup groq_settings empty_world) as Hrun.
  destruct (startup_leaves_the_collection_in_place groq_settings _ _ _ Hrun
              eq_refl eq_refl) as (_ & Hq).
  eexists _, _. split; [exact Hrun|]. rewrite Hq. reflexivity.
Defined.

(** The same file twice. *)
Lemma reingestion_witness :
  exists r1 r2 w2,
    Ingest.ingest groq_settings ingestor (list_byte_of_string "Call us.")
      "faq.txt" "text/plain"
      (Ingest.ingest groq_settings ingestor (list_byte_of_string "Call us.")
         "faq.txt" "text/plain" populated_world).2 = (Ok r2, w2)
    /\ Ingest.chunk_count r1 = 1%nat
    /\ Ingest.chunk_count r2 = 1%nat
    /\ stored_texts w2 "customer_support_docs"
       = ["Reset it from the login page."; "Refunds take five days.";
          "Call us."] ++ ["Call us."] ++ ["Call us."].
Proof.
  evaluate (Ingest.ingest groq_settings ingestor
              (list_byte_of_string "Call us.") "faq.txt" "text/plain"
              populated_world) as Hing1.
  evaluate (Ingest.ingest groq_settings ingestor
              (list_byte_of_string "Call us.") "faq.txt" "text/plain"
              (Ingest.ingest groq_settings ingestor
                 (list_byte_of_string "Call us.") "faq.txt" "text/plain"
                 populated_world).2) as Hing2.
  evaluate (Ingest._extract_text (list_byte_of_string "Call us.") "faq.txt"
              "text/plain" populated_world) as Hex.
  assert (qdrant populated_world !! qdrant_collection_name groq_settings
          = Some (mkCollection (mkVectorParams 384 COSINE)
                    [chunk "Reset it from the login page.";
                     chunk "Refunds take five days."; chunk "Call us."]))
    as Hcol by (vm_compute; reflexivity).
  destruct (reingestion_stores_the_chunks_again groq_settings ingestor
              _ _ _ _ _ _ _ _ _ eq_refl Hcol Hing1 Hing2)
    as (text & we & Hex' & Hn1 & Hn2 & Hstored).
  rewrite Hex in Hex'. injection Hex' as <- _.
  eexists _, _, _. split; [exact Hing2|].
  split; [exact Hn1|]. split; [exact Hn2|exact Hstored].
Defined.

(** Three samples against a threshold of three. *)
Lemma sufficient_feedback_witness :
  exists r w',
    Retrain.after_collection three_samples 3 None empty_world = (Ok r, w')
    /\ r !! "status" = Some (Retrain.VStr "initiated")
    /\ r !! "samples_used" = Some (Retrain.VInt 3).
Proof.
  destruct (sufficient_feedback_is_reported_as_initiated three_samples 3 None
              empty_world) as (r & w' & Hrun & _ & Hs & Hn & _); [cbn; lia|].
  exists r, w'. by repeat split.
Defined.

(** A threshold of 0. *)
Lemma retraining_outcome_witness :
  exists r w',
    Retrain.retrain manager 0 None empty_world = (Ok r, w')
    /\ r !! "status" = Some (Retrain.VStr "initiated")
    /\ r !! "samples_used" = Some (Retrain.VInt 0).
Proof.
  destruct (retraining_outcome_is_decided_by_the_threshold manager 0 None
              empty_world) as (r & w' & Hrun & _ & Hs & _ & Hn & _).
  exists r, w'. split; [exact Hrun|]. split; [exact Hs|]. apply Hn. lia.
Defined.

(** The third sample has no response. *)
Lemma finetuning_format_witness :
  exists system_message,
    Retrain._format_for_finetuning three_samples !! 2
    = Some [system_message;
            Retrain.mkMessage "user" (Retrain.VStr "Hello");
            Retrain.mkMessage "assistant" (Retrain.VStr "")].
Proof.
  destruct (proj1 (proj2 (proj2 (finetuning_format_reads_query_and_response
                                   three_samples)))
              2 (<["query" := Retrain.VStr "Hello"]> ∅) eq_refl)
    as (m & Hm).
  exists m. rewrite Hm. reflexivity.
Defined.

(** The reply of the query route names the OpenAI model. *)
Lemma query_route_witness :
  exists reply w',
    App.query_rag groq_settings components
      (App.QueryRequest.mk "How do I reset my password?" "session-1" 2)
      populated_world = (Ok (App.Sent reply), w')
    /\ App.QueryResponse.model reply = "gpt-4"
    /\ App.QueryResponse.context reply
       = ["Reset it from the login page."; "Refunds take five days."].
Proof.
  evaluate (Query.query groq_settings engine "How do I reset my password?"
              "session-1" 2
              (with_log populated_world
                 [processing_record
                    (App.QueryRequest.mk "How do I reset my password?"
                       "session-1" 2)])) as Hq.
  destruct (proj1 (query_route_answers_failures_with_500 groq_settings
                     components
                     (App.QueryRequest.mk "How do I reset my password?"
                        "session-1" 2) populated_world) _ _ Hq)
    as (w' & Hrun & _).
  eexists _, w'. split; [exact Hrun|]. split; reflexivity.
Defined.

(** The flow ends with status 0 although the retraining was skipped,
    and with status 1, after one call, when the service cannot be
    reached. *)
Example flow_at_work :
  (RetrainFlow.main "http://localhost:8000" 10 ref_requests
     "2024-01-01 02:00:00" empty_world).1 = Ok 0%Z
  /\ (RetrainFlow.main "http://localhost:8000" 10 unreachable_requests
        "2024-01-01 02:00:00" empty_world).1 = Ok 1%Z.
Proof. split; vm_compute; reflexivity. Qed.

Example routes_at_work :
  (App.health_check groq_settings components 0 refusing_world).1
  = Ok (App.Sent (App.HealthResponse.mk "degraded" 0 "1.0.0" "qdrant"))
  /\ (exists details,
        (App.retrain_model components (App.RetrainRequest.mk 10 None)
           empty_world).1
        = Ok (App.Sent (App.RetrainReply.mk "success"
                          "Model retraining initiated" details))
        /\ details !! "status" = Some (Retrain.VStr "skipped")).
Proof.
  split; [vm_compute; reflexivity|].
  eexists. split; [reflexivity|]. by simplify_map_eq.
Qed.

Example prefix_of_characters :
  Py.prefix_chars 3 ("h" +:+ String (ascii_of_nat 195)
                               (String (ascii_of_nat 169) "llo"))
  = "h" +:+ String (ascii_of_nat 195) (String (ascii_of_nat 169) "l").
Proof. reflexivity. Qed.
